(** * Pravaah: the water-quality dashboard, its analysis pipeline and thresholds

    A shallow embedding of the Streamlit application:
    - [App]        : src/app.py, the role selector and its confidence threshold;
    - [Citizen]    : src/views/citizen.py, the particle-count risk level;
    - [Government] : src/views/government.py, the six-stage analysis pipeline
                     of [show_government_dashboard] and the report it renders;
    - [Loader]     : how the view modules are imported by src/app.py;
    - [Admin]      : src/views/admin_panel.py, the login, the user filters, the
                     model cards and the growth chart;
    - [CitizenView]: src/views/citizen.py, the analysis of an upload and the
                     history tab;
    - [Comparison] : src/views/government.py, the comparison of locations;
    - [Researcher] : src/views/researcher.py, the Raman spectroscopy tab.

    Python [float] is IEEE binary64, which is Rocq's primitive [float]; Python
    [int] is [Z]; a [dict] a model returns is a record whose field [k] is
    optional where the code reads it with [d.get(k, default)] or tests
    [k in d], and where the run itself indexes [d[k]], which then raises
    KeyError on a missing key; a [dict] whose keys are data is a [gmap].
    Library calls that can raise on the values they are handed ([st.image],
    [np.interp], a model function, an import) return a sum. *)

From Stdlib Require Import ZArith Floats Lia List String Ascii Sorted.
From stdpp Require Import gmap strings list.

(* Decimal literals such as 0.35 denote the nearest binary64 value, which is
   also how Python reads them. *)
Set Warnings "-inexact-float".

Open Scope Z_scope.
Open Scope string_scope.

(** ** Python primitives shared by the three modules *)

Module Py.

(** [x > y], [x < y] and [x <= y] on floats; every comparison with a NaN is
    [False]. *)
Definition gt (x y : float) : bool := PrimFloat.ltb y x.
Definition lt (x y : float) : bool := PrimFloat.ltb x y.
Definition le (x y : float) : bool := PrimFloat.leb x y.

(** [needle in hay] on [str]. *)
Fixpoint str_in (needle hay : string) : bool :=
  if String.prefix needle hay then true
  else match hay with
       | EmptyString => false
       | String _ rest => str_in needle rest
       end.

(** Instances of Python's [Exception] class: what an [except Exception]
    clause matches. [str(e)] is the message. *)
Record Exception := mkException { exc_type : string; exc_msg : string }.

Definition str (e : Exception) : string := exc_msg e.

(** A number stored in a dict of measurements: [int] or [float]. *)
Inductive Num :=
| Int (n : Z)
| Float (x : float).

End Py.

(** ** src/app.py *)

Module App.

(** Values kept in [st.session_state] by the sidebar. *)
Inductive SessionValue :=
| SFloat (x : float)
| SStr (s : string).

(** The four options of the [st.radio] role selector (line 186). *)
Definition role_options : list string :=
  [ "👥 Public User"; "🏛️ Government Official"; "🔬 Researcher"; "⚙️ Admin Panel" ].

(** Lines 191-216: the confidence threshold chosen from the role. *)
Definition confidence (role : string) : float :=
  if Py.str_in "Public" role then 0.50%float
  else if Py.str_in "Government" role then 0.35%float
  else if Py.str_in "Researcher" role then 0.10%float
  else 0.10%float.

(** Lines 218-219: the sidebar stores threshold and role in the session. *)
Definition sidebar (role : string) (session_state : gmap string SessionValue)
  : gmap string SessionValue :=
  <["user_role" := SStr role]>
    (<["confidence_threshold" := SFloat (confidence role)]> session_state).

(** Lines 263-277: the dashboard the role is routed to. *)
Inductive Dashboard := CitizenView | GovernmentView | ResearcherView | AdminView.

Definition route (user_role : string) : option Dashboard :=
  if Py.str_in "Public" user_role then Some CitizenView
  else if Py.str_in "Government" user_role then Some GovernmentView
  else if Py.str_in "Researcher" user_role then Some ResearcherView
  else if Py.str_in "Admin" user_role then Some AdminView
  else None.

End App.

(** ** src/views/citizen.py *)

Module Citizen.

(** Lines 253 and 360:
    ['High' if particle_count > 100 else 'Moderate' if particle_count > 50 else 'Low']. *)
Definition risk (particle_count : Z) : string :=
  if (100 <? particle_count)%Z then "High"
  else if (50 <? particle_count)%Z then "Moderate"
  else "Low".

(** Lines 170-211: the health-impact box shown for the same count. *)
Definition risk_level_box (particle_count : Z) : string :=
  if (100 <? particle_count)%Z then "SEVERE"
  else if (50 <? particle_count)%Z then "MODERATE"
  else "LOW".

End Citizen.

(** ** src/views/government.py *)

Module Government.
Import Py.

(** *** Inputs: the upload and the twelve measurement widgets (lines 51-85) *)

Record Submission := mkSubmission {
  uploaded : option (list Byte.byte);
  temperature : float;
  ph : float;
  turbidity : float;
  dissolved_oxygen : float;
  conductivity : float;
  bod : float;
  cod : float;
  tds : float;
  nitrate : float;
  phosphate : float;
  chloride : float;
  fecal_coliform : Z
}.

(** *** The result dicts of the six stages

    A key the pipeline or the report reads with [.get] is optional, and so
    is ['wqi_score'], which lines 158-209 index and line 247 reads with
    [.get]; a key only the report indexes ([pinn_result['time_hours']],
    [twin_result['days']], ...) is a field. Every fallback dict carries the
    key ['error']. *)

Record YoloResult := mkYolo {
  count : option Z;
  particle_types : option (gmap string Z);
  annotated_image : option (list Byte.byte);
  yolo_error : option string
}.

Record RamanResult := mkRaman {
  polymer : option string;
  confidence : option float;
  raman_error : option string
}.

Record WqiResult := mkWqi {
  wqi_score : option float;
  classification : option string;
  wqi_error : option string
}.

(** A [pd.DataFrame] with the columns ['Date'] and ['Predicted_WQI'];
    timestamps are microseconds since the epoch. *)
Record DataFrame := mkDataFrame {
  Date : list Z;
  Predicted_WQI : list float
}.

Record ForecastResult := mkForecast {
  forecast_df : option DataFrame;
  forecast_error : option string
}.

Record PinnResult := mkPinn {
  time_hours : list float;
  do_predictions : list float;
  mean_do : option float;
  critical_hours : option (list float);
  pinn_error : option string
}.

Record TwinResult := mkTwin {
  days : list Z;
  wqi_trajectory : list float;
  final_wqi : option float;
  twin_error : option string
}.

(** *** What the function runs against

    The six model entry points live in modules that are imported inside
    each [try]: the import itself may raise, and so may the call. *)

Record Models := mkModels {
  predict_image_with_viz :
    Exception + (list Byte.byte -> float -> string -> Exception + YoloResult);
  predict_polymer :
    Exception + (list float -> Exception + RamanResult);
  predict_wqi :
    Exception + (gmap string Num -> Exception + WqiResult);
  forecast_wqi :
    Exception + (float -> Exception + ForecastResult);
  predict_dissolved_oxygen :
    Exception + (gmap string Num -> Z -> Exception + PinnResult);
  run_digital_twin_simulation :
    Exception + (gmap string Num -> Z -> Exception + TwinResult)
}.

(** [np.sin] and [np.mean] are taken as given; [rand_draw k] and
    [randn_draw k] are what the k-th draw from numpy's global generator
    yields when a uniform, respectively a standard normal, sample is asked
    for; [now] is the reading of [datetime.now()]. *)
Record Runtime := mkRuntime {
  models : Models;
  np_sin : float -> float;
  np_mean : list float -> float;
  rand_draw : nat -> float;
  randn_draw : nat -> float;
  now : Z
}.

Inductive SessionValue :=
| SYolo (r : YoloResult)
| SRaman (r : RamanResult)
| SWqi (r : WqiResult)
| SForecast (r : ForecastResult)
| SPinn (r : PinnResult)
| STwin (r : TwinResult).

(** Calls into Streamlit that the pipeline makes, in order. *)
Inductive Ui :=
| StatusMarkdown (text : string)
| Progress (percent : Z)
| StError (text : string)
| StWarning (text : string).

(** The state the function threads: the number of draws taken from the
    random generator, the Streamlit calls made so far (latest first),
    [st.session_state], and the local variable [wqi_features], unbound
    ([None]) until line 128 assigns it. *)
Record State := mkState {
  draws : nat;
  ui : list Ui;
  session_state : gmap string SessionValue;
  wqi_features : option (gmap string Num)
}.

(** *** Exceptions and state *)

Definition M (A : Type) : Type := State -> (Exception + A) * State.

Definition ret {A} (a : A) : M A := fun s => (inr a, s).

Definition raise {A} (e : Exception) : M A := fun s => (inl e, s).

Definition bind {A B} (m : M A) (k : A -> M B) : M B :=
  fun s => match m s with
           | (inl e, s') => (inl e, s')
           | (inr a, s') => k a s'
           end.

(** [try: body except Exception as e: handler]. *)
Definition try_except {A} (body : M A) (handler : Exception -> M A) : M A :=
  fun s => match body s with
           | (inl e, s') => handler e s'
           | (inr a, s') => (inr a, s')
           end.

Declare Scope py_scope.
Delimit Scope py_scope with py.
Notation "'let*' x ':=' m 'in' k" := (bind m (fun x => k))
  (at level 10, x name, m at level 100, k at level 200) : py_scope.
Notation "m ';;' k" := (bind m (fun _ => k))
  (at level 100, k at level 200, right associativity) : py_scope.
Open Scope py_scope.

(** An import or a call: its outcome, the state untouched. *)
Definition lift {A} (r : Exception + A) : M A := fun s => (r, s).

(** [KeyError(key)], whose [str] is the quoted key. *)
Definition KeyError (key : string) : Exception :=
  mkException "KeyError" ("'" ++ key ++ "'").

(** [d[key]]. *)
Definition index {A} (key : string) (field : option A) : M A :=
  lift (match field with
        | Some v => inr v
        | None => inl (KeyError key)
        end).

Definition st (event : Ui) : M unit :=
  fun s => (inr tt, mkState (draws s) (event :: ui s) (session_state s) (wqi_features s)).

Definition set_session (key : string) (v : SessionValue) : M unit :=
  fun s => (inr tt, mkState (draws s) (ui s) (<[key := v]> (session_state s)) (wqi_features s)).

Definition assign_wqi_features (d : gmap string Num) : M unit :=
  fun s => (inr tt, mkState (draws s) (ui s) (session_state s) (Some d)).

(** Reading the local [wqi_features]: [UnboundLocalError] while unbound. *)
Definition unbound_wqi_features : Exception :=
  mkException "UnboundLocalError"
    "cannot access local variable 'wqi_features' where it is not associated with a value".

Definition read_wqi_features : M (gmap string Num) :=
  fun s => match wqi_features s with
           | Some d => (inr d, s)
           | None => (inl unbound_wqi_features, s)
           end.

(** [np.random.rand(n)] and [np.random.randn(n)]: the next [n] draws. *)
Definition np_random_rand (rt : Runtime) (n : nat) : M (list float) :=
  fun s => (inr (map (rand_draw rt) (seq (draws s) n)),
            mkState (draws s + n) (ui s) (session_state s) (wqi_features s)).

Definition np_random_randn (rt : Runtime) (n : nat) : M (list float) :=
  fun s => (inr (map (randn_draw rt) (seq (draws s) n)),
            mkState (draws s + n) (ui s) (session_state s) (wqi_features s)).

(** *** numpy and pandas operations used by the fallbacks *)

Definition of_nat (n : nat) : float :=
  PrimFloat.of_uint63 (Uint63.of_Z (Z.of_nat n)).

(** [np.linspace(start, stop, num)] with the default [endpoint=True]. *)
Definition np_linspace (start stop : float) (num : nat) : list float :=
  let div := (num - 1)%nat in
  let delta := (stop - start)%float in
  let y := map of_nat (seq 0 num) in
  let y :=
    if (0 <? div)%nat then
      let step := (delta / of_nat div)%float in
      if PrimFloat.eqb step 0%float
      then map (fun v => (v / of_nat div * delta)%float) y
      else map (fun v => (v * step)%float) y
    else map (fun v => (v * delta)%float) y in
  let y := map (fun v => (v + start)%float) y in
  if (1 <? num)%nat then <[div := stop]> y else y.

(** [np.arange(n)]. *)
Definition np_arange (n : nat) : list Z := map Z.of_nat (seq 0 n).

(** [np.cumsum]: running sums, left to right. *)
Fixpoint accumulate (acc : float) (xs : list float) : list float :=
  match xs with
  | [] => []
  | x :: rest => let acc' := (acc + x)%float in acc' :: accumulate acc' rest
  end.

Definition np_cumsum (xs : list float) : list float :=
  match xs with
  | [] => []
  | x :: rest => x :: accumulate x rest
  end.

(** [xs[mask]] with a boolean mask: [IndexError] unless the lengths agree. *)
Fixpoint select {A} (xs : list A) (mask : list bool) : list A :=
  match xs, mask with
  | x :: xs', b :: mask' => if b then x :: select xs' mask' else select xs' mask'
  | _, _ => []
  end.

Definition mask_index (xs : list float) (mask : list bool) : M (list float) :=
  if (length xs =? length mask)%nat then ret (select xs mask)
  else raise (mkException "IndexError" "boolean index did not match indexed array").

(** [xs[-1]]: [IndexError] on an empty array. *)
Definition last_item (xs : list float) : M float :=
  match last xs with
  | Some x => ret x
  | None => raise (mkException "IndexError" "index -1 is out of bounds for axis 0 with size 0")
  end.

Definition day_us : Z := 86400000000.

(** [pd.date_range(start=start, periods=periods, freq='D')]. *)
Definition pd_date_range (start : Z) (periods : nat) : list Z :=
  map (fun i => start + Z.of_nat i * day_us) (seq 0 periods).

(** [pd.DataFrame({'Date': dates, 'Predicted_WQI': values})]: [ValueError]
    unless the columns have one length. *)
Definition pd_DataFrame (dates : list Z) (values : list float) : M DataFrame :=
  if (length dates =? length values)%nat then ret (mkDataFrame dates values)
  else raise (mkException "ValueError" "All arrays must be of the same length").

(** [d.get(k, default)] on an optional key. *)
Definition get {A} (field : option A) (default : A) : A :=
  match field with
  | Some v => v
  | None => default
  end.

(** *** The six stages (lines 96-215) *)

(** Step 1: lines 97-106. *)
Definition step1 (rt : Runtime) (image : list Byte.byte) : M YoloResult :=
  st (StatusMarkdown "**Step 1/6:** Running YOLOv8 detection...") ;;
  st (Progress 16) ;;
  try_except
    (let* predict := lift (predict_image_with_viz (models rt)) in
     let* yolo_result := lift (predict image 0.35%float "Government") in
     set_session "yolo_result" (SYolo yolo_result) ;;
     ret yolo_result)
    (fun e =>
     st (StError ("YOLO detection failed: " ++ str e)) ;;
     ret (mkYolo (Some 0) (Some ∅) None (Some (str e)))).

(** Step 2: lines 109-120. *)
Definition step2 (rt : Runtime) : M RamanResult :=
  st (StatusMarkdown "**Step 2/6:** Raman spectroscopy analysis...") ;;
  st (Progress 33) ;;
  try_except
    (let* predict := lift (predict_polymer (models rt)) in
     let* raman_spectrum := np_random_rand rt 1024 in
     let* raman_result := lift (predict raman_spectrum) in
     set_session "raman_result" (SRaman raman_result) ;;
     ret raman_result)
    (fun e =>
     st (StWarning ("Raman analysis skipped: " ++ str e)) ;;
     ret (mkRaman (Some "PE") (Some 0.85%float) (Some (str e)))).

(** Lines 128-145: the feature dict built from the widgets. *)
Definition make_wqi_features (sub : Submission) : gmap string Num :=
  list_to_map
    [ ("temperature", Float (temperature sub));
      ("ph", Float (ph sub));
      ("dissolved_oxygen", Float (dissolved_oxygen sub));
      ("conductivity", Float (conductivity sub));
      ("turbidity", Float (turbidity sub));
      ("tds", Float (tds sub));
      ("bod", Float (bod sub));
      ("cod", Float (cod sub));
      ("nitrate", Float (nitrate sub));
      ("phosphate", Float (phosphate sub));
      ("fecal_coliform", Int (fecal_coliform sub));
      ("total_coliform", Int (fecal_coliform sub * 8));
      ("chloride", Float (chloride sub));
      ("fluoride", Float 0.8%float);
      ("hardness", Int 180);
      ("alkalinity", Int 120) ].

(** Step 3: lines 123-150. *)
Definition step3 (rt : Runtime) (sub : Submission) : M WqiResult :=
  st (StatusMarkdown "**Step 3/6:** Calculating Water Quality Index...") ;;
  st (Progress 50) ;;
  try_except
    (let* predict := lift (predict_wqi (models rt)) in
     assign_wqi_features (make_wqi_features sub) ;;
     let* features := read_wqi_features in
     let* wqi_result := lift (predict features) in
     set_session "wqi_result" (SWqi wqi_result) ;;
     ret wqi_result)
    (fun e =>
     st (StWarning ("WQI calculation skipped: " ++ str e)) ;;
     ret (mkWqi (Some 52.3%float) (Some "Moderate") (Some (str e)))).

(** Lines 163-164: the mock forecast values around the stage-3 score. *)
Definition mock_forecast (score : float) (noise : list float) : list float :=
  map (fun d => (score + d * 5)%float) noise.

(** Step 4: lines 153-168. *)
Definition step4 (rt : Runtime) (wqi_result : WqiResult) : M ForecastResult :=
  st (StatusMarkdown "**Step 4/6:** Generating 60-day WQI forecast...") ;;
  st (Progress 66) ;;
  try_except
    (let* forecast := lift (forecast_wqi (models rt)) in
     let* score := index "wqi_score" (wqi_score wqi_result) in
     let* forecast_result := lift (forecast score) in
     set_session "forecast_result" (SForecast forecast_result) ;;
     ret forecast_result)
    (fun e =>
     st (StWarning ("Forecast skipped: " ++ str e)) ;;
     let dates := pd_date_range (now rt) 60 in
     let* score := index "wqi_score" (wqi_score wqi_result) in
     let* noise := np_random_randn rt 60 in
     let* df := pd_DataFrame dates (mock_forecast score noise) in
     ret (mkForecast (Some df) (Some (str e)))).

(** Lines 181-182: the mock oxygen curve. *)
Definition mock_do (rt : Runtime) (dissolved_oxygen : float) (time_hours : list float)
  : list float :=
  map (fun t => (dissolved_oxygen + np_sin rt (t / 12) * 2 - t / 72 * 3)%float) time_hours.

(** Step 5: lines 171-189. *)
Definition step5 (rt : Runtime) (sub : Submission) : M PinnResult :=
  st (StatusMarkdown "**Step 5/6:** PINN dissolved oxygen prediction (72h)...") ;;
  st (Progress 83) ;;
  try_except
    (let* predict := lift (predict_dissolved_oxygen (models rt)) in
     let* features := read_wqi_features in
     let* pinn_result := lift (predict features 72) in
     set_session "pinn_result" (SPinn pinn_result) ;;
     ret pinn_result)
    (fun e =>
     st (StWarning ("PINN prediction skipped: " ++ str e)) ;;
     let time_hours := np_linspace 0%float 72%float 100 in
     let do_pred := mock_do rt (dissolved_oxygen sub) time_hours in
     let* critical := mask_index time_hours (map (fun d => lt d 4.0%float) do_pred) in
     ret (mkPinn time_hours do_pred (Some (np_mean rt do_pred)) (Some critical) (Some (str e)))).

(** Lines 197-202: the parameters handed to the simulator. *)
Definition make_twin_params (yolo_result : YoloResult) (initial_wqi : float)
  : gmap string Num :=
  list_to_map
    [ ("pollution_load", Int (get (count yolo_result) 0 * 10));
      ("cleanup_frequency", Float 0.2%float);
      ("regulation_strictness", Float 0.7%float);
      ("initial_wqi", Float initial_wqi) ].

(** Line 209: the mock trajectory. *)
Definition mock_trajectory (score : float) (noise : list float) : list float :=
  map (fun c => (score + c * 2)%float) (np_cumsum noise).

(** Step 6: lines 192-215. *)
Definition step6 (rt : Runtime) (yolo_result : YoloResult) (wqi_result : WqiResult)
  : M TwinResult :=
  st (StatusMarkdown "**Step 6/6:** Running digital twin simulation (30 days)...") ;;
  st (Progress 100) ;;
  try_except
    (let* simulate := lift (run_digital_twin_simulation (models rt)) in
     let* initial_wqi := index "wqi_score" (wqi_score wqi_result) in
     let twin_params := make_twin_params yolo_result initial_wqi in
     let* twin_result := lift (simulate twin_params 30) in
     set_session "twin_result" (STwin twin_result) ;;
     ret twin_result)
    (fun e =>
     st (StWarning ("Digital twin skipped: " ++ str e)) ;;
     let days := np_arange 30 in
     let* score := index "wqi_score" (wqi_score wqi_result) in
     let* noise := np_random_randn rt 30 in
     let wqi_sim := mock_trajectory score noise in
     let* final := last_item wqi_sim in
     ret (mkTwin days wqi_sim (Some final) (Some (str e)))).

(** *** The pipeline (lines 88-217, 437-438) *)

(** The six result variables the report is rendered from. *)
Record Report := mkReport {
  yolo_result : YoloResult;
  raman_result : RamanResult;
  wqi_result : WqiResult;
  forecast_result : ForecastResult;
  pinn_result : PinnResult;
  twin_result : TwinResult
}.

Definition run_pipeline (rt : Runtime) (sub : Submission) (image : list Byte.byte)
  : M Report :=
  st (Progress 0) ;;
  let* yolo_result := step1 rt image in
  let* raman_result := step2 rt in
  let* wqi_result := step3 rt sub in
  let* forecast_result := step4 rt wqi_result in
  let* pinn_result := step5 rt sub in
  let* twin_result := step6 rt yolo_result wqi_result in
  st (StatusMarkdown "**✅ Analysis complete!**") ;;
  ret (mkReport yolo_result raman_result wqi_result forecast_result pinn_result twin_result).

(** A call of the function starts with its locals unbound. *)
Definition enter : M unit :=
  fun s => (inr tt, mkState (draws s) (ui s) (session_state s) None).

(** [show_government_dashboard] with the "Run Complete Pipeline" button
    pressed: the report, or [None] after the warning when nothing is
    uploaded. *)
Definition show_government_dashboard (rt : Runtime) (sub : Submission)
  : M (option Report) :=
  enter ;;
  match uploaded sub with
  | Some image =>
      let* report := run_pipeline rt sub image in
      ret (Some report)
  | None =>
      st (StWarning "⚠️ Please upload a water sample image to begin analysis") ;;
      ret None
  end.

(** *** What the report shows (lines 219-401) *)

(** Line 248. *)
Definition wqi_color (wqi_score : float) : string :=
  if gt wqi_score 75%float then "#2ecc71"
  else if gt wqi_score 50%float then "#f39c12"
  else "#e74c3c".

(** Lines 343-350: [len(pinn_result.get('critical_hours', []))] and the box
    it selects. *)
Definition critical_points (pinn_result : PinnResult) : nat :=
  length (get (critical_hours pinn_result) []).

Inductive DoNotice :=
| Alert (time_points : nat)
| SafeLimits.

Definition do_notice (pinn_result : PinnResult) : DoNotice :=
  if (0 <? critical_points pinn_result)%nat
  then Alert (critical_points pinn_result)
  else SafeLimits.

(** Lines 376-377. *)
Definition improvement (twin_result : TwinResult) (wqi_score : float) : float :=
  let final_wqi_twin := get (final_wqi twin_result) wqi_score in
  (final_wqi_twin - wqi_score)%float.

(** Lines 379-384: the box chosen from [improvement]. *)
Inductive Impact := PositiveImpact | NegativeImpact | Stable.

Definition impact (improvement : float) : Impact :=
  if gt improvement 5%float then PositiveImpact
  else if lt improvement (-5)%float then NegativeImpact
  else Stable.

(** Line 390. *)
Definition high_contamination (yolo_result : YoloResult) : bool :=
  (100 <? get (count yolo_result) 0)%Z.

(** *** What the [try] block of each stage gets from its model

    The import, then the call with the arguments of lines 102, 116, 146,
    158, 176 and 203. Stages 4 and 6 index ['wqi_score'] on the way to the
    call; stage 5 reads the local [wqi_features], which is bound only once
    the import of stage 3 has succeeded. *)

Definition detect (rt : Runtime) (image : list Byte.byte) : Exception + YoloResult :=
  match predict_image_with_viz (models rt) with
  | inl e => inl e
  | inr predict => predict image 0.35%float "Government"
  end.

Definition classify (rt : Runtime) (raman_spectrum : list float) : Exception + RamanResult :=
  match predict_polymer (models rt) with
  | inl e => inl e
  | inr predict => predict raman_spectrum
  end.

Definition score (rt : Runtime) (sub : Submission) : Exception + WqiResult :=
  match predict_wqi (models rt) with
  | inl e => inl e
  | inr predict => predict (make_wqi_features sub)
  end.

Definition forecast (rt : Runtime) (wqi_result : WqiResult) : Exception + ForecastResult :=
  match forecast_wqi (models rt) with
  | inl e => inl e
  | inr predict =>
      match wqi_score wqi_result with
      | Some score => predict score
      | None => inl (KeyError "wqi_score")
      end
  end.

Definition predictPhysics (rt : Runtime) (features : option (gmap string Num))
  : Exception + PinnResult :=
  match predict_dissolved_oxygen (models rt) with
  | inl e => inl e
  | inr predict =>
      match features with
      | Some d => predict d 72
      | None => inl unbound_wqi_features
      end
  end.

Definition simulate (rt : Runtime) (yolo_result : YoloResult) (wqi_result : WqiResult)
  : Exception + TwinResult :=
  match run_digital_twin_simulation (models rt) with
  | inl e => inl e
  | inr run =>
      match wqi_score wqi_result with
      | Some initial_wqi => run (make_twin_params yolo_result initial_wqi) 30
      | None => inl (KeyError "wqi_score")
      end
  end.

(** The local [wqi_features] after stage 3. *)
Definition features_after_score (rt : Runtime) (sub : Submission)
  : option (gmap string Num) :=
  match predict_wqi (models rt) with
  | inl _ => None
  | inr _ => Some (make_wqi_features sub)
  end.

(** The draws the generator has handed out once stage 2 is over: the
    spectrum is drawn only after the import of line 113 has succeeded. *)
Definition draws_after_classify (rt : Runtime) (draws : nat) : nat :=
  match predict_polymer (models rt) with
  | inl _ => draws
  | inr _ => (draws + 1024)%nat
  end.

(** The draws handed out once stage 4 is over: its handler takes 60. *)
Definition draws_after_forecast (rt : Runtime) (wqi_result : WqiResult) (draws : nat) : nat :=
  match forecast rt wqi_result with
  | inl _ => (draws + 60)%nat
  | inr _ => draws
  end.

(** *** The dict each [except] clause assigns

    The handlers of lines 106, 120, 150, 163-168, 181-189 and 208-215 read
    as values: [draws] is the number of draws the generator has handed out
    when the handler is entered, [score] the value of
    [wqi_result['wqi_score']]. *)

Definition yolo_fallback (e : Exception) : YoloResult :=
  mkYolo (Some 0) (Some ∅) None (Some (str e)).

Definition raman_fallback (e : Exception) : RamanResult :=
  mkRaman (Some "PE") (Some 0.85%float) (Some (str e)).

Definition wqi_fallback (e : Exception) : WqiResult :=
  mkWqi (Some 52.3%float) (Some "Moderate") (Some (str e)).

Definition forecast_fallback (rt : Runtime) (score : float) (draws : nat)
  (e : Exception) : ForecastResult :=
  let dates := pd_date_range (now rt) 60 in
  let noise := map (randn_draw rt) (seq draws 60) in
  mkForecast (Some (mkDataFrame dates (mock_forecast score noise))) (Some (str e)).

Definition pinn_fallback (rt : Runtime) (sub : Submission) (e : Exception) : PinnResult :=
  let time_hours := np_linspace 0%float 72%float 100 in
  let do_pred := mock_do rt (dissolved_oxygen sub) time_hours in
  mkPinn time_hours do_pred (Some (np_mean rt do_pred))
    (Some (select time_hours (map (fun d => lt d 4.0%float) do_pred)))
    (Some (str e)).

Definition twin_fallback (rt : Runtime) (score : float) (draws : nat)
  (e : Exception) : TwinResult :=
  let noise := map (randn_draw rt) (seq draws 30) in
  let wqi_sim := mock_trajectory score noise in
  mkTwin (np_arange 30) wqi_sim (last wqi_sim) (Some (str e)).

(** The value of a stage: what its model returned, or the handler's dict. *)
Definition or_fallback {R : Type} (outcome : Exception + R) (fallback : Exception -> R) : R :=
  match outcome with
  | inr v => v
  | inl e => fallback e
  end.

(** The value of [wqi_result] once stage 3 is over. *)
Definition stage3 (rt : Runtime) (sub : Submission) : WqiResult :=
  or_fallback (score rt sub) wqi_fallback.

(** *** Reading a report: which stages fell back, and why

    The fallback dict of a stage is the one that carries ['error']. *)

Inductive Stage := Detect | Classify | Score | Forecast | PhysicsPredict | Simulate.

Definition stages : list Stage :=
  [Detect; Classify; Score; Forecast; PhysicsPredict; Simulate].

Definition reason (r : Report) (stage : Stage) : option string :=
  match stage with
  | Detect => yolo_error (yolo_result r)
  | Classify => raman_error (raman_result r)
  | Score => wqi_error (wqi_result r)
  | Forecast => forecast_error (forecast_result r)
  | PhysicsPredict => pinn_error (pinn_result r)
  | Simulate => twin_error (twin_result r)
  end.

Definition is_degraded (r : Report) (stage : Stage) : bool :=
  match reason r stage with
  | Some _ => true
  | None => false
  end.

Definition degraded_stages (r : Report) : list Stage :=
  List.filter (is_degraded r) stages.

(** The session key a stage stores its result under when its model ran. *)
Definition stored (r : Report) (stage : Stage) : string * SessionValue :=
  match stage with
  | Detect => ("yolo_result", SYolo (yolo_result r))
  | Classify => ("raman_result", SRaman (raman_result r))
  | Score => ("wqi_result", SWqi (wqi_result r))
  | Forecast => ("forecast_result", SForecast (forecast_result r))
  | PhysicsPredict => ("pinn_result", SPinn (pinn_result r))
  | Simulate => ("twin_result", STwin (twin_result r))
  end.

(** The status line a stage opens with. *)
Definition status_line (stage : Stage) : string :=
  match stage with
  | Detect => "**Step 1/6:** Running YOLOv8 detection..."
  | Classify => "**Step 2/6:** Raman spectroscopy analysis..."
  | Score => "**Step 3/6:** Calculating Water Quality Index..."
  | Forecast => "**Step 4/6:** Generating 60-day WQI forecast..."
  | PhysicsPredict => "**Step 5/6:** PINN dissolved oxygen prediction (72h)..."
  | Simulate => "**Step 6/6:** Running digital twin simulation (30 days)..."
  end.

(** The Streamlit calls made between two states, and whether they include
    a given call, or the status line of a stage. *)
Definition extends (s s' : State) : Prop :=
  exists new, ui s' = (new ++ ui s)%list.

Definition shows (event : Ui) (s s' : State) : Prop :=
  exists new, ui s' = (new ++ ui s)%list /\ In event new.

Definition announces (stage : Stage) (s s' : State) : Prop :=
  shows (StatusMarkdown (status_line stage)) s s'.

(** The Streamlit calls made since [s], latest first. *)
Definition shown_since (s s' : State) : list Ui :=
  firstn (length (ui s') - length (ui s)) (ui s').

Definition complete : Ui := StatusMarkdown "**✅ Analysis complete!**".

(** Whether the model of a stage raises: at import, or whatever it is
    called with. *)
Definition raises {F : Type} (entry : Exception + F) (always : F -> Prop) : Prop :=
  match entry with
  | inl _ => True
  | inr f => always f
  end.

Definition all_models_fail (m : Models) : Prop :=
  raises (predict_image_with_viz m) (fun f => forall i c l, exists e, f i c l = inl e) /\
  raises (predict_polymer m) (fun f => forall x, exists e, f x = inl e) /\
  raises (predict_wqi m) (fun f => forall x, exists e, f x = inl e) /\
  raises (forecast_wqi m) (fun f => forall x, exists e, f x = inl e) /\
  raises (predict_dissolved_oxygen m) (fun f => forall x h, exists e, f x h = inl e) /\
  raises (run_digital_twin_simulation m) (fun f => forall x h, exists e, f x h = inl e).

(** Strictly increasing timestamps. *)
Fixpoint increasing (ts : list Z) : bool :=
  match ts with
  | a :: (b :: _) as rest => (a <? b)%Z && increasing rest
  | _ => true
  end.


(** What the spec asks of a forecast result: an "ordered sequence of
    (date, predicted score) pairs, strictly increasing in date, length
    fixed by horizon". *)
Definition is_ForecastResult (horizon : nat) (r : ForecastResult) : Prop :=
  exists df,
    forecast_df r = Some df /\
    length (Date df) = horizon /\
    length (Predicted_WQI df) = horizon /\
    increasing (Date df) = true.


(** Modelled from the spec: lines 163-164 as the spec words them, "the
    stage-3 score perturbed by bounded random walk across the horizon": the
    scaled draws accumulate from one day to the next. *)
Definition random_walk_forecast (score : float) (noise : list float) : list float :=
  map (fun c => (score + c)%float) (np_cumsum (map (fun d => (d * 5)%float) noise)).

End Government.

(** ** Sample inputs *)

Module Scenarios.
Import Py Government.

(** The widgets at their defaults (lines 70-85) and a three-byte upload. *)
Definition image : list Byte.byte := [Byte.xff; Byte.xd8; Byte.xff].

Definition sample : Submission :=
  mkSubmission (Some image) 25.0 7.0 25.0 7.5 450.0 10.0 35.0 300.0 8.5 2.1 85.0 150.

Definition missing (module : string) : Exception :=
  mkException "ModuleNotFoundError" ("No module named '" ++ module ++ "'").

(** No model package is installed: every import raises. *)
Definition no_models : Models :=
  mkModels (inl (missing "models")) (inl (missing "models")) (inl (missing "models"))
    (inl (missing "models")) (inl (missing "models")) (inl (missing "models")).

(** Every module imports, every model raises when called. *)
Definition broken_models : Models :=
  mkModels
    (inr (fun _ _ _ => inl (mkException "FileNotFoundError" "models/yolo/best.pt")))
    (inr (fun _ => inl (mkException "ValueError" "spectrum has the wrong shape")))
    (inr (fun _ => inl (mkException "RuntimeError" "model is not fitted")))
    (inr (fun _ => inl (mkException "RuntimeError" "too few observations")))
    (inr (fun _ _ => inl (mkException "RuntimeError" "no checkpoint")))
    (inr (fun _ _ => inl (mkException "KeyError" "'decay_rate'"))).

(** Bhaskara's rational approximation of the sine on [0, 2 pi]. *)
Definition pi : float := 3.141592653589793.

Definition sine (x : float) : float :=
  let arch t := (16 * t * (pi - t) / (5 * pi * pi - 4 * t * (pi - t)))%float in
  if PrimFloat.leb x pi then arch x else (- arch (x - pi))%float.

Definition mean (xs : list float) : float :=
  (fold_left PrimFloat.add xs 0 / of_nat (length xs))%float.

(** A fixed sequence of draws: uniform ones in [0, 1), normal ones in
    [-1.5, 1.5]. *)
Definition uniform (k : nat) : float := (of_nat ((k * 37) mod 100) / 100)%float.

Definition normal (k : nat) : float := ((of_nat ((k * 37) mod 7) - 3) / 2)%float.

(** 2024-01-01 00:00:00 UTC. *)
Definition new_year : Z := 1704067200000000.

Definition runtime (m : Models) : Runtime :=
  mkRuntime m sine mean uniform normal new_year.

(** One positive draw, then none: what tells noise from a walk. *)
Definition impulse (k : nat) : float := if (k =? 0)%nat then 1%float else 0%float.

Definition impulse_runtime : Runtime :=
  mkRuntime no_models sine mean uniform impulse new_year.

(** A first visit: nothing drawn, nothing shown, nothing stored. *)
Definition fresh : State := mkState 0 [] ∅ None.

(** Models that all import and return. *)
Definition working_models : Models :=
  mkModels
    (inr (fun _ _ _ =>
            inr (mkYolo (Some 120) (Some (list_to_map [("fiber", 80); ("fragment", 40)]))
                   None None)))
    (inr (fun _ => inr (mkRaman (Some "PET") (Some 0.91%float) None)))
    (inr (fun _ => inr (mkWqi (Some 68.5%float) (Some "Good") None)))
    (inr (fun wqi_score =>
            inr (mkForecast
                   (Some (mkDataFrame (pd_date_range new_year 60)
                            (map (fun i => (wqi_score - of_nat i * 0.1)%float) (seq 0 60))))
                   None)))
    (inr (fun _ _ =>
            inr (mkPinn [0; 36; 72]%float [6.5; 3.9; 3.2]%float (Some 4.5%float)
                   (Some [36; 72]%float) None)))
    (inr (fun _ _ =>
            inr (mkTwin [0; 15; 29] [68.5; 72; 75]%float (Some 75%float) None))).

(** Results outside the data model: a forecast of two dated values, and
    an oxygen curve that dips below 4.0 without the key 'critical_hours'. *)
Definition short_forecast : ForecastResult :=
  mkForecast (Some (mkDataFrame [new_year; new_year + day_us] [50; 51]%float)) None.

Definition silent_physics : PinnResult :=
  mkPinn [0; 36; 72]%float [6.5; 3.9; 3.2]%float (Some 4.5%float) None None.

Definition offhand_models : Models :=
  mkModels
    (predict_image_with_viz working_models)
    (predict_polymer working_models)
    (predict_wqi working_models)
    (inr (fun _ => inr short_forecast))
    (inr (fun _ _ => inr silent_physics))
    (run_digital_twin_simulation working_models).

(** Every model imports and returns, but the index model answers with
    a dict that holds an ['error'] and no score. *)
Definition unscored : WqiResult := mkWqi None None (Some "model not loaded").

Definition unscored_models : Models :=
  mkModels
    (predict_image_with_viz working_models)
    (predict_polymer working_models)
    (inr (fun _ => inr unscored))
    (forecast_wqi working_models)
    (predict_dissolved_oxygen working_models)
    (run_digital_twin_simulation working_models).

(** The same, with the detector's weights missing. *)
Definition blind_unscored_models : Models :=
  mkModels
    (predict_image_with_viz broken_models)
    (predict_polymer working_models)
    (inr (fun _ => inr unscored))
    (forecast_wqi working_models)
    (predict_dissolved_oxygen working_models)
    (run_digital_twin_simulation working_models).

(** The forecast values of a run, and its state. *)
Definition forecast_values (run : (Exception + option Report) * State) : list float :=
  match fst run with
  | inr (Some report) =>
      match forecast_df (forecast_result report) with
      | Some df => Predicted_WQI df
      | None => []
      end
  | _ => []
  end.

Definition degraded (run : (Exception + option Report) * State) : list Stage :=
  match fst run with
  | inr (Some report) => degraded_stages report
  | _ => []
  end.

End Scenarios.

(** ** How Python loads the view modules (src/app.py lines 262-277) *)

Module Loader.
Import Py.

(** A statement at the top level of a module, as far as names go: an
    import that binds names, a [def], and a [with] whose context manager is
    a bare name. *)
Inductive Stmt :=
| Imports (module : string) (binds : list string)
| Def (name : string)
| WithName (context : string).

(** src/views/citizen.py: lines 6-11 and the [def] of line 13. *)
Definition views_citizen : list Stmt :=
  [ Imports "streamlit" ["st"]; Imports "pandas" ["pd"]; Imports "numpy" ["np"];
    Imports "plotly.graph_objects" ["go"]; Imports "datetime" ["datetime"];
    Imports "io" ["io"];
    Def "show_citizen_dashboard" ].

(** src/views/government.py: lines 6-14, the [def] of line 16, and the
    [with tab4:] of line 649, which stands at the first column. *)
Definition views_government : list Stmt :=
  [ Imports "streamlit" ["st"]; Imports "pandas" ["pd"]; Imports "numpy" ["np"];
    Imports "plotly.graph_objects" ["go"]; Imports "plotly.subplots" ["make_subplots"];
    Imports "plotly.express" ["px"]; Imports "datetime" ["datetime"; "timedelta"];
    Imports "folium" ["folium"]; Imports "streamlit_folium" ["st_folium"];
    Def "show_government_dashboard";
    WithName "tab4" ].

(** src/views/researcher.py: lines 6-13 and the [def] of line 15. *)
Definition views_researcher : list Stmt :=
  [ Imports "streamlit" ["st"]; Imports "pandas" ["pd"]; Imports "numpy" ["np"];
    Imports "plotly.graph_objects" ["go"]; Imports "plotly.subplots" ["make_subplots"];
    Imports "plotly.express" ["px"]; Imports "datetime" ["datetime"];
    Imports "io" ["io"];
    Def "show_researcher_dashboard" ].

(** src/views/admin_panel.py: lines 6-11 and the [def]s of lines 13 and 468. *)
Definition views_admin_panel : list Stmt :=
  [ Imports "streamlit" ["st"]; Imports "pandas" ["pd"]; Imports "numpy" ["np"];
    Imports "plotly.graph_objects" ["go"]; Imports "plotly.express" ["px"];
    Imports "datetime" ["datetime"; "timedelta"];
    Def "show_admin_panel"; Def "show_login_screen" ].

Definition NameError (name : string) : Exception :=
  mkException "NameError" ("name '" ++ name ++ "' is not defined").

(** The message goes on with the path of the module's file, left out
    here. *)
Definition ImportError (name module : string) : Exception :=
  mkException "ImportError" ("cannot import name '" ++ name ++ "' from '" ++ module ++ "'").

(** Running a module body: [libraries] is what importing each third-party
    module does; [globals] are the names bound so far. None of the names
    looked up here is a builtin. *)
Fixpoint exec (libraries : string -> Exception + unit) (body : list Stmt)
  (globals : gset string) : Exception + gset string :=
  match body with
  | [] => inr globals
  | Imports module binds :: rest =>
      match libraries module with
      | inl e => inl e
      | inr _ => exec libraries rest (list_to_set binds ∪ globals)
      end
  | Def name :: rest => exec libraries rest ({[name]} ∪ globals)
  | WithName context :: rest =>
      if decide (context ∈ globals) then exec libraries rest globals
      else inl (NameError context)
  end.

(** [from module import name]: the module body runs, then the name is
    looked up in its globals. *)
Definition from_import (libraries : string -> Exception + unit) (module : string)
  (body : list Stmt) (name : string) : Exception + unit :=
  match exec libraries body ∅ with
  | inl e => inl e
  | inr globals =>
      if decide (name ∈ globals) then inr tt else inl (ImportError name module)
  end.

(** Lines 262-277 of src/app.py: the dashboard function that gets called
    for a role, if any. *)
Definition dispatch (libraries : string -> Exception + unit) (user_role : string)
  : Exception + option App.Dashboard :=
  if str_in "Public" user_role then
    match from_import libraries "views.citizen" views_citizen "show_citizen_dashboard" with
    | inl e => inl e
    | inr _ => inr (Some App.CitizenView)
    end
  else if str_in "Government" user_role then
    match from_import libraries "views.government" views_government
            "show_government_dashboard" with
    | inl e => inl e
    | inr _ => inr (Some App.GovernmentView)
    end
  else if str_in "Researcher" user_role then
    match from_import libraries "views.researcher" views_researcher
            "show_researcher_dashboard" with
    | inl e => inl e
    | inr _ => inr (Some App.ResearcherView)
    end
  else if str_in "Admin" user_role then
    match from_import libraries "views.admin_panel" views_admin_panel "show_admin_panel" with
    | inl e => inl e
    | inr _ => inr (Some App.AdminView)
    end
  else inr None.

(** Every third-party module imports. *)
Definition all_installed (libraries : string -> Exception + unit) : Prop :=
  forall module, libraries module = inr tt.

(** Sample: an installation in which every library imports. *)
Definition everything_installed (module : string) : Exception + unit := inr tt.

End Loader.

(** ** src/views/admin_panel.py *)

Module Admin.
Import Py.

(** What the visitor does in one run of the script: the login form's two
    fields and its submit button, and the logout button of the panel. *)
Record Visit := mkVisit {
  username : string;
  password : string;
  submitted : bool;
  logout : bool
}.

Inductive Ui :=
| Title (text : string)
| Success (text : string)
| Error (text : string)
| Info (text : string).

(** A run of the script: the session it leaves, what it showed, in order,
    and whether it ended in [st.rerun()]. *)
Record Run := mkRun {
  session_state : gmap string bool;
  shown : list Ui;
  rerun : bool
}.

Definition login_title : Ui := Title "🔐 Admin Login".
Definition panel_title : Ui := Title "⚙️ System Administration Panel".
Definition demo_credentials : Ui :=
  Info "💡 **Demo Credentials:** Username: `admin`, Password: `admin123`".

(** Lines 468-488. *)
Definition show_login_screen (v : Visit) (ss : gmap string bool) : Run :=
  if submitted v then
    if String.eqb (username v) "admin" && String.eqb (password v) "admin123" then
      mkRun (<["admin_authenticated" := true]> ss)
        [login_title; Success "✅ Login successful!"] true
    else
      mkRun ss [login_title; Error "❌ Invalid credentials"; demo_credentials] false
  else mkRun ss [login_title; demo_credentials] false.

(** Lines 13-23 and 461-465; the six tabs of lines 26-459 lie between the
    title and the logout button. *)
Definition show_admin_panel (v : Visit) (ss : gmap string bool) : Run :=
  let ss :=
    match ss !! "admin_authenticated" with
    | None => <["admin_authenticated" := false]> ss
    | Some _ => ss
    end in
  match ss !! "admin_authenticated" with
  | Some true =>
      if logout v then mkRun (<["admin_authenticated" := false]> ss) [panel_title] true
      else mkRun ss [panel_title] false
  | _ => show_login_screen v ss
  end.

(** The session after a series of runs. *)
Definition browse (visits : list Visit) (ss : gmap string bool) : gmap string bool :=
  fold_left (fun ss v => session_state (show_admin_panel v ss)) visits ss.

Definition good_login (v : Visit) : Prop :=
  submitted v = true /\ username v = "admin" /\ password v = "admin123".

(** *** The user table of lines 76-99 *)

Record User := mkUser {
  ID : string;
  Username : string;
  Role : string;
  Status : string;
  Last_Login : string;
  Analyses : Z
}.

(** Lines 93-97. *)
Definition filter_users (role_filter status_filter : string) (users_data : list User)
  : list User :=
  let filtered_users := users_data in
  let filtered_users :=
    if negb (String.eqb role_filter "All")
    then List.filter (fun u => String.eqb (Role u) role_filter) filtered_users
    else filtered_users in
  let filtered_users :=
    if negb (String.eqb status_filter "All")
    then List.filter (fun u => String.eqb (Status u) status_filter) filtered_users
    else filtered_users in
  filtered_users.

(** *** The model cards of lines 174-191 *)

(** [range(start, stop, step)] for a positive step. *)
Definition range (start stop step : nat) : list nat :=
  map (fun k => start + k * step)%nat (seq 0 ((stop - start + step - 1) / step)).

Definition IndexError : Exception :=
  mkException "IndexError" "list index out of range".

(** [xs[i]]. *)
Definition item {A} (xs : list A) (i : nat) : Exception + A :=
  match nth_error xs i with
  | Some x => inr x
  | None => inl IndexError
  end.

(** The cards rendered, row by row: three columns per row, a card in
    column [j] of the row starting at [i] when [i + j < len(models)]. *)
Fixpoint render_row {A} (models : list A) (i : nat) (columns : list nat)
  : Exception + list A :=
  match columns with
  | [] => inr []
  | j :: rest =>
      if (i + j <? length models)%nat then
        match item models (i + j) with
        | inl e => inl e
        | inr model =>
            match render_row models i rest with
            | inl e => inl e
            | inr cards => inr (model :: cards)
            end
        end
      else render_row models i rest
  end.

Fixpoint render_rows {A} (models : list A) (starts : list nat) : Exception + list A :=
  match starts with
  | [] => inr []
  | i :: rest =>
      match render_row models i [0; 1; 2]%nat with
      | inl e => inl e
      | inr row =>
          match render_rows models rest with
          | inl e => inl e
          | inr cards => inr (row ++ cards)%list
          end
      end
  end.

Definition model_cards {A} (models : list A) : Exception + list A :=
  render_rows models (range 0 (length models) 3).

(** *** The growth chart of lines 134-139 *)

(** [np.random.randint(low, high, size)]: [size] integers in
    [low, high), from the raw integers the generator hands out from draw
    [k] on; ValueError unless [low < high]. *)
Definition np_random_randint (raw : nat -> Z) (low high : Z) (size k : nat)
  : Exception + list Z :=
  if (low <? high)%Z
  then inr (map (fun i => low + raw i mod (high - low)) (seq k size))
  else inl (mkException "ValueError" "low >= high").

(** [np.cumsum] on integers. *)
Fixpoint accumulate (acc : Z) (xs : list Z) : list Z :=
  match xs with
  | [] => []
  | x :: rest => (acc + x) :: accumulate (acc + x) rest
  end.

Definition np_cumsum (xs : list Z) : list Z := accumulate 0 xs.

(** Line 138: [500 + np.cumsum(np.random.randint(0, 20, 90))]. *)
Definition active_users (raw : nat -> Z) (k : nat) : Exception + list Z :=
  match np_random_randint raw 0 20 90 k with
  | inl e => inl e
  | inr steps => inr (map (fun c => 500 + c) (np_cumsum steps))
  end.

(** Sample visits: the demo credentials submitted, a run in which nothing
    is clicked, and a click on the logout button. *)
Definition demo_login : Visit := mkVisit "admin" "admin123" true false.
Definition idle : Visit := mkVisit "admin" "letmein" false false.
Definition leave : Visit := mkVisit "admin" "letmein" false true.

End Admin.

(** ** A run of a view: exceptions, and a state threaded through *)

Module Script.
Import Py.

Definition M (S A : Type) : Type := S -> (Exception + A) * S.

Section Monad.
Context {S : Type}.

Definition ret {A} (a : A) : M S A := fun s => (inr a, s).

Definition raise {A} (e : Exception) : M S A := fun s => (inl e, s).

Definition bind {A B} (m : M S A) (k : A -> M S B) : M S B :=
  fun s => match m s with
           | (inl e, s') => (inl e, s')
           | (inr a, s') => k a s'
           end.

(** [try: body except Exception as e: handler]. *)
Definition try_except {A} (body : M S A) (handler : Exception -> M S A) : M S A :=
  fun s => match body s with
           | (inl e, s') => handler e s'
           | (inr a, s') => (inr a, s')
           end.

(** An import or a call: its outcome, the state untouched. *)
Definition lift {A} (r : Exception + A) : M S A := fun s => (r, s).

Definition when (b : bool) (m : M S unit) : M S unit := if b then m else ret tt.

(** [d[key]]: KeyError, whose [str] is the quoted key. *)
Definition index {A} (key : string) (field : option A) : M S A :=
  match field with
  | Some v => ret v
  | None => raise (mkException "KeyError" ("'" ++ key ++ "'"))
  end.

End Monad.

(** [d.get(key, default)]. *)
Definition get {A} (field : option A) (default : A) : A :=
  match field with
  | Some v => v
  | None => default
  end.

Declare Scope script_scope.
Delimit Scope script_scope with script.
Notation "'let*' x ':=' m 'in' k" := (bind m (fun x => k))
  (at level 10, x name, m at level 100, k at level 200) : script_scope.
Notation "m ';;' k" := (bind m (fun _ => k))
  (at level 100, k at level 200, right associativity) : script_scope.

End Script.

(** ** src/views/citizen.py: the analysis of an upload and its history *)

Module CitizenView.
Import Py Script.
Open Scope script_scope.

(** The dict [predict_image_with_viz] returns. Every key is optional in
    the dict; ['particle_types'] is a dict from type to count, kept in its
    insertion order. *)
Record Detection := mkDetection {
  count : option Z;
  avg_confidence : option float;
  particle_types : option (list (string * Z));
  annotated_image : option (list Byte.byte);
  error : option string
}.

(** The keys of [st.session_state] the view reads and writes; the sidebar
    sets ['confidence_threshold'] on every run (src/app.py line 218), and
    ['current_analysis'] starts as [None] (line 163). *)
Record Session := mkSession {
  confidence_threshold : float;
  current_analysis : option Detection;
  analysis_timestamp : option Z
}.

(** What the view shows; a number is carried as it is before formatting. *)
Inductive Ui :=
| DetectionResults
| AnnotatedImage (image : list Byte.byte)
| TotalParticles (total : Z) (threshold : float)
| DetectionQuality (label : string) (avg_conf : float)
| DominantType (ptype : string) (particles : Z)
| TypeTable (rows : list (string * Z * Z))
| RiskBox (level : string)
| CsvReport (total : Z) (avg_conf : float) (risk_level : string)
    (type_counts : list (string * Z))
| ReportForm
| Error (text : string)
| Info (text : string).

Record State := mkState {
  session_state : Session;
  ui : list Ui
}.

Definition M : Type -> Type := Script.M State.

Definition st (event : Ui) : M unit :=
  fun s => (inr tt, mkState (session_state s) (event :: ui s)).

(** [max(items, key=lambda x: x[1])]: the first item of largest count. *)
Fixpoint max_from (best : string * Z) (items : list (string * Z)) : string * Z :=
  match items with
  | [] => best
  | item :: rest =>
      if (snd best <? snd item)%Z then max_from item rest else max_from best rest
  end.

(** [bool(d.get('particle_types'))]: a non-empty dict. *)
Definition types_of (result : Detection) : list (string * Z) :=
  get (particle_types result) [].

(** Lines 125-139: one row per type; the percentage divides by
    [result['count']]. *)
Fixpoint type_rows (total : option Z) (items : list (string * Z))
  : M (list (string * Z * Z)) :=
  match items with
  | [] => ret []
  | (ptype, n) :: rest =>
      let* total' := index "count" total in
      if (total' =? 0)%Z then raise (mkException "ZeroDivisionError" "division by zero")
      else
        let* rows := type_rows total rest in
        ret ((ptype, n, total') :: rows)
  end.

(** Line 105. *)
Definition conf_label (avg_conf : float) : string :=
  if gt avg_conf 0.75%float then "🟢 High"
  else if gt avg_conf 0.5%float then "🟡 Medium"
  else "🔴 Low".

Definition save (result : Detection) (now : Z) : M unit :=
  fun s => (inr tt,
            mkState (mkSession (confidence_threshold (session_state s))
                       (Some result) (Some now)) (ui s)).

(** Lines 84-296: what is shown for a result without ['error'].
    [st_image] is [st.image] on the bytes it is handed: it raises when
    they are not an image it can decode. *)
Definition show_results (st_image : list Byte.byte -> Exception + unit)
  (result : Detection) (now : Z) : M unit :=
  st DetectionResults ;;
  let* image := index "annotated_image" (annotated_image result) in
  lift (st_image image) ;;
  st (AnnotatedImage image) ;;
  let* total := index "count" (count result) in
  (fun s => st (TotalParticles total (confidence_threshold (session_state s))) s) ;;
  let avg_conf := get (avg_confidence result) 0%float in
  st (DetectionQuality (conf_label avg_conf) avg_conf) ;;
  match types_of result with
  | first :: rest =>
      let most_common := max_from first rest in
      st (DominantType (fst most_common) (snd most_common))
  | [] => ret tt
  end ;;
  match types_of result with
  | _ :: _ =>
      let* rows := type_rows (count result) (types_of result) in
      st (TypeTable rows)
  | [] => ret tt
  end ;;
  let* particle_count := index "count" (count result) in
  st (RiskBox (Citizen.risk_level_box particle_count)) ;;
  save result now ;;
  let* total' := index "count" (count result) in
  st (CsvReport total' avg_conf (Citizen.risk particle_count) (types_of result)) ;;
  when (50 <? particle_count)%Z (st ReportForm).

(** Lines 72-306: the "Analyze Sample" button. *)
Definition analyze (st_image : list Byte.byte -> Exception + unit)
  (predict_image_with_viz :
     Exception + (list Byte.byte -> float -> string -> Exception + Detection))
  (uploaded_file : list Byte.byte) (now : Z) : M unit :=
  try_except
    (let* predict := lift predict_image_with_viz in
     let* result :=
       (fun s => lift (predict uploaded_file (confidence_threshold (session_state s))
                         "Public") s) in
     match error result with
     | None => show_results st_image result now
     | Some message =>
         st (Error ("❌ Detection failed: " ++ message)) ;;
         st (Info "💡 **Troubleshooting:**")
     end)
    (fun e =>
     st (Error ("❌ Unexpected error: " ++ str e)) ;;
     st (Info "Please check your model files and try again")).

(** *** Tab 2, lines 344-371 *)

(** [np.random.randint(low, high)], one integer in [low, high) from the
    raw integer of draw [k]. *)
Definition randint (raw : nat -> Z) (low high : Z) (k : nat) : Z :=
  low + raw k mod (high - low).

(** Line 370: the ten weekly counts of the history chart. *)
Definition history (raw : nat -> Z) (k : nat) (result : Detection) : list Z :=
  map (fun i => get (count result) 80 + randint raw (-30) 30 i) (seq k 10).

(** Lines 355-361: the three metrics above the chart. *)
Definition particles_detected (result : Detection) : Z := get (count result) 0.

Definition risk_level (result : Detection) : string :=
  Citizen.risk (get (count result) 0).

(** A result that was rendered to the end: no ['error'], a ['count'], an
    ['annotated_image'] that [st.image] displays, and no particle types
    beside a count of 0. *)
Definition complete (st_image : list Byte.byte -> Exception + unit) (result : Detection)
  : Prop :=
  error result = None /\
  is_Some (count result) /\
  (exists image, annotated_image result = Some image /\ st_image image = inr tt) /\
  (types_of result <> [] -> count result <> Some 0).

(** One press of the button. *)
Record Press := mkPress {
  model : Exception + (list Byte.byte -> float -> string -> Exception + Detection);
  upload : list Byte.byte;
  clock : Z
}.

Definition presses (st_image : list Byte.byte -> Exception + unit) (series : list Press)
  (s : State) : State :=
  fold_left (fun s p => snd (analyze st_image (model p) (upload p) (clock p) s)) series s.

(** src/app.py line 218, on the keys this view reads: the sidebar sets
    the threshold of the role before the view runs. *)
Definition sidebar (role : string) (session : Session) : Session :=
  mkSession (App.confidence role) (current_analysis session) (analysis_timestamp session).

(** Samples. A PNG file of one pixel, and a stand-in for [st.image] that
    tells an image by the PNG signature, as Pillow does when it opens the
    bytes. *)
Definition photo : list Byte.byte :=
  [Byte.x89; Byte.x50; Byte.x4e; Byte.x47; Byte.x0d; Byte.x0a; Byte.x1a; Byte.x0a;
   Byte.x00; Byte.x00; Byte.x00; Byte.x0d; Byte.x49; Byte.x48; Byte.x44; Byte.x52;
   Byte.x00; Byte.x00; Byte.x00; Byte.x01; Byte.x00; Byte.x00; Byte.x00; Byte.x01;
   Byte.x08; Byte.x06; Byte.x00; Byte.x00; Byte.x00; Byte.x1f; Byte.x15; Byte.xc4;
   Byte.x89; Byte.x00; Byte.x00; Byte.x00; Byte.x0b; Byte.x49; Byte.x44; Byte.x41;
   Byte.x54; Byte.x78; Byte.x9c; Byte.x63; Byte.x60; Byte.x00; Byte.x02; Byte.x00;
   Byte.x00; Byte.x05; Byte.x00; Byte.x01; Byte.x7a; Byte.x5e; Byte.xab; Byte.x3f;
   Byte.x00; Byte.x00; Byte.x00; Byte.x00; Byte.x49; Byte.x45; Byte.x4e; Byte.x44;
   Byte.xae; Byte.x42; Byte.x60; Byte.x82].

Fixpoint starts_with (signature image : list Byte.byte) : bool :=
  match signature, image with
  | [], _ => true
  | b :: signature', b' :: image' => Byte.eqb b b' && starts_with signature' image'
  | _ :: _, [] => false
  end.

Definition shows_png (image : list Byte.byte) : Exception + unit :=
  if starts_with [Byte.x89; Byte.x50; Byte.x4e; Byte.x47; Byte.x0d; Byte.x0a; Byte.x1a;
                  Byte.x0a] image
  then inr tt
  else inl (mkException "UnidentifiedImageError" "cannot identify image file").

(** A detection of 80 particles, a result that lists a type beside a
    count of 0, one whose annotated image is no image, a detector that
    returns a given result, and the session of a first visit in the
    Public role. *)
Definition river : Detection :=
  mkDetection (Some 80) (Some 0.82%float) (Some [("fiber", 50); ("fragment", 30)])
    (Some photo) None.

Definition miscounted : Detection :=
  mkDetection (Some 0) (Some 0.6%float) (Some [("fiber", 1)]) (Some photo) None.

Definition blank : Detection :=
  mkDetection (Some 80) (Some 0.82%float) (Some [("fiber", 50); ("fragment", 30)])
    (Some []) None.

Definition detector (result : Detection)
  : list Byte.byte -> float -> string -> Exception + Detection :=
  fun _ _ _ => inr result.

Definition first_visit : State :=
  mkState (sidebar "👥 Public User" (mkSession 0%float None None)) [].

End CitizenView.

(** ** src/views/government.py: tab 3, the comparison of locations *)

Module Comparison.
Import Py Government.

(** A row of [comparison_data] (lines 574-581). *)
Record Row := mkRow {
  Location : string;
  WQI : float;
  Microplastics : Z;
  DO : float;
  pH : float;
  BOD : float
}.

(** [go.Bar(x=..., y=..., name=...)] added at a cell of the 2x2 grid. *)
Record Trace := mkTrace {
  name : string;
  x : list string;
  y : list Num;
  row : Z;
  col : Z
}.

(** What the tab has drawn when it ends. *)
Record Analytics := mkAnalytics {
  fig_comp : list Trace;
  trend_title : string;
  trend_WQI : list float;
  trend_Microplastics : list float;
  described : list Row
}.

(** [np.random.uniform(low, high)]: the next draw, scaled. *)
Definition np_random_uniform (rt : Runtime) (low high : float) : M float :=
  fun s => (inr (low + (high - low) * rand_draw rt (draws s))%float,
            mkState (draws s + 1) (ui s) (session_state s) (wqi_features s)).

(** [np.random.randint(low, high)]: one integer in [low, high), from the
    raw integer the generator hands out at this draw; ValueError unless
    [low < high]. *)
Definition np_random_randint (raw : nat -> Z) (low high : Z) : M Z :=
  fun s => if (low <? high)%Z
           then (inr (low + raw (draws s) mod (high - low)),
                 mkState (draws s + 1) (ui s) (session_state s) (wqi_features s))
           else (inl (mkException "ValueError" "low >= high"), s).

(** Lines 572-581: one dict per selected location, its five values drawn
    in the order of the keys. *)
Fixpoint comparison_data (rt : Runtime) (raw : nat -> Z) (selected_locations : list string)
  : M (list Row) :=
  match selected_locations with
  | [] => ret []
  | loc :: rest =>
      let* wqi := np_random_uniform rt 30 70 in
      let* microplastics := np_random_randint raw 80 300 in
      let* do := np_random_uniform rt 3 8 in
      let* ph := np_random_uniform rt 6.5 8.5 in
      let* bod := np_random_uniform rt 5 30 in
      let* rows := comparison_data rt raw rest in
      ret (mkRow loc wqi microplastics do ph bod :: rows)
  end.

(** Reading a local variable of the function. *)
Definition read {A} (name : string) (local : option A) : M A :=
  match local with
  | Some v => ret v
  | None =>
      raise (mkException "UnboundLocalError"
               ("cannot access local variable '" ++ name
                ++ "' where it is not associated with a value"))
  end.

(** [xs[0]]. *)
Definition first_item {A} (xs : list A) : M A :=
  match xs with
  | v :: _ => ret v
  | [] => raise (mkException "IndexError" "list index out of range")
  end.

Definition bar {A} (name : string) (comp_df : list Row) (column : Row -> A)
  (num : A -> Num) (row col : Z) : Trace :=
  mkTrace name (map Location comp_df) (map (fun r => num (column r)) comp_df) row col.

(** Lines 557-644. [comp_df] and [fig_comp] are assigned inside
    [if selected_locations:] (lines 583 and 588) and read after it (line
    603 on). *)
Definition tab3 (rt : Runtime) (raw : nat -> Z) (selected_locations : list string)
  : M Analytics :=
  let* locals :=
    match selected_locations with
    | _ :: _ =>
        let* comp_df := comparison_data rt raw selected_locations in
        ret (Some comp_df,
             Some [bar "WQI" comp_df WQI Float 1 1;
                   bar "Particles" comp_df Microplastics Int 1 2])
    | [] => ret (None, None)
    end in
  let comp_df := fst locals in
  let fig_comp := snd locals in
  let* fig := read "fig_comp" fig_comp in
  let* df := read "comp_df" comp_df in
  let fig := (fig ++ [bar "DO" df DO Float 2 1])%list in
  let* df := read "comp_df" comp_df in
  let fig := (fig ++ [bar "BOD" df BOD Float 2 2])%list in
  let* wqi_noise := np_random_randn rt 90 in
  let* microplastics_noise := np_random_randn rt 90 in
  let trend_wqi := map (fun c => (50 + c * 2)%float) (np_cumsum wqi_noise) in
  let trend_microplastics :=
    map (fun c => (150 + c * 10)%float) (np_cumsum microplastics_noise) in
  let* location := first_item selected_locations in
  let* df := read "comp_df" comp_df in
  ret (mkAnalytics fig ("WQI Trend - " ++ location) trend_wqi trend_microplastics df).

End Comparison.

(** ** src/views/government.py: the session keys of lines 103-204 *)

Module SessionKeys.
Import Py Government.

(** A key after a run, against the outcome of its stage's model: the
    model's result, or else what the key held before the run. *)
Definition stored_or_kept {R : Type} (key : string) (wrap : R -> SessionValue)
  (outcome : Exception + R) (before after : State) : Prop :=
  session_state after !! key
  = match outcome with
    | inr v => Some (wrap v)
    | inl _ => session_state before !! key
    end.

End SessionKeys.

(** ** src/views/researcher.py: tab 1, Raman spectroscopy *)

Module Researcher.
Import Py Script.
Open Scope script_scope.

(** A column of a frame, and the array its [.values] gives. A column of
    numbers has dtype float64, int64 or bool, which numpy casts to float64;
    a column that holds text has dtype object, and so has every column of
    a CSV without rows. *)
Inductive Array :=
| Numeric (values : list float)
| Object (cells : list string).

Definition len (a : Array) : nat :=
  match a with
  | Numeric values => length values
  | Object cells => length cells
  end.

(** A [pd.DataFrame]: [len(df)] and the columns by name. *)
Record Frame := mkFrame {
  rows : nat;
  columns : gmap string Array
}.

(** The dict [predict_polymer] returns: ['polymer'] and ['confidence'] are
    indexed, ['quality_score'] is read with [.get], ['all_probabilities']
    is tested with [in]; the probabilities are kept in the dict's order. *)
Record Prediction := mkPrediction {
  polymer : option string;
  confidence : option float;
  quality_score : option float;
  all_probabilities : option (list (string * float))
}.

(** What the tab runs against: [pd.read_csv], the import of
    [models.raman.infer] and its function, [np.exp], [np.interp] at one
    point of a non-empty table, and the standard normal draws of numpy's
    generator. *)
Record Env := mkEnv {
  read_csv : list Byte.byte -> Exception + Frame;
  predict_polymer : Exception + (Array -> Exception + Prediction);
  np_exp : float -> float;
  np_interp_at : list float -> list float -> float -> float;
  randn_draw : nat -> float
}.

(** The widgets of the tab in one run of the script. *)
Record Widgets := mkWidgets {
  uploaded_csv : option (list Byte.byte);
  use_sample : bool;
  analyze_spectrum : bool;
  download_report : bool
}.

Record Material := mkMaterial {
  full_name : string;
  density : string;
  common_uses : string;
  degradation : string;
  health_risk : string;
  recycling_code : string
}.

(** What the tab shows; a number is carried as it is before formatting. *)
Inductive Ui :=
| Info (text : string)
| Loaded (data_points : nat)
| Error (text : string)
| RawSpectrum (wavenumber intensity : Array)
| AnalysisResults
| IdentifiedMaterial (polymer : string)
| ConfidenceScore (label : string) (confidence : float)
| SpectrumQuality (quality_score : float)
| Probabilities (unsorted : list (string * float))
| PeakTable (peaks : list (Z * string))
| PeakChart (polymer : string)
| MaterialCard (info : Material)
| Report (polymer : string) (confidence : float) (spectrum_points : nat)
    (quality_score : float)
| Success (text : string).

(** The session key the tab writes, what it has shown (latest first), and
    the number of draws taken from the generator. *)
Record State := mkState {
  raman_result : option Prediction;
  ui : list Ui;
  draws : nat
}.

Definition M : Type -> Type := Script.M State.

Definition st (event : Ui) : M unit :=
  fun s => (inr tt, mkState (raman_result s) (event :: ui s) (draws s)).

Definition save (result : Prediction) : M unit :=
  fun s => (inr tt, mkState (Some result) (ui s) (draws s)).

(** [np.random.normal(loc, scale, size)]. *)
Definition np_random_normal (env : Env) (loc scale : float) (size : nat) : M (list float) :=
  fun s => (inr (map (fun k => (loc + scale * randn_draw env k)%float) (seq (draws s) size)),
            mkState (raman_result s) (ui s) (draws s + size)).

(** [df[key]]. *)
Definition column (df : Frame) (key : string) : M Array :=
  index key (columns df !! key).

(** Lines 66-73: the three peaks of the sample spectrum. *)
Definition sample_peaks (env : Env) (w : float) : float :=
  (100 * np_exp env (- ((w - 2850) * (w - 2850)) / 2500)
   + 80 * np_exp env (- ((w - 2880) * (w - 2880)) / 1600)
   + 90 * np_exp env (- ((w - 2900) * (w - 2900)) / 2025))%float.

Fixpoint add (xs ys : list float) : list float :=
  match xs, ys with
  | x :: xs', y :: ys' => (x + y)%float :: add xs' ys'
  | _, _ => []
  end.

(** Lines 63-87: [spectrum_data]. *)
Definition load (env : Env) (w : Widgets) : M (option Frame) :=
  if use_sample w then
    st (Info "Using sample PE (Polyethylene) spectrum") ;;
    let wavenumbers := Government.np_linspace 400 3500 1024 in
    let* noise := np_random_normal env 10 2 (length wavenumbers) in
    let intensity := add (map (sample_peaks env) wavenumbers) noise in
    ret (Some (mkFrame (length wavenumbers)
                 (<["wavenumber" := Numeric wavenumbers]>
                    (<["intensity" := Numeric intensity]> ∅))))
  else
    match uploaded_csv w with
    | Some file =>
        try_except
          (let* spectrum_data := lift (read_csv env file) in
           st (Loaded (rows spectrum_data)) ;;
           ret (Some spectrum_data))
          (fun e =>
           st (Error ("Error reading CSV: " ++ str e)) ;;
           ret None)
    | None => ret None
    end.

(** A Python [int] as a [float]. *)
Definition float_of_int (z : Z) : float :=
  if (z <? 0)%Z then (- Government.of_nat (Z.to_nat (- z)))%float
  else Government.of_nat (Z.to_nat z).

(** [np.interp(x, xp, fp)]: [fp] is cast to float64 first, which numpy
    refuses for an array of dtype object, whatever it holds; then the
    sample points are counted. *)
Definition np_interp (env : Env) (x xp : list float) (fp : Array) : Exception + Array :=
  match fp with
  | Object _ =>
      inl (mkException "TypeError"
             "Cannot cast array data from dtype('O') to dtype('float64') according to the rule 'safe'")
  | Numeric fp =>
      match xp with
      | [] => inl (mkException "ValueError" "array of sample points is empty")
      | _ :: _ =>
          if (length fp =? length xp)%nat then inr (Numeric (map (np_interp_at env xp fp) x))
          else inl (mkException "ValueError" "fp and xp are not of the same length.")
      end
  end.

(** Lines 138-146: the spectrum the model is called with. *)
Definition prepare (env : Env) (spectrum : Array) : Exception + Array :=
  if negb (len spectrum =? 1024)%nat then
    np_interp env
      (Government.np_linspace 0 (float_of_int (Z.of_nat (len spectrum) - 1)) 1024)
      (map float_of_int (Government.np_arange (len spectrum)))
      spectrum
  else inr spectrum.

(** Lines 167-168. *)
Definition conf_label (confidence : float) : string :=
  if gt confidence 0.8 then "High"
  else if gt confidence 0.5 then "Medium"
  else "Low".

(** Lines 224-231. *)
Definition polymer_peaks : gmap string (list (Z * string)) :=
  list_to_map
    [ ("PE", [(2850, "C-H symmetric stretch"); (2880, "C-H asymmetric stretch");
              (2900, "C-H stretch")]);
      ("PP", [(841, "C-C stretch"); (973, "C-H rock"); (2840, "C-H stretch")]);
      ("PS", [(1001, "Ring breathing"); (1602, "Aromatic C=C"); (3050, "Aromatic C-H")]);
      ("PET", [(1616, "Aromatic ring"); (1730, "C=O stretch"); (2970, "C-H stretch")]);
      ("PVC", [(638, "C-Cl stretch"); (1430, "CH2 bend"); (2910, "C-H stretch")]);
      ("PMMA", [(814, "C-O stretch"); (1730, "C=O stretch"); (2950, "C-H stretch")]) ].

(** Lines 274-307. *)
Definition material_info : gmap string Material :=
  list_to_map
    [ ("PE", mkMaterial "Polyethylene" "0.91-0.97 g/cm³"
               "Plastic bags, bottles, containers" "100-500 years" "Low to moderate"
               "#2 HDPE, #4 LDPE");
      ("PP", mkMaterial "Polypropylene" "0.90-0.91 g/cm³"
               "Food containers, bottles, straws" "20-30 years" "Low" "#5 PP");
      ("PS", mkMaterial "Polystyrene" "1.04-1.08 g/cm³"
               "Foam cups, packaging, insulation" "500+ years" "Moderate" "#6 PS");
      ("PET", mkMaterial "Polyethylene Terephthalate" "1.38-1.40 g/cm³"
                "Water bottles, food packaging" "450+ years" "Low" "#1 PET") ].

(** Lines 190-194: the frame of the probabilities, which is sorted by
    its column ['Probability']: a frame built from no rows has no column,
    and the sort raises. The rows are carried in the dict's order. *)
Definition prob_frame (items : list (string * float))
  : Exception + list (string * float) :=
  match items with
  | [] => inl (mkException "KeyError" "'Probability'")
  | _ :: _ => inr items
  end.

(** Lines 258-266: the markers of the peak chart. Each peak is compared
    with the least and the greatest wavenumber: where the column holds
    text, the comparison of a [str] with an [int] raises; the minimum of
    a column without rows is NaN, which compares false. *)
Definition mark_peaks (wavenumber : Array) (peaks : list (Z * string)) : Exception + unit :=
  match wavenumber, peaks with
  | Object (_ :: _), _ :: _ =>
      inl (mkException "TypeError"
             "'<=' not supported between instances of 'str' and 'int'")
  | _, _ => inr tt
  end.

(** Lines 151-354: the cards, tables and charts of a result. *)
Definition show_result (spectrum_data : Frame) (result : Prediction) (download : bool)
  : M unit :=
  st AnalysisResults ;;
  let* identified := index "polymer" (polymer result) in
  st (IdentifiedMaterial identified) ;;
  let* conf := index "confidence" (confidence result) in
  st (ConfidenceScore (conf_label conf) conf) ;;
  let quality_score := get (quality_score result) 0.85%float in
  st (SpectrumQuality quality_score) ;;
  match all_probabilities result with
  | Some items =>
      let* prob_df := lift (prob_frame items) in
      st (Probabilities prob_df)
  | None => ret tt
  end ;;
  let* detected_polymer := index "polymer" (polymer result) in
  match polymer_peaks !! detected_polymer with
  | Some peaks =>
      st (PeakTable peaks) ;;
      let* wavenumber := column spectrum_data "wavenumber" in
      let* _ := column spectrum_data "intensity" in
      lift (mark_peaks wavenumber peaks) ;;
      st (PeakChart detected_polymer)
  | None => ret tt
  end ;;
  match material_info !! detected_polymer with
  | Some info => st (MaterialCard info)
  | None => ret tt
  end ;;
  save result ;;
  when download
    (let* reported := index "polymer" (polymer result) in
     let* conf := index "confidence" (confidence result) in
     st (Report reported conf (rows spectrum_data) quality_score) ;;
     st (Success "✅ Report ready for download!")).

(** Lines 132-358: the "Analyze Spectrum" button. *)
Definition analyze (env : Env) (spectrum_data : Frame) (download : bool) : M unit :=
  try_except
    (let* predict := lift (predict_polymer env) in
     let* spectrum := column spectrum_data "intensity" in
     let* spectrum := lift (prepare env spectrum) in
     let* result := lift (predict spectrum) in
     show_result spectrum_data result download)
    (fun e =>
     st (Error ("❌ Analysis failed: " ++ str e)) ;;
     st (Info "Make sure your Raman model is properly loaded at `models/raman/raman_model.pkl`")).

(** Lines 46-358: the tab. *)
Definition tab1 (env : Env) (w : Widgets) : M unit :=
  let* spectrum_data := load env w in
  match spectrum_data with
  | Some df =>
      let* wavenumber := column df "wavenumber" in
      let* intensity := column df "intensity" in
      st (RawSpectrum wavenumber intensity) ;;
      when (analyze_spectrum w) (analyze env df (download_report w))
  | None => ret tt
  end.

(** The same surroundings with another model function. *)
Definition with_model (env : Env) (predict : Array -> Exception + Prediction) : Env :=
  mkEnv (read_csv env) (inr predict) (np_exp env) (np_interp_at env) (randn_draw env).

(** Samples. A stand-in for [np.interp] at one point: the sample at or
    left of the point; a rational stand-in for [np.exp] on negative
    arguments. *)
Fixpoint sample_left_of (xp fp : list float) (x : float) (found : float) : float :=
  match xp, fp with
  | p :: xp', f :: fp' => if le p x then sample_left_of xp' fp' x f else found
  | _, _ => found
  end.

Definition step_interp (xp fp : list float) (x : float) : float :=
  sample_left_of xp fp x (hd 0%float fp).

Definition decay (x : float) : float := (1 / (1 - x + x * x / 2))%float.

(** A CSV of three points with both columns, one whose columns are
    named otherwise, and one that holds the header line and no rows. *)
Definition three_points : Frame :=
  mkFrame 3 (<["wavenumber" := Numeric [2840; 2850; 2860]%float]>
               (<["intensity" := Numeric [12; 95; 14]%float]> ∅)).

Definition unlabelled : Frame :=
  mkFrame 3 (<["x" := Numeric [2840; 2850; 2860]%float]>
               (<["y" := Numeric [12; 95; 14]%float]> ∅)).

Definition header_only : Frame :=
  mkFrame 0 (<["wavenumber" := Object []]> (<["intensity" := Object []]> ∅)).

(** The file of [unlabelled]. *)
Definition unlabelled_csv : list Byte.byte :=
  list_byte_of_string "x,y
2840,12
2850,95
2860,14
".

Definition polyethylene : Prediction :=
  mkPrediction (Some "PE") (Some 0.93%float) None
    (Some [("PE", 0.93%float); ("PP", 0.05%float); ("PS", 0.02%float)]).

(** A model that answers only spectra of 1024 values. *)
Definition strict_model (spectrum : Array) : Exception + Prediction :=
  if (len spectrum =? 1024)%nat then inr polyethylene
  else inl (mkException "ValueError" "X has the wrong number of features").

Definition lab (csv : Frame) : Env :=
  mkEnv (fun _ => inr csv) (inr (fun _ => inr polyethylene)) decay step_interp
    Scenarios.normal.

Definition start : State := mkState None [] 0.

End Researcher.


(** * Properties *)

(** ** The order of binary64 values *)

Section FloatOrder.

Lemma SFcompare_antisym (x y : spec_float) :
  SFcompare y x = option_map CompOpp (SFcompare x y).
Proof.
  destruct x as [sx|sx| |sx mx ex], y as [sy|sy| |sy my ey]; simpl;
    try reflexivity; try (destruct sx; reflexivity); try (destruct sy; reflexivity);
    try (destruct sx, sy; reflexivity).
  rewrite (Z.compare_antisym ey ex).
  change (PosDef.Pos.compare_cont Eq my mx) with (Pos.compare my mx).
  change (PosDef.Pos.compare_cont Eq mx my) with (Pos.compare mx my).
  rewrite (Pos.compare_antisym my mx).
  destruct sx, sy; simpl; try reflexivity;
    destruct (ey ?= ex)%Z; simpl; try reflexivity;
    destruct (my ?= mx)%positive; reflexivity.
Qed.

Lemma SFltb_trans (x y z : spec_float) :
  SFltb x y = true -> SFltb y z = true -> SFltb x z = true.
Proof.
  unfold SFltb.
  destruct x as [sx|sx| |sx mx ex], y as [sy|sy| |sy my ey], z as [sz|sz| |sz mz ez];
    simpl; try discriminate; try (destruct sx; discriminate);
    try (destruct sy; discriminate); try (destruct sz; discriminate);
    try (destruct sx, sy; simpl; (discriminate || reflexivity));
    try (destruct sy, sz; simpl; (discriminate || reflexivity));
    try (destruct sx, sz; simpl; (discriminate || reflexivity));
    try (destruct sx, sy, sz; simpl; (discriminate || reflexivity)).
  all: change (PosDef.Pos.compare_cont Eq) with Pos.compare.
  all: destruct sx, sy, sz; simpl; try discriminate; try reflexivity.
  all: destruct (Z.compare_spec ex ey), (Z.compare_spec ey ez), (Z.compare_spec ex ez);
       simpl; try discriminate; try reflexivity; try lia; subst.
  all: destruct (Pos.compare_spec mx my), (Pos.compare_spec my mz), (Pos.compare_spec mx mz);
       simpl; try discriminate; try reflexivity; try lia.
Qed.

(** [x <= y] excludes [y < x]. *)
Lemma le_not_gt (x y : float) : Py.le x y = true -> Py.gt x y = false.
Proof.
  unfold Py.le, Py.gt. rewrite leb_spec, ltb_spec. unfold SFleb, SFltb.
  rewrite (SFcompare_antisym (Prim2SF x) (Prim2SF y)).
  destruct (SFcompare (Prim2SF x) (Prim2SF y)) as [[]|]; simpl; congruence.
Qed.

Lemma lt_not_gt (x y : float) : Py.lt x y = true -> Py.gt x y = false.
Proof.
  unfold Py.lt, Py.gt. rewrite !ltb_spec. unfold SFltb.
  rewrite (SFcompare_antisym (Prim2SF x) (Prim2SF y)).
  destruct (SFcompare (Prim2SF x) (Prim2SF y)) as [[]|]; simpl; congruence.
Qed.

Lemma gt_trans (x y z : float) :
  Py.gt x y = true -> Py.gt y z = true -> Py.gt x z = true.
Proof.
  unfold Py.gt. rewrite !ltb_spec. intros Hxy Hyz.
  exact (SFltb_trans _ _ _ Hyz Hxy).
Qed.

(** Below a bound, hence not above a larger one. *)
Lemma le_not_gt_above (x lo hi : float) :
  Py.gt hi lo = true -> Py.le x lo = true -> Py.gt x hi = false.
Proof.
  intros Hbounds Hle.
  destruct (Py.gt x hi) eqn:Hgt; [|reflexivity].
  pose proof (gt_trans _ _ _ Hgt Hbounds) as Habove.
  rewrite (le_not_gt _ _ Hle) in Habove. discriminate.
Qed.

Lemma lt_not_gt_above (x lo hi : float) :
  Py.gt hi lo = true -> Py.lt x lo = true -> Py.gt x hi = false.
Proof.
  intros Hbounds Hlt.
  destruct (Py.gt x hi) eqn:Hgt; [|reflexivity].
  pose proof (gt_trans _ _ _ Hgt Hbounds) as Habove.
  rewrite (lt_not_gt _ _ Hlt) in Habove. discriminate.
Qed.

End FloatOrder.

(** ** Substring test *)

Section Strings.

Lemma prefix_app (needle hay : string) :
  String.prefix needle hay = true <-> exists post, hay = needle ++ post.
Proof.
  revert hay. induction needle as [|c needle IH]; intros hay; simpl.
  - split; [intros _; exists hay; reflexivity | destruct hay; reflexivity].
  - destruct hay as [|d hay]; simpl.
    + split; [discriminate | intros [post H]; discriminate].
    + destruct (Ascii.ascii_dec c d) as [->|Hne].
      * rewrite IH. split; intros [post H]; exists post.
        -- rewrite H. reflexivity.
        -- simpl in H. injection H as H. exact H.
      * split; [discriminate | intros [post H]].
        simpl in H. injection H as Hc _. congruence.
Qed.

Lemma str_in_unfold (needle hay : string) :
  Py.str_in needle hay =
  String.prefix needle hay ||
  match hay with
  | EmptyString => false
  | String _ rest => Py.str_in needle rest
  end.
Proof.
  destruct hay as [|c hay]; simpl;
    [destruct needle | destruct (String.prefix needle (String c hay))]; reflexivity.
Qed.

(** [str_in needle hay] holds exactly when [needle] occurs in [hay]. *)
Lemma str_in_occurs (needle hay : string) :
  Py.str_in needle hay = true <-> exists pre post, hay = pre ++ needle ++ post.
Proof.
  induction hay as [|c hay IH]; rewrite str_in_unfold, orb_true_iff, prefix_app.
  - split.
    + intros [[post H]|H]; [exists "", post; exact H | discriminate].
    + intros [pre [post H]]. left. destruct pre as [|d pre]; [|discriminate].
      exists post. exact H.
  - rewrite IH. split.
    + intros [[post H]|[pre [post H]]].
      * exists "", post. exact H.
      * exists (String c pre), post. rewrite H. reflexivity.
    + intros [pre [post H]]. destruct pre as [|d pre].
      * left. exists post. exact H.
      * right. exists pre, post. simpl in H. injection H as _ H. exact H.
Qed.

End Strings.

(** ** src/app.py: the threshold of a role *)

Section AppProperties.
Import App.

(** C10. For each of the four roles the selector offers, the threshold is
    decided by the role alone: 0.50 when it contains "Public", 0.35 when it
    contains "Government", 0.10 for the Researcher and Admin roles; and
    what the sidebar stores in the session is that value whatever the
    session held before. *)
Theorem confidence_by_role (role : string) :
  In role role_options ->
  (Py.str_in "Public" role = true -> confidence role = 0.50%float) /\
  (Py.str_in "Government" role = true -> confidence role = 0.35%float) /\
  (Py.str_in "Researcher" role = true \/ Py.str_in "Admin" role = true ->
   confidence role = 0.10%float) /\
  (forall session_state,
     sidebar role session_state !! "confidence_threshold" = Some (SFloat (confidence role))).
Proof.
  intros Hrole. repeat split.
  - unfold confidence. intros ->. reflexivity.
  - simpl in Hrole. destruct Hrole as [<-|[<-|[<-|[<-|[]]]]]; vm_compute; congruence.
  - simpl in Hrole. destruct Hrole as [<-|[<-|[<-|[<-|[]]]]]; vm_compute; intuition congruence.
  - intros session_state. unfold sidebar.
    rewrite lookup_insert_ne by discriminate. apply lookup_insert_eq.
Qed.

Lemma confidence_by_role_government :
  In "🏛️ Government Official" role_options /\
  confidence "🏛️ Government Official" = 0.35%float.
Proof.
  split.
  - simpl. tauto.
  - apply (confidence_by_role "🏛️ Government Official"); [simpl; tauto | reflexivity].
Defined.

(** Each offered role contains the word it is tested for, and only that one. *)
Lemma role_options_words :
  map (fun role => (Py.str_in "Public" role, Py.str_in "Government" role,
                    Py.str_in "Researcher" role, Py.str_in "Admin" role)) role_options
  = [ (true, false, false, false); (false, true, false, false);
      (false, false, true, false); (false, false, false, true) ].
Proof. reflexivity. Qed.

End AppProperties.

(** ** src/views/citizen.py: the risk level of a particle count *)

Section CitizenProperties.
Import Citizen.

(** C3. The risk level is decided by the particle count alone: above 100 it
    is "High" (the box reads SEVERE), from 51 to 100 "Moderate", at most 50
    "Low"; 150, 75 and 20 give "High", "Moderate" and "Low". *)
Theorem risk_by_particle_count (particle_count : Z) :
  (100 < particle_count ->
   risk particle_count = "High" /\ risk_level_box particle_count = "SEVERE") /\
  (51 <= particle_count <= 100 ->
   risk particle_count = "Moderate" /\ risk_level_box particle_count = "MODERATE") /\
  (particle_count <= 50 ->
   risk particle_count = "Low" /\ risk_level_box particle_count = "LOW") /\
  risk 150 = "High" /\ risk 75 = "Moderate" /\ risk 20 = "Low".
Proof.
  unfold risk, risk_level_box.
  destruct (Z.ltb_spec 100 particle_count), (Z.ltb_spec 50 particle_count);
    repeat split; try reflexivity; lia.
Qed.

End CitizenProperties.

(** ** src/views/government.py: what the report shows *)

Section ReportProperties.
Import Government.

(** C4. The colour of the WQI card is decided by the score alone: green
    above 75, amber above 50 and up to 75, red at 50 or below. *)
Theorem wqi_color_bands (wqi_score : float) :
  (Py.gt wqi_score 75%float = true -> wqi_color wqi_score = "#2ecc71") /\
  (Py.gt wqi_score 50%float = true /\ Py.le wqi_score 75%float = true ->
   wqi_color wqi_score = "#f39c12") /\
  (Py.le wqi_score 50%float = true -> wqi_color wqi_score = "#e74c3c").
Proof.
  unfold wqi_color. split; [|split].
  - intros ->. reflexivity.
  - intros [Hlow Hhigh]. rewrite (le_not_gt _ _ Hhigh), Hlow. reflexivity.
  - intros Hle.
    rewrite (le_not_gt_above wqi_score 50%float 75%float eq_refl Hle).
    rewrite (le_not_gt _ _ Hle). reflexivity.
Qed.

(** The three bands at sample scores, and a NaN score, which is red. *)
Example wqi_color_samples :
  map wqi_color [80; 75; 75.5; 52.3; 50; 12; PrimFloat.nan]%float
  = ["#2ecc71"; "#f39c12"; "#2ecc71"; "#f39c12"; "#e74c3c"; "#e74c3c"; "#e74c3c"].
Proof. reflexivity. Qed.

(** C6. The box under the simulation chart is decided by [improvement], the
    final simulated score minus the stage-3 score: positive impact above
    +5, negative impact below -5, stable from -5 to +5. *)
Theorem impact_by_improvement (twin_result : TwinResult) (final wqi_score : float) :
  let d := improvement twin_result wqi_score in
  (final_wqi twin_result = Some final -> d = (final - wqi_score)%float) /\
  (Py.gt d 5%float = true -> impact d = PositiveImpact) /\
  (Py.lt d (-5)%float = true -> impact d = NegativeImpact) /\
  (Py.le (-5)%float d = true /\ Py.le d 5%float = true -> impact d = Stable).
Proof.
  intros d. unfold impact. split; [|split; [|split]].
  - intros Hfinal. unfold d, improvement. rewrite Hfinal. reflexivity.
  - intros ->. reflexivity.
  - intros Hlt.
    rewrite (lt_not_gt_above d (-5)%float 5%float eq_refl Hlt), Hlt. reflexivity.
  - intros [Hlow Hhigh]. rewrite (le_not_gt _ _ Hhigh).
    unfold Py.lt. change (PrimFloat.ltb d (-5)%float) with (Py.gt (-5)%float d).
    rewrite (le_not_gt _ _ Hlow). reflexivity.
Qed.

(** The three outcomes at sample scores: final 60, 40, 55 and 45 against a
    stage-3 score of 50; with no final score the change is 0. *)
Example impact_samples :
  map (fun final => impact (improvement (mkTwin [] [] final None) 50%float))
      [Some 60; Some 40; Some 55; Some 45; None]%float
  = [PositiveImpact; NegativeImpact; Stable; Stable; Stable].
Proof. reflexivity. Qed.

End ReportProperties.

(** ** The six stages never raise *)

Section Stages.
Import Py Government.
Variable rt : Runtime.

Ltac run_monad :=
  cbv beta iota delta [try_except bind lift index st set_session ret raise
    assign_wqi_features read_wqi_features np_random_rand np_random_randn enter or_fallback
    draws ui session_state wqi_features].

Ltac ui_prefix :=
  match goal with
  | |- exists new, ?a :: ?b :: ?c :: ?u = (_ ++ ?u)%list /\ _ => exists [a; b; c]
  | |- exists new, ?a :: ?b :: ?u = (_ ++ ?u)%list /\ _ => exists [a; b]
  | |- exists new, ?a :: ?b :: ?c :: ?u = (_ ++ ?u)%list => exists [a; b; c]
  | |- exists new, ?a :: ?b :: ?u = (_ ++ ?u)%list => exists [a; b]
  end; first [reflexivity | split; [reflexivity | cbn [In status_line]; tauto]].

Ltac finish_step :=
  eexists; split; [reflexivity|];
  cbv beta iota delta [draws ui session_state wqi_features];
  repeat match goal with |- _ /\ _ => split end;
  try ui_prefix; try reflexivity; try discriminate; try (cbn [In]; tauto).

Lemma pd_DataFrame_run (dates : list Z) (values : list float) (s : State) :
  length dates = length values ->
  pd_DataFrame dates values s = (inr (mkDataFrame dates values), s).
Proof. intros Hlen. unfold pd_DataFrame. rewrite Hlen, Nat.eqb_refl. reflexivity. Qed.

Lemma mask_index_run (xs : list float) (mask : list bool) (s : State) :
  length xs = length mask ->
  mask_index xs mask s = (inr (select xs mask), s).
Proof. intros Hlen. unfold mask_index. rewrite Hlen, Nat.eqb_refl. reflexivity. Qed.

Lemma length_pd_date_range (start : Z) (periods : nat) :
  length (pd_date_range start periods) = periods.
Proof. unfold pd_date_range. rewrite length_map, length_seq. reflexivity. Qed.

Lemma length_mock_forecast (score : float) (noise : list float) :
  length (mock_forecast score noise) = length noise.
Proof. apply length_map. Qed.

Lemma length_accumulate (acc : float) (xs : list float) :
  length (accumulate acc xs) = length xs.
Proof. revert acc. induction xs as [|x xs IH]; intros acc; simpl; [|rewrite IH]; reflexivity. Qed.

Lemma length_np_cumsum (xs : list float) : length (np_cumsum xs) = length xs.
Proof. destruct xs; simpl; [|rewrite length_accumulate]; reflexivity. Qed.

Lemma length_mock_trajectory (score : float) (noise : list float) :
  length (mock_trajectory score noise) = length noise.
Proof. unfold mock_trajectory. rewrite length_map. apply length_np_cumsum. Qed.

Lemma length_mock_do (oxygen : float) (time_hours : list float) :
  length (mock_do rt oxygen time_hours) = length time_hours.
Proof. apply length_map. Qed.

Lemma last_nonempty {A} (l : list A) : (0 < length l)%nat -> exists x, last l = Some x.
Proof.
  intros Hlen. destruct (last l) as [x|] eqn:Hlast; [eauto|].
  apply last_None in Hlast. subst l. simpl in Hlen. lia.
Qed.

Lemma step1_run (image : list Byte.byte) (s : State) :
  exists s',
    step1 rt image s = (inr (or_fallback (detect rt image) yolo_fallback), s') /\
    draws s' = draws s /\ wqi_features s' = wqi_features s /\
    announces Detect s s' /\
    (forall e, detect rt image = inl e ->
               shows (StError ("YOLO detection failed: " ++ str e)) s s').
Proof.
  destruct s as [n u ss wf].
  unfold step1, detect, announces, shows, yolo_fallback. run_monad.
  destruct (predict_image_with_viz (models rt)) as [e|predict].
  - finish_step. intros e' [= ->]. ui_prefix.
  - destruct (predict image 0.35%float "Government") as [e|v]; finish_step.
    intros e' [= ->]. ui_prefix.
Qed.

Lemma step2_run (s : State) :
  exists s',
    step2 rt s
    = (inr (or_fallback (classify rt (map (rand_draw rt) (seq (draws s) 1024)))
              raman_fallback), s') /\
    draws s' = draws_after_classify rt (draws s) /\ wqi_features s' = wqi_features s /\
    announces Classify s s'.
Proof.
  destruct s as [n u ss wf].
  unfold step2, classify, draws_after_classify, announces, shows, raman_fallback. run_monad.
  destruct (predict_polymer (models rt)) as [e|predict].
  - finish_step.
  - destruct (predict _) as [e|v]; finish_step.
Qed.

Lemma step3_run (sub : Submission) (s : State) :
  wqi_features s = None ->
  exists s',
    step3 rt sub s = (inr (or_fallback (score rt sub) wqi_fallback), s') /\
    draws s' = draws s /\ wqi_features s' = features_after_score rt sub /\
    announces Score s s'.
Proof.
  destruct s as [n u ss wf]. intros Hunbound.
  unfold step3, score, features_after_score, announces, shows, wqi_fallback. run_monad.
  destruct (predict_wqi (models rt)) as [e|predict].
  - finish_step.
  - destruct (predict _) as [e|v]; finish_step.
Qed.

Lemma step4_run (wqi : WqiResult) (score : float) (s : State) :
  wqi_score wqi = Some score ->
  exists s',
    step4 rt wqi s
    = (inr (or_fallback (forecast rt wqi) (forecast_fallback rt score (draws s))), s') /\
    draws s' = draws_after_forecast rt wqi (draws s) /\
    wqi_features s' = wqi_features s /\
    announces Forecast s s'.
Proof.
  destruct s as [n u ss wf]. intros Hscore. run_monad.
  assert (forall s0 : State,
            pd_DataFrame (pd_date_range (now rt) 60)
              (mock_forecast score (map (randn_draw rt) (seq n 60))) s0
            = (inr (mkDataFrame (pd_date_range (now rt) 60)
                      (mock_forecast score (map (randn_draw rt) (seq n 60)))), s0)) as Hdf.
  { intros s0. apply pd_DataFrame_run.
    rewrite length_pd_date_range, length_mock_forecast, length_map, length_seq.
    reflexivity. }
  unfold step4, draws_after_forecast, forecast, announces, shows, forecast_fallback.
  rewrite Hscore. run_monad.
  destruct (forecast_wqi (models rt)) as [e|predict].
  - rewrite Hdf. finish_step.
  - destruct (predict _) as [e|v]; [rewrite Hdf|]; finish_step.
Qed.

(** Without a score stage 4 leaves by the [KeyError] of line 164, raised
    in its handler after the warning, whether the forecaster imports or
    not. *)
Lemma step4_raises (wqi : WqiResult) (s : State) :
  wqi_score wqi = None ->
  exists e,
    forecast rt wqi = inl e /\
    step4 rt wqi s
    = (inl (KeyError "wqi_score"),
       mkState (draws s)
         (StWarning ("Forecast skipped: " ++ str e) :: Progress 66
          :: StatusMarkdown (status_line Forecast) :: ui s)
         (session_state s) (wqi_features s)).
Proof.
  destruct s as [n u ss wf]. intros Hscore.
  unfold step4, forecast. rewrite Hscore. run_monad.
  destruct (forecast_wqi (models rt)) as [e|predict]; eexists; split; reflexivity.
Qed.

Lemma step5_run (sub : Submission) (s : State) :
  exists s',
    step5 rt sub s
    = (inr (or_fallback (predictPhysics rt (wqi_features s)) (pinn_fallback rt sub)), s') /\
    draws s' = draws s /\
    announces PhysicsPredict s s'.
Proof.
  destruct s as [n u ss wf].
  assert (forall s0 : State,
            let time_hours := np_linspace 0%float 72%float 100 in
            let do_pred := mock_do rt (dissolved_oxygen sub) time_hours in
            mask_index time_hours (map (fun d => lt d 4.0%float) do_pred) s0
            = (inr (select time_hours (map (fun d => lt d 4.0%float) do_pred)), s0))
    as Hmask.
  { intros s0. apply mask_index_run. rewrite length_map, length_mock_do. reflexivity. }
  cbv zeta in Hmask.
  unfold step5, predictPhysics, unbound_wqi_features, announces, shows, pinn_fallback. run_monad.
  destruct (predict_dissolved_oxygen (models rt)) as [e|predict].
  - rewrite Hmask. finish_step.
  - destruct wf as [d|].
    + destruct (predict d 72) as [e|v]; [rewrite Hmask|]; finish_step.
    + rewrite Hmask. finish_step.
Qed.

Lemma step6_run (yolo : YoloResult) (wqi : WqiResult) (score : float) (s : State) :
  wqi_score wqi = Some score ->
  exists s',
    step6 rt yolo wqi s
    = (inr (or_fallback (simulate rt yolo wqi) (twin_fallback rt score (draws s))), s') /\
    announces Simulate s s'.
Proof.
  destruct s as [n u ss wf]. intros Hscore. run_monad.
  destruct (last_nonempty
              (mock_trajectory score (map (randn_draw rt) (seq n 30))))
    as [final Hfinal].
  { rewrite length_mock_trajectory, length_map, length_seq. lia. }
  unfold step6, simulate, announces, shows, last_item, twin_fallback.
  rewrite Hscore. run_monad.
  destruct (run_digital_twin_simulation (models rt)) as [e|run].
  - rewrite !Hfinal. run_monad. finish_step.
  - destruct (run _ 30) as [e|v]; [rewrite !Hfinal; run_monad|]; finish_step.
Qed.


Lemma extends_refl (s : State) : extends s s.
Proof. exists []. reflexivity. Qed.

Lemma extends_trans (s1 s2 s3 : State) : extends s1 s2 -> extends s2 s3 -> extends s1 s3.
Proof.
  intros [new1 H1] [new2 H2]. exists (new2 ++ new1)%list.
  rewrite H2, H1. apply app_assoc.
Qed.

Lemma shows_extends (event : Ui) (s s' : State) : shows event s s' -> extends s s'.
Proof. intros [new [H _]]. exists new. exact H. Qed.

Lemma shows_between (event : Ui) (s0 s1 s2 s3 : State) :
  extends s0 s1 -> shows event s1 s2 -> extends s2 s3 -> shows event s0 s3.
Proof.
  intros [new1 H1] [new2 [H2 Hin]] [new3 H3].
  exists (new3 ++ new2 ++ new1)%list. split.
  - rewrite H3, H2, H1. rewrite <- !app_assoc. reflexivity.
  - apply in_or_app. right. apply in_or_app. left. exact Hin.
Qed.

Lemma st_extends (event : Ui) (s : State) : extends s (snd (st event s)).
Proof. exists [event]. reflexivity. Qed.

(** The six stages in a row: a report, whatever the models do, once
    stage 3 has left a score. *)
Lemma run_pipeline_run (sub : Submission) (image : list Byte.byte) (s : State)
  (score0 : float) :
  wqi_features s = None ->
  wqi_score (stage3 rt sub) = Some score0 ->
  exists report s',
    run_pipeline rt sub image s = (inr report, s') /\
    yolo_result report = or_fallback (detect rt image) yolo_fallback /\
    raman_result report
    = or_fallback (classify rt (map (rand_draw rt) (seq (draws s) 1024))) raman_fallback /\
    wqi_result report = stage3 rt sub /\
    forecast_result report
    = or_fallback (forecast rt (wqi_result report))
        (forecast_fallback rt score0 (draws_after_classify rt (draws s))) /\
    pinn_result report
    = or_fallback (predictPhysics rt (features_after_score rt sub)) (pinn_fallback rt sub) /\
    twin_result report
    = or_fallback (simulate rt (yolo_result report) (wqi_result report))
        (twin_fallback rt score0
           (draws_after_forecast rt (wqi_result report)
              (draws_after_classify rt (draws s)))) /\
    hd_error (ui s') = Some complete /\
    (forall stage, announces stage s s') /\
    (forall e, detect rt image = inl e ->
               shows (StError ("YOLO detection failed: " ++ str e)) s s').
Proof.
  intros Hunbound Hscore. unfold stage3 in *.
  pose (s0 := snd (st (Progress 0) s)).
  destruct (step1_run image s0) as (s1 & E1 & D1 & F1 & A1 & X1).
  destruct (step2_run s1) as (s2 & E2 & D2 & F2 & A2).
  destruct (step3_run sub s2) as (s3 & E3 & D3 & F3 & A3).
  { rewrite F2, F1. exact Hunbound. }
  set (wqi := or_fallback (score rt sub) wqi_fallback) in *.
  set (yolo := or_fallback (detect rt image) yolo_fallback) in *.
  destruct (step4_run wqi score0 s3 Hscore) as (s4 & E4 & D4 & F4 & A4).
  destruct (step5_run sub s4) as (s5 & E5 & D5 & A5).
  destruct (step6_run yolo wqi score0 s5 Hscore) as (s6 & E6 & A6).
  assert (draws s3 = draws_after_classify rt (draws s)) as Hd3.
  { rewrite D3, D2, D1. reflexivity. }
  assert (extends s s0) as X0 by apply st_extends.
  pose proof (shows_extends _ _ _ A1) as T1.
  pose proof (shows_extends _ _ _ A2) as T2.
  pose proof (shows_extends _ _ _ A3) as T3.
  pose proof (shows_extends _ _ _ A4) as T4.
  pose proof (shows_extends _ _ _ A5) as T5.
  pose proof (shows_extends _ _ _ A6) as T6.
  pose (s7 := snd (st complete s6)).
  assert (extends s6 s7) as T7 by apply st_extends.
  eexists. exists s7. split.
  { unfold run_pipeline, bind. fold s0.
    change (st (Progress 0) s) with (inr (A:=Exception) tt, s0).
    cbv beta iota. rewrite E1. cbv beta iota. rewrite E2. cbv beta iota.
    rewrite E3. cbv beta iota. fold wqi. rewrite E4. cbv beta iota.
    rewrite E5. cbv beta iota. fold yolo. rewrite E6. cbv beta iota.
    reflexivity. }
  cbn [yolo_result raman_result wqi_result forecast_result pinn_result twin_result].
  fold wqi. fold yolo.
  repeat match goal with |- _ /\ _ => split end; try reflexivity.
  - rewrite D1. reflexivity.
  - rewrite Hd3. reflexivity.
  - rewrite F4, F3. reflexivity.
  - rewrite D5, D4, Hd3. reflexivity.
  - intros stage. unfold announces in *.
    assert (extends s s1) as U1 by eauto using extends_trans.
    assert (extends s s2) as U2 by eauto using extends_trans.
    assert (extends s s3) as U3 by eauto using extends_trans.
    assert (extends s s4) as U4 by eauto using extends_trans.
    assert (extends s s5) as U5 by eauto using extends_trans.
    assert (extends s5 s7) as V5 by eauto using extends_trans.
    assert (extends s4 s7) as V4 by eauto using extends_trans.
    assert (extends s3 s7) as V3 by eauto using extends_trans.
    assert (extends s2 s7) as V2 by eauto using extends_trans.
    assert (extends s1 s7) as V1 by eauto using extends_trans.
    destruct stage; eauto using shows_between.
  - intros e He.
    assert (extends s1 s7) as V1 by eauto 10 using extends_trans.
    eauto using shows_between.
Qed.

(** What the first three stages show. *)
Lemma step1_ui (image : list Byte.byte) (s : State) :
  ui (snd (step1 rt image s))
  = (match detect rt image with
     | inl e => [StError ("YOLO detection failed: " ++ str e)]
     | inr _ => []
     end ++ [Progress 16; StatusMarkdown (status_line Detect)] ++ ui s)%list.
Proof.
  destruct s as [n u ss wf]. unfold step1, detect. run_monad.
  destruct (predict_image_with_viz (models rt)) as [e|predict]; [reflexivity|].
  destruct (predict image 0.35%float "Government") as [e|v]; reflexivity.
Qed.

Lemma step2_ui (s : State) :
  ui (snd (step2 rt s))
  = (match classify rt (map (rand_draw rt) (seq (draws s) 1024)) with
     | inl e => [StWarning ("Raman analysis skipped: " ++ str e)]
     | inr _ => []
     end ++ [Progress 33; StatusMarkdown (status_line Classify)] ++ ui s)%list.
Proof.
  destruct s as [n u ss wf]. unfold step2, classify. run_monad.
  destruct (predict_polymer (models rt)) as [e|predict]; [reflexivity|].
  destruct (predict _) as [e|v]; reflexivity.
Qed.

Lemma step3_ui (sub : Submission) (s : State) :
  ui (snd (step3 rt sub s))
  = (match score rt sub with
     | inl e => [StWarning ("WQI calculation skipped: " ++ str e)]
     | inr _ => []
     end ++ [Progress 50; StatusMarkdown (status_line Score)] ++ ui s)%list.
Proof.
  destruct s as [n u ss wf]. unfold step3, score. run_monad.
  destruct (predict_wqi (models rt)) as [e|predict]; [reflexivity|].
  destruct (predict _) as [e|v]; reflexivity.
Qed.

Lemma shown_since_app (new : list Ui) (s s' : State) :
  ui s' = (new ++ ui s)%list -> shown_since s s' = new.
Proof.
  intros Hui. unfold shown_since. rewrite Hui, length_app.
  replace (length new + length (ui s) - length (ui s))%nat with (length new) by lia.
  rewrite firstn_app, firstn_all, Nat.sub_diag. cbn [firstn]. apply app_nil_r.
Qed.

(** The run when the stage-3 model returns a dict without ['wqi_score']:
    the [KeyError] raised in the handler of stage 4 leaves the pipeline,
    after the warning of stage 4 and before stage 5 is announced. *)
Lemma run_pipeline_raises (sub : Submission) (image : list Byte.byte) (s : State) :
  wqi_features s = None ->
  wqi_score (stage3 rt sub) = None ->
  exists e s',
    forecast rt (stage3 rt sub) = inl e /\
    run_pipeline rt sub image s = (inl (KeyError "wqi_score"), s') /\
    hd_error (ui s') = Some (StWarning ("Forecast skipped: " ++ str e)) /\
    (forall stage, In (StatusMarkdown (status_line stage)) (shown_since s s')
                   <-> In stage [Detect; Classify; Score; Forecast]) /\
    ~ In complete (shown_since s s') /\
    (forall e1, detect rt image = inl e1 ->
                In (StError ("YOLO detection failed: " ++ str e1)) (shown_since s s')).
Proof.
  intros Hunbound Hscore. unfold stage3 in *.
  pose (s0 := snd (st (Progress 0) s)).
  destruct (step1_run image s0) as (s1 & E1 & D1 & F1 & _).
  destruct (step2_run s1) as (s2 & E2 & D2 & F2 & _).
  destruct (step3_run sub s2) as (s3 & E3 & D3 & F3 & _).
  { rewrite F2, F1. exact Hunbound. }
  pose proof (step1_ui image s0) as U1. rewrite E1 in U1.
  pose proof (step2_ui s1) as U2. rewrite E2 in U2.
  pose proof (step3_ui sub s2) as U3. rewrite E3 in U3.
  cbn [snd] in U1, U2, U3.
  set (wqi := or_fallback (score rt sub) wqi_fallback) in *.
  destruct (step4_raises wqi s3 Hscore) as (e & Hforecast & E4).
  exists e. eexists. split; [exact Hforecast|]. split.
  { unfold run_pipeline, bind. fold s0.
    change (st (Progress 0) s) with (inr (A:=Exception) tt, s0).
    cbv beta iota. rewrite E1. cbv beta iota. rewrite E2. cbv beta iota.
    rewrite E3. cbv beta iota. fold wqi. rewrite E4. reflexivity. }
  split; [reflexivity|].
  match goal with
  | |- context [shown_since s ?final] =>
      assert (exists new, ui final = (new ++ ui s)%list /\
                new = (StWarning ("Forecast skipped: " ++ str e) :: Progress 66
                       :: StatusMarkdown (status_line Forecast)
                       :: match score rt sub with
                          | inl e3 => [StWarning ("WQI calculation skipped: " ++ str e3)]
                          | inr _ => []
                          end
                       ++ [Progress 50; StatusMarkdown (status_line Score)]
                       ++ match classify rt (map (rand_draw rt) (seq (draws s1) 1024)) with
                          | inl e2 => [StWarning ("Raman analysis skipped: " ++ str e2)]
                          | inr _ => []
                          end
                       ++ [Progress 33; StatusMarkdown (status_line Classify)]
                       ++ match detect rt image with
                          | inl e1 => [StError ("YOLO detection failed: " ++ str e1)]
                          | inr _ => []
                          end
                       ++ [Progress 16; StatusMarkdown (status_line Detect); Progress 0])%list)
        as (new & Hui & Hnew)
  end.
  { eexists. split; [|reflexivity]. cbn [ui]. rewrite U3, U2, U1.
    change (ui s0) with (Progress 0 :: ui s).
    repeat (cbn [app]; rewrite <- app_assoc). reflexivity. }
  rewrite (shown_since_app new _ _ Hui). subst new. clear.
  destruct (score rt sub) as [e3|v3],
    (classify rt (map (rand_draw rt) (seq (draws s1) 1024))) as [e2|v2],
    (detect rt image) as [e1|v1].
  all: split; [|split].
  all: first
    [ solve [ intros stage; destruct stage; cbn [In app status_line]; split;
              intros H; intuition discriminate ]
    | solve [ unfold complete; cbn [In app status_line]; intuition discriminate ]
    | solve [ intros e0 He0; try discriminate He0; injection He0 as <-;
              cbn [In app]; tauto ] ].
Qed.

End Stages.

(** ** The pipeline as a whole *)

Section Pipeline.
Import Py Government.

(** The button handler on an upload: the six stages, and a report, once
    stage 3 has left a score. *)
Lemma dashboard_run (rt : Runtime) (sub : Submission) (image : list Byte.byte) (s : State)
  (score0 : float) :
  uploaded sub = Some image ->
  wqi_score (stage3 rt sub) = Some score0 ->
  exists report s',
    show_government_dashboard rt sub s = (inr (Some report), s') /\
    yolo_result report = or_fallback (detect rt image) yolo_fallback /\
    raman_result report
    = or_fallback (classify rt (map (rand_draw rt) (seq (draws s) 1024))) raman_fallback /\
    wqi_result report = stage3 rt sub /\
    forecast_result report
    = or_fallback (forecast rt (wqi_result report))
        (forecast_fallback rt score0 (draws_after_classify rt (draws s))) /\
    pinn_result report
    = or_fallback (predictPhysics rt (features_after_score rt sub)) (pinn_fallback rt sub) /\
    twin_result report
    = or_fallback (simulate rt (yolo_result report) (wqi_result report))
        (twin_fallback rt score0
           (draws_after_forecast rt (wqi_result report)
              (draws_after_classify rt (draws s)))) /\
    hd_error (ui s') = Some complete /\
    (forall stage, announces stage s s') /\
    (forall e, detect rt image = inl e ->
               shows (StError ("YOLO detection failed: " ++ str e)) s s').
Proof.
  intros Himage Hscore.
  destruct (run_pipeline_run rt sub image (snd (enter s)) score0 eq_refl Hscore)
    as (report & s' & Hrun & Hfacts).
  exists report, s'. split; [|exact Hfacts].
  unfold show_government_dashboard, bind. rewrite Himage.
  change (enter s) with (inr (A:=Exception) tt, snd (enter s)).
  cbv beta iota. rewrite Hrun. reflexivity.
Qed.

(** The button handler when stage 3 has left no score. *)
Lemma dashboard_raises (rt : Runtime) (sub : Submission) (image : list Byte.byte)
  (s : State) :
  uploaded sub = Some image ->
  wqi_score (stage3 rt sub) = None ->
  exists e s',
    forecast rt (stage3 rt sub) = inl e /\
    show_government_dashboard rt sub s = (inl (KeyError "wqi_score"), s') /\
    hd_error (ui s') = Some (StWarning ("Forecast skipped: " ++ str e)) /\
    (forall stage, In (StatusMarkdown (status_line stage)) (shown_since s s')
                   <-> In stage [Detect; Classify; Score; Forecast]) /\
    ~ In complete (shown_since s s') /\
    (forall e1, detect rt image = inl e1 ->
                In (StError ("YOLO detection failed: " ++ str e1)) (shown_since s s')).
Proof.
  intros Himage Hscore.
  destruct (run_pipeline_raises rt sub image (snd (enter s)) eq_refl Hscore)
    as (e & s' & Hforecast & Hrun & Hfacts).
  exists e, s'. split; [exact Hforecast|]. split; [|exact Hfacts].
  unfold show_government_dashboard, bind. rewrite Himage.
  change (enter s) with (inr (A:=Exception) tt, snd (enter s)).
  cbv beta iota. rewrite Hrun. reflexivity.
Qed.

Lemma stage3_of_result (rt : Runtime) (sub : Submission) (r : WqiResult) :
  score rt sub = inr r -> stage3 rt sub = r.
Proof. intros Hscore. unfold stage3. rewrite Hscore. reflexivity. Qed.

Lemma stage3_of_failure (rt : Runtime) (sub : Submission) (e : Exception) :
  score rt sub = inl e -> wqi_score (stage3 rt sub) = Some 52.3%float.
Proof. intros Hscore. unfold stage3. rewrite Hscore. reflexivity. Qed.

(** C1, where the code departs from it. When the index model returns a
    dict without 'wqi_score', the exception of stage 4 is caught, the
    warning is shown, and the handler's own read of the score at line 164
    raises a KeyError that leaves the run: no report is returned, stages 5
    and 6 are never announced, and "Analysis complete" is never shown. *)
Theorem unscored_result_leaves_the_pipeline (rt : Runtime) (sub : Submission)
  (image : list Byte.byte) (s : State) (r : WqiResult) :
  uploaded sub = Some image ->
  score rt sub = inr r ->
  wqi_score r = None ->
  exists e s',
    forecast rt r = inl e /\
    show_government_dashboard rt sub s = (inl (KeyError "wqi_score"), s') /\
    hd_error (ui s') = Some (StWarning ("Forecast skipped: " ++ str e)) /\
    (forall stage, In (StatusMarkdown (status_line stage)) (shown_since s s')
                   <-> In stage [Detect; Classify; Score; Forecast]) /\
    ~ In complete (shown_since s s').
Proof.
  intros Himage Hresult Hscore.
  pose proof (stage3_of_result rt sub r Hresult) as Hstage.
  destruct (dashboard_raises rt sub image s Himage)
    as (e & s' & Hforecast & Hrun & Hlast & Hstages & Hdone & _).
  { rewrite Hstage. exact Hscore. }
  rewrite Hstage in Hforecast.
  exists e, s'. repeat split; try assumption; apply Hstages.
Qed.

(** C2, where the code departs from it. When the detector raises and the
    index model then returns a dict without 'wqi_score', the detector's
    failure is shown, and the run is left by the KeyError of line 164:
    stages 5 and 6 do not execute. *)
Theorem detector_failure_then_unscored_result (rt : Runtime) (sub : Submission)
  (image : list Byte.byte) (s : State) (e1 : Exception) (r : WqiResult) :
  uploaded sub = Some image ->
  detect rt image = inl e1 ->
  score rt sub = inr r ->
  wqi_score r = None ->
  exists s',
    show_government_dashboard rt sub s = (inl (KeyError "wqi_score"), s') /\
    In (StError ("YOLO detection failed: " ++ str e1)) (shown_since s s') /\
    ~ In (StatusMarkdown (status_line PhysicsPredict)) (shown_since s s') /\
    ~ In (StatusMarkdown (status_line Simulate)) (shown_since s s') /\
    ~ In complete (shown_since s s').
Proof.
  intros Himage Hdetect Hresult Hscore.
  destruct (dashboard_raises rt sub image s Himage)
    as (e & s' & _ & Hrun & _ & Hstages & Hdone & Hshown).
  { rewrite (stage3_of_result rt sub r Hresult). exact Hscore. }
  exists s'. split; [exact Hrun|]. split; [exact (Hshown e1 Hdetect)|].
  split; [|split; [|exact Hdone]].
  - intros Hin. apply Hstages in Hin. cbn [In] in Hin. intuition discriminate.
  - intros Hin. apply Hstages in Hin. cbn [In] in Hin. intuition discriminate.
Qed.

(** X27. With an image uploaded and a score left by stage 3 (its
    fallback always leaves one), the run never raises: whatever each model
    does, import or call, the function returns a report whose six results
    are each the value its model returned or else the fallback dict of its
    handler, with the exception's message under 'error', and the last
    status line is "Analysis complete". *)
Theorem scored_pipeline_reports (rt : Runtime) (sub : Submission)
  (image : list Byte.byte) (s : State) (score0 : float) :
  uploaded sub = Some image ->
  wqi_score (stage3 rt sub) = Some score0 ->
  exists report s',
    show_government_dashboard rt sub s = (inr (Some report), s') /\
    yolo_result report = or_fallback (detect rt image) yolo_fallback /\
    raman_result report
    = or_fallback (classify rt (map (rand_draw rt) (seq (draws s) 1024))) raman_fallback /\
    wqi_result report = or_fallback (score rt sub) wqi_fallback /\
    forecast_result report
    = or_fallback (forecast rt (wqi_result report))
        (forecast_fallback rt score0 (draws_after_classify rt (draws s))) /\
    pinn_result report
    = or_fallback (predictPhysics rt (features_after_score rt sub)) (pinn_fallback rt sub) /\
    twin_result report
    = or_fallback (simulate rt (yolo_result report) (wqi_result report))
        (twin_fallback rt score0
           (draws_after_forecast rt (wqi_result report)
              (draws_after_classify rt (draws s)))) /\
    (forall stage e,
       match stage with
       | Detect => detect rt image = inl e
       | Classify => classify rt (map (rand_draw rt) (seq (draws s) 1024)) = inl e
       | Score => score rt sub = inl e
       | Forecast => forecast rt (wqi_result report) = inl e
       | PhysicsPredict => predictPhysics rt (features_after_score rt sub) = inl e
       | Simulate => simulate rt (yolo_result report) (wqi_result report) = inl e
       end ->
       reason report stage = Some (str e)) /\
    hd_error (ui s') = Some complete.
Proof.
  intros Himage Hscore.
  destruct (dashboard_run rt sub image s score0 Himage Hscore)
    as (report & s' & Hrun & H1 & H2 & H3 & H4 & H5 & H6 & Hdone & _).
  exists report, s'. split; [exact Hrun|].
  repeat match goal with |- _ = _ /\ _ => split; [assumption|] end.
  split; [|exact Hdone].
  intros stage e Hfails. unfold reason. destruct stage.
  - rewrite H1, Hfails. reflexivity.
  - rewrite H2, Hfails. reflexivity.
  - rewrite H3. unfold stage3. rewrite Hfails. reflexivity.
  - rewrite H4, Hfails. reflexivity.
  - rewrite H5, Hfails. reflexivity.
  - rewrite H6, Hfails. reflexivity.
Qed.

(** X28. When the detector raises, at import or in the call, and stage 3
    leaves a score, the detection result is count 0 with an empty type map
    and the exception's message under 'error'; the failure is shown, the
    five later stages are all announced and yield their model's value or
    their fallback, the simulator is handed a pollution load of 0, and the
    run completes. *)
Theorem detector_failure_is_absorbed (rt : Runtime) (sub : Submission)
  (image : list Byte.byte) (s : State) (e : Exception) (score0 : float) :
  uploaded sub = Some image ->
  detect rt image = inl e ->
  wqi_score (stage3 rt sub) = Some score0 ->
  exists report s',
    show_government_dashboard rt sub s = (inr (Some report), s') /\
    yolo_result report = mkYolo (Some 0) (Some ∅) None (Some (str e)) /\
    is_degraded report Detect = true /\
    shows (StError ("YOLO detection failed: " ++ str e)) s s' /\
    Forall (fun stage => announces stage s s')
      [Classify; Score; Forecast; PhysicsPredict; Simulate] /\
    raman_result report
    = or_fallback (classify rt (map (rand_draw rt) (seq (draws s) 1024))) raman_fallback /\
    wqi_result report = or_fallback (score rt sub) wqi_fallback /\
    forecast_result report
    = or_fallback (forecast rt (wqi_result report))
        (forecast_fallback rt score0 (draws_after_classify rt (draws s))) /\
    pinn_result report
    = or_fallback (predictPhysics rt (features_after_score rt sub)) (pinn_fallback rt sub) /\
    twin_result report
    = or_fallback (simulate rt (yolo_result report) (wqi_result report))
        (twin_fallback rt score0
           (draws_after_forecast rt (wqi_result report)
              (draws_after_classify rt (draws s)))) /\
    make_twin_params (yolo_result report) score0 !! "pollution_load" = Some (Int 0) /\
    hd_error (ui s') = Some complete.
Proof.
  intros Himage Hdetect Hscore.
  destruct (dashboard_run rt sub image s score0 Himage Hscore)
    as (report & s' & Hrun & H1 & H2 & H3 & H4 & H5 & H6 & Hdone & Hsteps & Hshown).
  rewrite Hdetect in H1. cbn [or_fallback] in H1. unfold yolo_fallback in H1.
  exists report, s'. split; [exact Hrun|].
  split; [exact H1|].
  split; [unfold is_degraded, reason; rewrite H1; reflexivity|].
  split; [exact (Hshown e Hdetect)|].
  split; [repeat constructor; apply Hsteps|].
  repeat match goal with |- _ = or_fallback _ _ /\ _ => split; [assumption|] end.
  split; [|exact Hdone].
  rewrite H1. reflexivity.
Qed.

Lemma raises_inl {F R : Type} (entry : Exception + F) (always : F -> Prop)
  (call : F -> Exception + R) :
  raises entry always ->
  (forall f, always f -> exists e, call f = inl e) ->
  exists e, match entry with inl e => inl e | inr f => call f end = inl e.
Proof.
  intros Hraises Hcall. destruct entry as [e|f]; [eauto | exact (Hcall f Hraises)].
Qed.

(** C9. With models that all raise, two runs in a row on one submission
    both return a report in which all six stages carry an 'error': the
    same set of degraded stages, whatever the draws and the clock. *)
Theorem failing_runs_degrade_alike (rt1 rt2 : Runtime) (sub : Submission)
  (image : list Byte.byte) (s : State) :
  uploaded sub = Some image ->
  all_models_fail (models rt1) ->
  all_models_fail (models rt2) ->
  exists report1 s1 report2 s2,
    show_government_dashboard rt1 sub s = (inr (Some report1), s1) /\
    show_government_dashboard rt2 sub s1 = (inr (Some report2), s2) /\
    degraded_stages report1 = stages /\
    degraded_stages report2 = degraded_stages report1.
Proof.
  intros Himage Hfail1 Hfail2.
  assert (forall rt s0, all_models_fail (models rt) ->
            exists report s', show_government_dashboard rt sub s0 = (inr (Some report), s') /\
                              degraded_stages report = stages) as Hone.
  { clear Hfail1 Hfail2. intros rt s0 (F1 & F2 & F3 & F4 & F5 & F6).
    destruct (raises_inl _ _ (fun f => f (make_wqi_features sub)) F3) as [e3 E3];
      [intros f Hf; apply Hf|].
    fold (score rt sub) in E3.
    destruct (dashboard_run rt sub image s0 52.3%float Himage (stage3_of_failure rt sub e3 E3))
      as (report & s' & Hrun & H1 & H2 & H3 & H4 & H5 & H6 & _).
    exists report, s'. split; [exact Hrun|].
    destruct (raises_inl _ _ (fun f => f image 0.35%float "Government") F1) as [e1 E1];
      [intros f Hf; apply Hf|].
    destruct (raises_inl _ _
                (fun f => f (map (rand_draw rt) (seq (draws s0) 1024))) F2) as [e2 E2];
      [intros f Hf; apply Hf|].
    destruct (raises_inl _ _
                (fun f => match wqi_score (wqi_result report) with
                          | Some score0 => f score0
                          | None => inl (KeyError "wqi_score")
                          end) F4) as [e4 E4].
    { intros f Hf. destruct (wqi_score (wqi_result report)); [apply Hf | eauto]. }
    destruct (raises_inl _ _
                (fun f => match features_after_score rt sub with
                          | Some d => f d 72
                          | None => inl unbound_wqi_features
                          end) F5) as [e5 E5].
    { intros f Hf. destruct (features_after_score rt sub); [apply Hf | eauto]. }
    destruct (raises_inl _ _
                (fun f => match wqi_score (wqi_result report) with
                          | Some initial_wqi =>
                              f (make_twin_params (yolo_result report) initial_wqi) 30
                          | None => inl (KeyError "wqi_score")
                          end) F6) as [e6 E6].
    { intros f Hf. destruct (wqi_score (wqi_result report)); [apply Hf | eauto]. }
    fold (detect rt image) in E1.
    fold (classify rt (map (rand_draw rt) (seq (draws s0) 1024))) in E2.
    fold (forecast rt (wqi_result report)) in E4.
    fold (predictPhysics rt (features_after_score rt sub)) in E5.
    fold (simulate rt (yolo_result report) (wqi_result report)) in E6.
    rewrite E1 in H1. rewrite E2 in H2. unfold stage3 in H3. rewrite E3 in H3.
    rewrite E4 in H4. rewrite E5 in H5. rewrite E6 in H6.
    unfold degraded_stages, stages, is_degraded, reason. cbn [List.filter].
    rewrite H1, H2, H3, H4, H5, H6. reflexivity. }
  destruct (Hone rt1 s Hfail1) as (report1 & s1 & Hrun1 & Hdeg1).
  destruct (Hone rt2 s1 Hfail2) as (report2 & s2 & Hrun2 & Hdeg2).
  exists report1, s1, report2, s2. repeat split; congruence.
Qed.

(** *** The oxygen alert *)






(** *** The forecast *)

Lemma increasing_cons (a b : Z) (rest : list Z) :
  increasing (a :: b :: rest) = (a <? b)%Z && increasing (b :: rest).
Proof. reflexivity. Qed.

(** [increasing] says that later timestamps are larger. *)
Lemma increasing_lookup (ts : list Z) :
  increasing ts = true <->
  forall i j a b, (i < j)%nat -> nth_error ts i = Some a -> nth_error ts j = Some b ->
                  (a < b)%Z.
Proof.
  induction ts as [|a [|b rest] IH].
  - split; [intros _ i j a b _ Hi; destruct i; discriminate | reflexivity].
  - split; [|reflexivity]. intros _ i j x y Hij Hi Hj.
    destruct j as [|j]; [lia|]. destruct j; discriminate.
  - rewrite increasing_cons, andb_true_iff, IH, Z.ltb_lt. split.
    + intros [Hab Hrest] i j x y Hij Hi Hj.
      destruct j as [|j]; [lia|]. destruct i as [|i]; simpl in Hi, Hj.
      * injection Hi as <-. destruct j as [|j]; simpl in Hj.
        -- injection Hj as <-. exact Hab.
        -- assert (b < y)%Z; [|lia].
           apply (Hrest 0%nat (S j) b y); [lia | reflexivity | exact Hj].
      * apply (Hrest i j x y); [lia | exact Hi | exact Hj].
    + intros Hall. split.
      * apply (Hall 0%nat 1%nat a b); [lia | reflexivity | reflexivity].
      * intros i j x y Hij Hi Hj. apply (Hall (S i) (S j) x y); [lia | exact Hi | exact Hj].
Qed.

Lemma increasing_days (start : Z) (first periods : nat) :
  increasing (map (fun i => start + Z.of_nat i * day_us)%Z (seq first periods)) = true.
Proof.
  revert first. induction periods as [|periods IH]; intros first; [reflexivity|].
  destruct periods as [|periods]; [reflexivity|].
  change (seq first (S (S periods))) with (first :: S first :: seq (S (S first)) periods).
  cbn [map]. rewrite increasing_cons. apply andb_true_iff. split.
  - apply Z.ltb_lt. unfold day_us. lia.
  - exact (IH (S first)).
Qed.

Lemma forecast_fallback_has_horizon (rt : Runtime) (score0 : float) (d : nat)
  (e : Exception) :
  is_ForecastResult 60 (forecast_fallback rt score0 d e).
Proof.
  unfold is_ForecastResult, forecast_fallback. eexists. split; [reflexivity|].
  cbn [Date Predicted_WQI]. split; [apply length_pd_date_range|]. split.
  - rewrite length_mock_forecast, length_map, length_seq. reflexivity.
  - apply increasing_days.
Qed.

(** C7 as the code has it. When the forecaster raises, the fallback of
    lines 163-168 is a frame of exactly 60 dates and 60 values whose dates
    strictly increase, whatever the clock and the draws; a result the
    forecaster returns is passed on as it is. *)
Theorem fallback_forecast_spans_the_horizon (rt : Runtime) (sub : Submission)
  (image : list Byte.byte) (s : State) (score0 : float) :
  uploaded sub = Some image ->
  wqi_score (stage3 rt sub) = Some score0 ->
  exists report s',
    show_government_dashboard rt sub s = (inr (Some report), s') /\
    (forall r, forecast rt (wqi_result report) = inr r -> forecast_result report = r) /\
    (forall e, forecast rt (wqi_result report) = inl e ->
       exists df,
         forecast_df (forecast_result report) = Some df /\
         length (Date df) = 60%nat /\
         length (Predicted_WQI df) = 60%nat /\
         forall i j a b, (i < j)%nat ->
           nth_error (Date df) i = Some a -> nth_error (Date df) j = Some b -> (a < b)%Z).
Proof.
  intros Himage Hscore.
  destruct (dashboard_run rt sub image s score0 Himage Hscore)
    as (report & s' & Hrun & _ & _ & _ & H4 & _).
  exists report, s'. split; [exact Hrun|]. split.
  - intros r Hreturns. rewrite H4 at 1. rewrite Hreturns. reflexivity.
  - intros e Hfails.
    assert (is_ForecastResult 60 (forecast_result report))
      as (df & Hdf & Hdates & Hvalues & Hinc).
    { rewrite H4, Hfails. apply forecast_fallback_has_horizon. }
    exists df. repeat split; try assumption. apply increasing_lookup. exact Hinc.
Qed.

(** C8 as the code has it. When the forecaster raises, each of the 60
    fallback values is the stage-3 score plus five times its own draw:
    value k reads draw k and no other, so the draws do not add up from one
    day to the next, and nothing limits how far a value lies from the
    score beyond the size of its draw. *)
Theorem fallback_forecast_is_noise_about_the_score (rt : Runtime) (sub : Submission)
  (image : list Byte.byte) (s : State) (score0 : float) :
  uploaded sub = Some image ->
  wqi_score (stage3 rt sub) = Some score0 ->
  exists report s',
    show_government_dashboard rt sub s = (inr (Some report), s') /\
    wqi_score (wqi_result report) = Some score0 /\
    forall e, forecast rt (wqi_result report) = inl e ->
      exists df,
        forecast_df (forecast_result report) = Some df /\
        length (Predicted_WQI df) = 60%nat /\
        forall k, (k < 60)%nat ->
          nth_error (Predicted_WQI df) k
          = Some (score0 + randn_draw rt (draws_after_classify rt (draws s) + k) * 5)%float.
Proof.
  intros Himage Hscore.
  destruct (dashboard_run rt sub image s score0 Himage Hscore)
    as (report & s' & Hrun & _ & _ & H3 & H4 & _).
  exists report, s'. split; [exact Hrun|].
  split; [rewrite H3; exact Hscore|].
  intros e Hfails. rewrite Hfails in H4. cbn [or_fallback] in H4.
  eexists. split; [rewrite H4; reflexivity|]. cbn [Predicted_WQI]. split.
  - rewrite length_mock_forecast, length_map, length_seq. reflexivity.
  - intros k Hk. unfold mock_forecast.
    rewrite !nth_error_map, nth_error_seq.
    destruct (Nat.ltb_spec k 60) as [_|Hge]; [reflexivity | lia].
Qed.

End Pipeline.


(** ** The properties on the sample inputs *)

Section SampleRuns.
Import Py Government Scenarios.

(** The index model answers without a score: the run is left by the
    KeyError of the forecast handler. *)
Lemma unscored_result_leaves_the_pipeline_sample :
  exists e s',
    forecast (runtime unscored_models) unscored = inl e /\
    show_government_dashboard (runtime unscored_models) sample fresh
    = (inl (KeyError "wqi_score"), s') /\
    hd_error (ui s') = Some (StWarning ("Forecast skipped: " ++ str e)) /\
    (forall stage, In (StatusMarkdown (status_line stage)) (shown_since fresh s')
                   <-> In stage [Detect; Classify; Score; Forecast]) /\
    ~ In complete (shown_since fresh s').
Proof.
  exact (unscored_result_leaves_the_pipeline (runtime unscored_models) sample image fresh
           unscored eq_refl eq_refl eq_refl).
Defined.

(** That run, evaluated: the exception that leaves the function,
    everything shown before it, latest first, and what the session holds:
    the results of stages 1 to 3, and no forecast. *)
Example unscored_run :
  fst (show_government_dashboard (runtime unscored_models) sample fresh)
  = inl (mkException "KeyError" "'wqi_score'") /\
  ui (snd (show_government_dashboard (runtime unscored_models) sample fresh))
  = [StWarning "Forecast skipped: 'wqi_score'";
     Progress 66;
     StatusMarkdown "**Step 4/6:** Generating 60-day WQI forecast...";
     Progress 50;
     StatusMarkdown "**Step 3/6:** Calculating Water Quality Index...";
     Progress 33;
     StatusMarkdown "**Step 2/6:** Raman spectroscopy analysis...";
     Progress 16;
     StatusMarkdown "**Step 1/6:** Running YOLOv8 detection...";
     Progress 0] /\
  session_state (snd (show_government_dashboard (runtime unscored_models) sample fresh))
    !! "wqi_result" = Some (SWqi unscored) /\
  session_state (snd (show_government_dashboard (runtime unscored_models) sample fresh))
    !! "forecast_result" = None.
Proof. vm_compute. repeat split. Qed.

(** The detector's weights are missing and the index model answers
    without a score. *)
Lemma detector_failure_then_unscored_result_sample :
  exists s',
    show_government_dashboard (runtime blind_unscored_models) sample fresh
    = (inl (KeyError "wqi_score"), s') /\
    In (StError "YOLO detection failed: models/yolo/best.pt") (shown_since fresh s') /\
    ~ In (StatusMarkdown (status_line PhysicsPredict)) (shown_since fresh s') /\
    ~ In (StatusMarkdown (status_line Simulate)) (shown_since fresh s') /\
    ~ In complete (shown_since fresh s').
Proof.
  exact (detector_failure_then_unscored_result (runtime blind_unscored_models) sample image
           fresh (mkException "FileNotFoundError" "models/yolo/best.pt") unscored
           eq_refl eq_refl eq_refl eq_refl).
Defined.

(** Every model raises in its call: the run still ends with a report. *)
Lemma scored_pipeline_reports_sample :
  exists report s',
    show_government_dashboard (runtime broken_models) sample fresh
    = (inr (Some report), s') /\
    wqi_result report = mkWqi (Some 52.3%float) (Some "Moderate") (Some "model is not fitted") /\
    reason report Simulate = Some "'decay_rate'" /\
    hd_error (ui s') = Some complete.
Proof.
  destruct (scored_pipeline_reports (runtime broken_models) sample image fresh 52.3%float
              eq_refl eq_refl)
    as (report & s' & Hrun & _ & _ & Hwqi & _ & _ & _ & Hreason & Hdone).
  exists report, s'. split; [exact Hrun|]. split; [exact Hwqi|].
  split; [|exact Hdone].
  apply (Hreason Simulate (mkException "KeyError" "'decay_rate'")).
  rewrite Hwqi. reflexivity.
Defined.

(** The detector's weights are missing: count 0, and the simulator is
    handed a pollution load of 0. *)
Lemma detector_failure_is_absorbed_sample :
  exists report s',
    show_government_dashboard (runtime broken_models) sample fresh
    = (inr (Some report), s') /\
    yolo_result report = mkYolo (Some 0) (Some ∅) None (Some "models/yolo/best.pt") /\
    make_twin_params (yolo_result report) 52.3%float !! "pollution_load" = Some (Int 0).
Proof.
  destruct (detector_failure_is_absorbed (runtime broken_models) sample image fresh
              (mkException "FileNotFoundError" "models/yolo/best.pt") 52.3%float
              eq_refl eq_refl eq_refl)
    as (report & s' & Hrun & Hyolo & _ & _ & _ & _ & _ & _ & _ & _ & Hload & _).
  exists report, s'. split; [exact Hrun|]. split; [exact Hyolo | exact Hload].
Defined.

Lemma no_models_fail : all_models_fail no_models.
Proof. repeat split. Qed.

Lemma broken_models_fail : all_models_fail broken_models.
Proof. repeat split; intros; eexists; reflexivity. Qed.

(** A run with no model installed, then one with models that raise when
    called. *)
Lemma failing_runs_degrade_alike_sample :
  exists report1 s1 report2 s2,
    show_government_dashboard (runtime no_models) sample fresh = (inr (Some report1), s1) /\
    show_government_dashboard (runtime broken_models) sample s1 = (inr (Some report2), s2) /\
    degraded_stages report1 = stages /\
    degraded_stages report2 = degraded_stages report1.
Proof.
  exact (failing_runs_degrade_alike (runtime no_models) (runtime broken_models)
           sample image fresh eq_refl no_models_fail broken_models_fail).
Defined.

(** Two runs in a row with no model installed: the same six degraded
    stages, different forecast values (the second run reads draws 90 to
    149). *)
Example failing_runs_differ_in_values :
  take 3 (forecast_values (show_government_dashboard (runtime no_models) sample fresh))
  = [44.8; 49.8; 54.8]%float /\
  take 3 (forecast_values
            (show_government_dashboard (runtime no_models) sample
               (snd (show_government_dashboard (runtime no_models) sample fresh))))
  = [57.3; 44.8; 49.8]%float /\
  degraded (show_government_dashboard (runtime no_models) sample fresh) = stages /\
  degraded (show_government_dashboard (runtime no_models) sample
              (snd (show_government_dashboard (runtime no_models) sample fresh)))
  = stages.
Proof. vm_compute. repeat split. Qed.



Example working_physics_alert :
  option_map (fun report => do_notice (pinn_result report))
    (match fst (show_government_dashboard (runtime working_models) sample fresh) with
     | inr report => report
     | inl _ => None
     end)
  = Some (Alert 2).
Proof. reflexivity. Qed.

(** The fallback curve for a reading of 5.0 mg/L falls below 4.0 mg/L. *)
Example fallback_physics_alert :
  option_map (fun report => do_notice (pinn_result report))
    (match fst (show_government_dashboard (runtime no_models)
                  (mkSubmission (Some image) 25.0 7.0 25.0 5.0 450.0 10.0 35.0 300.0
                     8.5 2.1 85.0 150) fresh) with
     | inr report => report
     | inl _ => None
     end)
  = Some (Alert 51).
Proof. vm_compute. reflexivity. Qed.

(** No forecaster installed: the fallback frame. *)
Lemma fallback_forecast_spans_the_horizon_sample :
  exists report s',
    show_government_dashboard (runtime no_models) sample fresh
    = (inr (Some report), s') /\
    exists df,
      forecast_df (forecast_result report) = Some df /\
      length (Date df) = 60%nat /\
      length (Predicted_WQI df) = 60%nat /\
      forall i j a b, (i < j)%nat ->
        nth_error (Date df) i = Some a -> nth_error (Date df) j = Some b -> (a < b)%Z.
Proof.
  destruct (fallback_forecast_spans_the_horizon (runtime no_models) sample image fresh
              52.3%float eq_refl eq_refl)
    as (report & s' & Hrun & _ & Hfallback).
  exists report, s'. split; [exact Hrun|].
  apply (Hfallback (missing "models")).
  destruct (wqi_score (wqi_result report)); reflexivity.
Defined.

(** C7 as the spec words it fails. A forecaster that returns two dated
    values: the pipeline passes them on, and the forecast of the report
    has 2 rows, not 60. *)
Lemma forecast_can_miss_the_horizon :
  option_map (fun report => (forecast_result report,
                             option_map (fun df => (length (Date df), length (Predicted_WQI df)))
                               (forecast_df (forecast_result report))))
    (match fst (show_government_dashboard (runtime offhand_models) sample fresh) with
     | inr report => report
     | inl _ => None
     end)
  = Some (short_forecast, Some (2%nat, 2%nat)).
Proof. vm_compute. reflexivity. Qed.

(** With no forecaster, the first draw read is draw 0. *)
Lemma fallback_forecast_is_noise_about_the_score_sample :
  exists report s',
    show_government_dashboard impulse_runtime sample fresh = (inr (Some report), s') /\
    wqi_score (wqi_result report) = Some 52.3%float /\
    forall e, forecast impulse_runtime (wqi_result report) = inl e ->
      exists df,
        forecast_df (forecast_result report) = Some df /\
        length (Predicted_WQI df) = 60%nat /\
        forall k, (k < 60)%nat ->
          nth_error (Predicted_WQI df) k = Some (52.3 + impulse (0 + k) * 5)%float.
Proof.
  exact (fallback_forecast_is_noise_about_the_score impulse_runtime sample image fresh
           52.3%float eq_refl eq_refl).
Defined.

(** C8 as the spec words it fails. With no model installed, a first draw of
    1 and all later draws 0, the fallback forecast is 57.3, 52.3, 52.3, ...:
    the first draw moves the first value only. A random walk from the
    score with the same draws stays at 57.3. *)
Lemma fallback_forecast_is_not_a_random_walk :
  take 3 (forecast_values (show_government_dashboard impulse_runtime sample fresh))
  = [57.3; 52.3; 52.3]%float /\
  take 3 (random_walk_forecast 52.3%float (map impulse (seq 0 60)))
  = [57.3; 57.3; 57.3]%float /\
  forecast_values (show_government_dashboard impulse_runtime sample fresh)
  <> random_walk_forecast 52.3%float (map impulse (seq 0 60)).
Proof.
  split; [vm_compute; reflexivity|]. split; [vm_compute; reflexivity|].
  intros Hsame.
  apply (f_equal (fun path => option_map Prim2SF (nth_error path 1))) in Hsame.
  vm_compute in Hsame. discriminate.
Qed.

(** Nothing clips the fallback: draws of 1000 give values 5000 above the
    score. *)
Example fallback_forecast_is_not_clipped :
  forecast_values
    (show_government_dashboard
       (mkRuntime no_models sine mean uniform (fun _ => 1000%float) new_year) sample fresh)
  = repeat 5052.3%float 60.
Proof. vm_compute. reflexivity. Qed.

(** Without an upload the button only warns. *)
Example nothing_uploaded :
  show_government_dashboard (runtime working_models)
    (mkSubmission None 25.0 7.0 25.0 7.5 450.0 10.0 35.0 300.0 8.5 2.1 85.0 150) fresh
  = (inr None,
     mkState 0 [StWarning "⚠️ Please upload a water sample image to begin analysis"] ∅ None).
Proof. reflexivity. Qed.

End SampleRuns.

(** ** src/app.py: importing the views *)

Section LoaderProperties.
Import Py Loader.

Lemma exec_app (libraries : string -> Exception + unit) (first rest : list Stmt)
  (globals : gset string) :
  exec libraries (first ++ rest) globals
  = match exec libraries first globals with
    | inl e => inl e
    | inr globals' => exec libraries rest globals'
    end.
Proof.
  revert globals. induction first as [|stmt first IH]; intros globals; [reflexivity|].
  destruct stmt as [module binds|name|context]; simpl.
  - destruct (libraries module); [reflexivity | apply IH].
  - apply IH.
  - destruct (decide (context ∈ globals)); [apply IH | reflexivity].
Qed.

(** Only imports, [def]s and names already bound: the globals never lose
    a name, and gain only what the statements bind. *)
Lemma exec_binds (libraries : string -> Exception + unit) (body : list Stmt)
  (globals globals' : gset string) (name : string) :
  exec libraries body globals = inr globals' ->
  name ∈ globals' ->
  name ∈ globals \/
  Exists (fun stmt => match stmt with
                      | Imports _ binds => In name binds
                      | Def f => f = name
                      | WithName _ => False
                      end) body.
Proof.
  revert globals. induction body as [|stmt body IH]; intros globals Hexec Hin; simpl in Hexec.
  - injection Hexec as <-. left. exact Hin.
  - destruct stmt as [module binds|f|context].
    + destruct (libraries module); [discriminate|].
      destruct (IH _ Hexec Hin) as [Hold|Hlater]; [|right; right; exact Hlater].
      apply elem_of_union in Hold as [Hnew|Hold]; [|left; exact Hold].
      right. left. apply elem_of_list_to_set in Hnew. apply list_elem_of_In. exact Hnew.
    + destruct (IH _ Hexec Hin) as [Hold|Hlater]; [|right; right; exact Hlater].
      apply elem_of_union in Hold as [Hnew|Hold]; [|left; exact Hold].
      right. left. apply elem_of_singleton in Hnew. congruence.
    + destruct (decide (context ∈ globals)); [|discriminate].
      destruct (IH _ Hexec Hin) as [Hold|Hlater]; [left; exact Hold | right; right; exact Hlater].
Qed.

(** X1. Importing views.government never succeeds: whatever the installed
    libraries do, the module body raises, and when every library imports
    the exception is the NameError for [tab4] of line 649, which stands
    outside the function that binds that name. *)
Theorem government_module_never_imports (libraries : string -> Exception + unit) :
  exists e,
    from_import libraries "views.government" views_government "show_government_dashboard"
    = inl e /\
    (all_installed libraries -> e = NameError "tab4").
Proof.
  unfold from_import.
  change views_government
    with (firstn 10 views_government ++ [WithName "tab4"])%list.
  rewrite exec_app.
  destruct (exec libraries (firstn 10 views_government) ∅) as [e|globals] eqn:Hexec.
  - exists e. split; [reflexivity|]. intros Hall.
    simpl in Hexec. rewrite !Hall in Hexec. discriminate.
  - simpl. destruct (decide ("tab4" ∈ globals)) as [Hbound|Hfree].
    + exfalso. destruct (exec_binds _ _ _ _ "tab4" Hexec Hbound) as [Hempty|Hstmt].
      * set_solver.
      * simpl in Hstmt. repeat (apply Exists_cons in Hstmt as [Hstmt|Hstmt];
          [simpl in Hstmt; intuition discriminate|]).
        inversion Hstmt.
    + exists (NameError "tab4"). split; [reflexivity | reflexivity].
Qed.

Lemma tab4_is_unbound (libraries : string -> Exception + unit) :
  all_installed libraries ->
  from_import libraries "views.government" views_government "show_government_dashboard"
  = inl (NameError "tab4").
Proof.
  intros Hall. unfold from_import, views_government. cbn [exec]. rewrite !Hall.
  destruct (decide ("tab4" ∈ _)) as [Hbound|Hfree]; [|reflexivity].
  exfalso. clear -Hbound. set_unfold. intuition discriminate.
Qed.

Lemma from_import_defined (libraries : string -> Exception + unit) (module : string)
  (imports : list Stmt) (name : string) (later : list string) :
  all_installed libraries ->
  Forall (fun stmt => match stmt with Imports _ _ => True | _ => False end) imports ->
  from_import libraries module (imports ++ Def name :: map Def later)%list name = inr tt.
Proof.
  intros Hall Himports. unfold from_import. rewrite exec_app.
  assert (forall globals, exists globals',
            exec libraries imports globals = inr globals') as Hrun.
  { induction Himports as [|stmt imports Hstmt _ IH]; intros globals; simpl; [eauto|].
    destruct stmt as [m binds| |]; try contradiction. rewrite Hall. apply IH. }
  destruct (Hrun ∅) as [globals ->]. simpl.
  assert (forall later globals0, name ∈ globals0 ->
            exists globals', exec libraries (map Def later) globals0 = inr globals' /\
                             name ∈ globals') as Hdefs.
  { clear. induction later as [|f later IH]; intros globals0 Hin; simpl; [eauto|].
    apply IH. set_solver. }
  destruct (Hdefs later ({[name]} ∪ globals)) as (globals' & -> & Hin); [set_solver|].
  destruct (decide (name ∈ globals')); [reflexivity | contradiction].
Qed.

(** X2. With every library installed, the Public, Researcher and Admin
    roles of the selector reach their dashboard function, and the
    Government role ends in the NameError of views.government before
    [show_government_dashboard] is called. *)
Theorem dispatch_by_role (libraries : string -> Exception + unit) (role : string) :
  all_installed libraries ->
  In role App.role_options ->
  dispatch libraries role
  = if str_in "Government" role then inl (NameError "tab4") else inr (App.route role).
Proof.
  intros Hall Hrole.
  assert (from_import libraries "views.citizen" views_citizen "show_citizen_dashboard"
          = inr tt) as Hcitizen.
  { apply (from_import_defined libraries "views.citizen"
             (firstn 6 views_citizen) "show_citizen_dashboard" [] Hall).
    repeat constructor. }
  assert (from_import libraries "views.researcher" views_researcher
            "show_researcher_dashboard" = inr tt) as Hresearcher.
  { apply (from_import_defined libraries "views.researcher"
             (firstn 8 views_researcher) "show_researcher_dashboard" [] Hall).
    repeat constructor. }
  assert (from_import libraries "views.admin_panel" views_admin_panel "show_admin_panel"
          = inr tt) as Hadmin.
  { apply (from_import_defined libraries "views.admin_panel"
             (firstn 6 views_admin_panel) "show_admin_panel" ["show_login_screen"] Hall).
    repeat constructor. }
  pose proof (tab4_is_unbound libraries Hall) as Hgov.
  simpl in Hrole. unfold dispatch.
  destruct Hrole as [<-|[<-|[<-|[<-|[]]]]].
  - change (str_in "Public" "👥 Public User") with true. cbv iota.
    change (str_in "Government" "👥 Public User") with false. cbv iota.
    rewrite Hcitizen. reflexivity.
  - change (str_in "Public" "🏛️ Government Official") with false. cbv iota.
    change (str_in "Government" "🏛️ Government Official") with true. cbv iota.
    rewrite Hgov. reflexivity.
  - change (str_in "Public" "🔬 Researcher") with false.
    change (str_in "Government" "🔬 Researcher") with false.
    change (str_in "Researcher" "🔬 Researcher") with true. cbv iota.
    rewrite Hresearcher. reflexivity.
  - change (str_in "Public" "⚙️ Admin Panel") with false.
    change (str_in "Government" "⚙️ Admin Panel") with false.
    change (str_in "Researcher" "⚙️ Admin Panel") with false.
    change (str_in "Admin" "⚙️ Admin Panel") with true. cbv iota.
    rewrite Hadmin. reflexivity.
Qed.

(** The researcher's role, with every library installed. *)
Lemma dispatch_by_role_researcher :
  dispatch everything_installed "🔬 Researcher" = inr (Some App.ResearcherView).
Proof.
  exact (dispatch_by_role everything_installed "🔬 Researcher"
           (fun _ => eq_refl) (or_intror (or_intror (or_introl eq_refl)))).
Defined.

End LoaderProperties.

(** ** src/views/admin_panel.py: login, filters, cards and growth *)

Section AdminProperties.
Import Py Admin.

Lemma authenticated_after (v : Visit) (ss : gmap string bool) :
  session_state (show_admin_panel v ss) !! "admin_authenticated" = Some true ->
  (ss !! "admin_authenticated" = Some true /\ logout v = false) \/
  (ss !! "admin_authenticated" <> Some true /\ good_login v).
Proof.
  unfold show_admin_panel, show_login_screen, good_login.
  destruct (ss !! "admin_authenticated") as [[|]|] eqn:Hss; simpl.
  - rewrite Hss. destruct (logout v); simpl.
    + rewrite lookup_insert_eq. discriminate.
    + intros _. left. split; reflexivity.
  - rewrite Hss. intros Hafter. right. split; [discriminate|].
    destruct (submitted v); simpl in Hafter; [|congruence].
    destruct (String.eqb (username v) "admin") eqn:Hu; simpl in Hafter; [|congruence].
    destruct (String.eqb (password v) "admin123") eqn:Hp; simpl in Hafter; [|congruence].
    apply String.eqb_eq in Hu, Hp. auto.
  - rewrite lookup_insert_eq. intros Hafter. right. split; [discriminate|].
    destruct (submitted v); simpl in Hafter;
      [|rewrite lookup_insert_eq in Hafter; discriminate].
    destruct (String.eqb (username v) "admin") eqn:Hu; simpl in Hafter;
      [|rewrite lookup_insert_eq in Hafter; discriminate].
    destruct (String.eqb (password v) "admin123") eqn:Hp; simpl in Hafter;
      [|rewrite lookup_insert_eq in Hafter; discriminate].
    apply String.eqb_eq in Hu, Hp. auto.
Qed.

Lemma browse_snoc (visits : list Visit) (v : Visit) (ss : gmap string bool) :
  browse (visits ++ [v]) ss = session_state (show_admin_panel v (browse visits ss)).
Proof. unfold browse. rewrite fold_left_app. reflexivity. Qed.

Lemma authenticated_needs_a_login (visits : list Visit) (ss : gmap string bool) :
  ss !! "admin_authenticated" <> Some true ->
  browse visits ss !! "admin_authenticated" = Some true ->
  exists v, In v visits /\ good_login v.
Proof.
  intros Hstart. induction visits as [|v visits IH] using rev_ind.
  - simpl. intros Hend. contradiction.
  - rewrite browse_snoc. intros Hend.
    destruct (authenticated_after _ _ Hend) as [[Hbefore _]|[_ Hgood]].
    + destruct (IH Hbefore) as (w & Hin & Hw). exists w. split; [|exact Hw].
      apply in_or_app. left. exact Hin.
    + exists v. split; [|exact Hgood]. apply in_or_app. right. left. reflexivity.
Qed.

Lemma panel_shown (v : Visit) (ss : gmap string bool) :
  In panel_title (shown (show_admin_panel v ss)) ->
  ss !! "admin_authenticated" = Some true.
Proof.
  unfold show_admin_panel, show_login_screen.
  destruct (ss !! "admin_authenticated") as [[|]|] eqn:Hss; simpl;
    rewrite ?Hss, ?lookup_insert_eq; [reflexivity| |].
  all: destruct (submitted v);
    [destruct (String.eqb (username v) "admin" && String.eqb (password v) "admin123")|];
    simpl; unfold panel_title, login_title, demo_credentials; intuition discriminate.
Qed.

(** X3. Starting from a session that is not authenticated, the
    administration panel is shown in a run only if an earlier run
    submitted the login form with exactly "admin" and "admin123". *)
Theorem panel_needs_a_login (earlier : list Visit) (v : Visit) (ss : gmap string bool) :
  ss !! "admin_authenticated" <> Some true ->
  In panel_title (shown (show_admin_panel v (browse earlier ss))) ->
  exists w, In w earlier /\ good_login w.
Proof.
  intros Hstart Hshown. apply panel_shown in Hshown.
  exact (authenticated_needs_a_login earlier ss Hstart Hshown).
Qed.

(** After the demo login, the next run shows the panel. *)
Lemma panel_needs_a_login_sample :
  exists w, In w [demo_login] /\ good_login w.
Proof.
  apply (panel_needs_a_login [demo_login] idle ∅).
  - vm_compute. discriminate.
  - vm_compute. left. reflexivity.
Defined.

(** X4. A run that starts unauthenticated ends authenticated exactly when
    it submits "admin" and "admin123", compared as whole strings; a
    submission with anything else shows "Invalid credentials" and does not
    rerun. *)
Theorem login_checks_the_credentials (v : Visit) (ss : gmap string bool) :
  ss !! "admin_authenticated" <> Some true ->
  let run := show_admin_panel v ss in
  (session_state run !! "admin_authenticated" = Some true <-> good_login v) /\
  (good_login v -> rerun run = true /\ ~ In panel_title (shown run)) /\
  (submitted v = true -> ~ good_login v ->
   In (Error "❌ Invalid credentials") (shown run) /\ rerun run = false).
Proof.
  intros Hstart run. subst run. split; [split|split].
  - intros Hend. destruct (authenticated_after _ _ Hend) as [[Hbefore _]|[_ Hgood]];
      [contradiction | exact Hgood].
  - intros (Hs & Hu & Hp). unfold show_admin_panel, show_login_screen.
    destruct (ss !! "admin_authenticated") as [[|]|] eqn:Hss; [contradiction| |];
      rewrite ?Hss, ?lookup_insert_eq, Hs, Hu, Hp; simpl; apply lookup_insert_eq.
  - intros (Hs & Hu & Hp). unfold show_admin_panel, show_login_screen.
    destruct (ss !! "admin_authenticated") as [[|]|] eqn:Hss; [contradiction| |];
      rewrite ?Hss, ?lookup_insert_eq, Hs, Hu, Hp; simpl;
      (split; [reflexivity | unfold panel_title, login_title; intuition discriminate]).
  - intros Hs Hbad. unfold show_admin_panel, show_login_screen.
    assert (String.eqb (username v) "admin" && String.eqb (password v) "admin123" = false)
      as Hcheck.
    { destruct (String.eqb (username v) "admin") eqn:Hu; [|reflexivity].
      destruct (String.eqb (password v) "admin123") eqn:Hp; [|reflexivity].
      apply String.eqb_eq in Hu, Hp. exfalso. apply Hbad. repeat split; assumption. }
    destruct (ss !! "admin_authenticated") as [[|]|] eqn:Hss; [contradiction| |];
      rewrite ?Hss, ?lookup_insert_eq, Hs, Hcheck; simpl; auto.
Qed.

(** The demo login on a new session. *)
Lemma login_checks_the_credentials_sample :
  (session_state (show_admin_panel demo_login ∅) !! "admin_authenticated" = Some true
   <-> good_login demo_login) /\
  (good_login demo_login ->
   rerun (show_admin_panel demo_login ∅) = true /\
   ~ In panel_title (shown (show_admin_panel demo_login ∅))) /\
  (submitted demo_login = true -> ~ good_login demo_login ->
   In (Error "❌ Invalid credentials") (shown (show_admin_panel demo_login ∅)) /\
   rerun (show_admin_panel demo_login ∅) = false).
Proof.
  apply (login_checks_the_credentials demo_login ∅).
  vm_compute. discriminate.
Defined.

(** X5. Logging out ends the session and reruns the script: whatever the
    next run submits or clicks, it shows the login screen and not the
    panel. *)
Theorem logout_returns_to_the_login_screen (v next : Visit) (ss : gmap string bool) :
  ss !! "admin_authenticated" = Some true ->
  logout v = true ->
  let after := show_admin_panel v ss in
  session_state after !! "admin_authenticated" = Some false /\
  rerun after = true /\
  In login_title (shown (show_admin_panel next (session_state after))) /\
  ~ In panel_title (shown (show_admin_panel next (session_state after))).
Proof.
  intros Hss Hout after. subst after.
  assert (session_state (show_admin_panel v ss) !! "admin_authenticated" = Some false)
    as Hafter.
  { unfold show_admin_panel. rewrite Hss. simpl. rewrite Hss, Hout. simpl.
    apply lookup_insert_eq. }
  split; [exact Hafter|]. split.
  { unfold show_admin_panel. rewrite Hss. simpl. rewrite Hss, Hout. reflexivity. }
  split.
  - unfold show_admin_panel at 1. rewrite Hafter. simpl. rewrite Hafter.
    unfold show_login_screen.
    destruct (submitted next);
      [destruct (String.eqb (username next) "admin" && String.eqb (password next) "admin123")|];
      simpl; auto.
  - intros Hpanel. apply panel_shown in Hpanel. congruence.
Qed.

(** Logging out of an authenticated session, then submitting nothing. *)
Lemma logout_returns_to_the_login_screen_sample :
  session_state (show_admin_panel leave (browse [demo_login] ∅)) !! "admin_authenticated"
  = Some false /\
  rerun (show_admin_panel leave (browse [demo_login] ∅)) = true /\
  In login_title
    (shown (show_admin_panel idle
              (session_state (show_admin_panel leave (browse [demo_login] ∅))))) /\
  ~ In panel_title
      (shown (show_admin_panel idle
                (session_state (show_admin_panel leave (browse [demo_login] ∅))))).
Proof.
  apply (logout_returns_to_the_login_screen leave idle (browse [demo_login] ∅)).
  - vm_compute. reflexivity.
  - reflexivity.
Defined.

Lemma sublist_List_filter {A} (keep : A -> bool) (l : list A) :
  sublist (List.filter keep l) l.
Proof.
  induction l as [|x l IH]; simpl; [constructor|].
  destruct (keep x); [apply sublist_skip | apply sublist_cons]; exact IH.
Qed.

(** X6. The user table after the two filters holds exactly the users of
    the table that match the chosen role and the chosen status ("All"
    matching everyone), in their original order. *)
Theorem filter_users_keeps_the_matches (role_filter status_filter : string)
  (users_data : list User) :
  (forall u, In u (filter_users role_filter status_filter users_data) <->
             In u users_data /\
             (role_filter = "All" \/ Role u = role_filter) /\
             (status_filter = "All" \/ Status u = status_filter)) /\
  sublist (filter_users role_filter status_filter users_data) users_data.
Proof.
  unfold filter_users.
  destruct (String.eqb_spec role_filter "All") as [Hr|Hr];
    destruct (String.eqb_spec status_filter "All") as [Hs|Hs]; simpl.
  - split; [intros u; tauto | reflexivity].
  - split.
    + intros u. rewrite filter_In, String.eqb_eq. tauto.
    + apply sublist_List_filter.
  - split.
    + intros u. rewrite filter_In, String.eqb_eq. tauto.
    + apply sublist_List_filter.
  - split.
    + intros u. rewrite !filter_In, !String.eqb_eq. tauto.
    + etransitivity; apply sublist_List_filter.
Qed.

Lemma item_app {A} (before after : list A) (j : nat) :
  item (before ++ after) (length before + j) = item after j.
Proof.
  unfold item. rewrite nth_error_app2 by lia.
  replace (length before + j - length before)%nat with j by lia. reflexivity.
Qed.

Lemma render_row_chunk {A} (before after : list A) :
  render_row (before ++ after) (length before) [0; 1; 2]%nat = inr (firstn 3 after).
Proof.
  cbn [render_row]. rewrite !item_app, length_app.
  destruct after as [|a [|b [|c after]]]; cbn [length item nth_error firstn].
  - replace (length before + 0 <? length before + 0)%nat with false
      by (symmetry; apply Nat.ltb_ge; lia).
    replace (length before + 1 <? length before + 0)%nat with false
      by (symmetry; apply Nat.ltb_ge; lia).
    replace (length before + 2 <? length before + 0)%nat with false
      by (symmetry; apply Nat.ltb_ge; lia).
    reflexivity.
  - replace (length before + 0 <? length before + 1)%nat with true
      by (symmetry; apply Nat.ltb_lt; lia).
    replace (length before + 1 <? length before + 1)%nat with false
      by (symmetry; apply Nat.ltb_ge; lia).
    replace (length before + 2 <? length before + 1)%nat with false
      by (symmetry; apply Nat.ltb_ge; lia).
    reflexivity.
  - replace (length before + 0 <? length before + 2)%nat with true
      by (symmetry; apply Nat.ltb_lt; lia).
    replace (length before + 1 <? length before + 2)%nat with true
      by (symmetry; apply Nat.ltb_lt; lia).
    replace (length before + 2 <? length before + 2)%nat with false
      by (symmetry; apply Nat.ltb_ge; lia).
    reflexivity.
  - replace (length before + 0 <? length before + S (S (S (length after))))%nat with true
      by (symmetry; apply Nat.ltb_lt; lia).
    replace (length before + 1 <? length before + S (S (S (length after))))%nat with true
      by (symmetry; apply Nat.ltb_lt; lia).
    replace (length before + 2 <? length before + S (S (S (length after))))%nat with true
      by (symmetry; apply Nat.ltb_lt; lia).
    reflexivity.
Qed.

Lemma render_rows_from {A} (rows : nat) (before after : list A) :
  (length after <= 3 * rows)%nat ->
  render_rows (before ++ after)
    (map (fun k => length before + k * 3)%nat (seq 0 rows)) = inr after.
Proof.
  revert before after. induction rows as [|rows IH]; intros before after Hlen.
  - destruct after; [reflexivity | simpl in Hlen; lia].
  - rewrite <- cons_seq, <- seq_shift, map_cons, map_map. cbn [render_rows].
    replace (length before + 0 * 3)%nat with (length before) by lia.
    rewrite render_row_chunk.
    assert (before ++ after = (before ++ firstn 3 after) ++ skipn 3 after)%list as Hsplit
      by (rewrite <- app_assoc, firstn_skipn; reflexivity).
    assert (length (firstn 3 after) = 3 \/ skipn 3 after = [])%nat as [Hfull|Hshort].
    { destruct after as [|a [|b [|c after]]]; simpl; auto. }
    + rewrite Hsplit at 1.
      erewrite map_ext; [rewrite (IH (before ++ firstn 3 after)%list (skipn 3 after))|].
      * rewrite firstn_skipn. reflexivity.
      * rewrite length_skipn. lia.
      * intros k. rewrite length_app, Hfull. simpl. lia.
    + assert (forall starts,
                render_rows (before ++ after)
                  (map (fun k => length before + S k * 3)%nat starts) = inr []) as Hrest.
      { induction starts as [|k starts IHs]; [reflexivity|].
        cbn [map render_rows].
        assert (forall j, (length before + S k * 3 + j <? length (before ++ after))%nat = false)
          as Hout.
        { intros j. apply Nat.ltb_ge. rewrite length_app.
          assert (length after <= 3)%nat; [|lia].
          rewrite <- (firstn_skipn 3 after), Hshort, app_nil_r, length_firstn. lia. }
        cbn [render_row]. rewrite !Hout, IHs. reflexivity. }
      rewrite Hrest. rewrite <- (firstn_skipn 3 after) at 2. rewrite Hshort, !app_nil_r.
      reflexivity.
Qed.

(** X7. The grid of model cards shows every model exactly once, in the
    order of the list, and its index never runs past the end, however many
    models there are. *)
Theorem model_cards_cover_the_models {A : Type} (models : list A) :
  model_cards models = inr models.
Proof.
  unfold model_cards, range.
  replace (length models - 0 + 3 - 1)%nat with (length models + 2)%nat by lia.
  apply (render_rows_from ((length models + 2) / 3) [] models).
  pose proof (Nat.div_mod_eq (length models + 2) 3) as Hdiv.
  pose proof (Nat.mod_upper_bound (length models + 2) 3). lia.
Qed.

Lemma accumulate_steps (acc : Z) (steps : list Z) :
  Forall (fun x => 0 <= x < 20) steps ->
  StronglySorted Z.le (accumulate acc steps) /\
  Forall (fun v => acc <= v <= acc + 19 * Z.of_nat (length steps)) (accumulate acc steps).
Proof.
  intros Hsteps. revert acc. induction Hsteps as [|x steps Hx _ IH]; intros acc; simpl.
  - split; constructor.
  - destruct (IH (acc + x)) as [Hsorted Hbound]. split.
    + constructor; [exact Hsorted|].
      eapply Forall_impl; [exact Hbound|]. simpl. intros v Hv. lia.
    + constructor; [lia|].
      eapply Forall_impl; [exact Hbound|]. simpl. intros v Hv. lia.
Qed.

(** X8. The "Active Users" series of the growth chart has 90 values,
    never decreases, and stays between 500 and 2210, whatever the
    generator draws. *)
Theorem active_users_never_decrease (raw : nat -> Z) (k : nat) :
  exists series,
    active_users raw k = inr series /\
    length series = 90%nat /\
    StronglySorted Z.le series /\
    Forall (fun v => 500 <= v <= 2210) series.
Proof.
  unfold active_users, np_random_randint. change (0 <? 20)%Z with true. cbv iota.
  eexists. split; [reflexivity|].
  set (steps := map (fun i => 0 + raw i mod (20 - 0)) (seq k 90)).
  assert (Forall (fun x => 0 <= x < 20) steps) as Hsteps.
  { apply List.Forall_forall. intros x Hx. apply in_map_iff in Hx as (i & <- & _).
    change (20 - 0) with 20.
    pose proof (Z.mod_pos_bound (raw i) 20 eq_refl). lia. }
  assert (length steps = 90%nat) as Hlen
    by (unfold steps; rewrite length_map, length_seq; reflexivity).
  destruct (accumulate_steps 0 steps Hsteps) as [Hsorted Hbound].
  unfold np_cumsum. split; [|split].
  - rewrite length_map.
    clear -Hlen. revert Hlen. generalize 0. generalize 90%nat.
    induction steps as [|x steps IH]; intros n acc Hlen; simpl in *; [exact Hlen|].
    destruct n; [discriminate|]. f_equal. apply (IH n). lia.
  - clear -Hsorted. induction Hsorted as [|v rest Hrest IH Hv]; simpl; constructor.
    + exact IH.
    + apply List.Forall_forall. intros w Hw. apply in_map_iff in Hw as (c & <- & Hc).
      rewrite List.Forall_forall in Hv. specialize (Hv c Hc). lia.
  - apply List.Forall_forall. intros w Hw. apply in_map_iff in Hw as (c & <- & Hc).
    rewrite List.Forall_forall in Hbound. specialize (Hbound c Hc). rewrite Hlen in Hbound. lia.
Qed.

End AdminProperties.

(** ** src/views/citizen.py: the analysis of an upload and its history *)

Section CitizenViewProperties.
Import Py Script CitizenView.

Ltac run_view :=
  cbv beta iota delta [try_except bind lift st ret raise when index save
                       session_state ui].

Lemma type_rows_nonzero (total : Z) (items : list (string * Z)) (s : State) :
  total <> 0 ->
  type_rows (Some total) items s
  = (inr (map (fun item => (fst item, snd item, total)) items), s).
Proof.
  intros Htotal. induction items as [|[ptype n] items IH]; [reflexivity|].
  cbn [type_rows]. run_view.
  destruct (Z.eqb_spec total 0) as [|_]; [contradiction|].
  run_view. rewrite IH. reflexivity.
Qed.

Lemma type_rows_zero (item : string * Z) (items : list (string * Z)) (s : State) :
  type_rows (Some 0) (item :: items) s
  = (inl (mkException "ZeroDivisionError" "division by zero"), s).
Proof. destruct item as [ptype n]. reflexivity. Qed.

(** What a result rendered to the end has shown, latest first. *)
Definition rendered (result : Detection) (total : Z) (image : list Byte.byte)
  (threshold : float) : list Ui :=
  let avg_conf := get (avg_confidence result) 0%float in
  ((if (50 <? total)%Z then [ReportForm] else []) ++
   [CsvReport total avg_conf (Citizen.risk total) (types_of result);
    RiskBox (Citizen.risk_level_box total)] ++
   match types_of result with
   | first :: rest =>
       [TypeTable (map (fun item => (fst item, snd item, total)) (first :: rest));
        DominantType (fst (max_from first rest)) (snd (max_from first rest))]
   | [] => []
   end ++
   [DetectionQuality (conf_label avg_conf) avg_conf;
    TotalParticles total threshold;
    AnnotatedImage image;
    DetectionResults])%list.

Lemma show_results_complete (st_image : list Byte.byte -> Exception + unit)
  (result : Detection) (now total : Z) (image : list Byte.byte) (s : State) :
  count result = Some total ->
  annotated_image result = Some image ->
  st_image image = inr tt ->
  (types_of result <> [] -> total <> 0) ->
  show_results st_image result now s
  = (inr tt,
     mkState (mkSession (confidence_threshold (session_state s)) (Some result) (Some now))
       (rendered result total image (confidence_threshold (session_state s)) ++ ui s)%list).
Proof.
  intros Hcount Himage Hshown Hzero. destruct s as [[threshold current stamp] shown].
  unfold show_results, rendered. rewrite Hcount, Himage. run_view. rewrite Hshown.
  cbn [confidence_threshold session_state].
  destruct (types_of result) as [|first rest] eqn:Htypes.
  - run_view. destruct (50 <? total)%Z; reflexivity.
  - run_view. rewrite type_rows_nonzero by (apply Hzero; discriminate). run_view.
    destruct (50 <? total)%Z; reflexivity.
Qed.

Lemma show_results_incomplete (st_image : list Byte.byte -> Exception + unit)
  (result : Detection) (now : Z) (s : State) :
  count result = None \/
  (forall image, annotated_image result = Some image -> st_image image <> inr tt) \/
  (types_of result <> [] /\ count result = Some 0) ->
  exists e s',
    show_results st_image result now s = (inl e, s') /\
    session_state s' = session_state s.
Proof.
  intros Hcases. destruct s as [[threshold current stamp] shown].
  unfold show_results.
  destruct (annotated_image result) as [image|]; run_view.
  2:{ do 2 eexists. split; reflexivity. }
  destruct (st_image image) as [e|[]] eqn:Hshown.
  { do 2 eexists. split; reflexivity. }
  destruct (count result) as [total|] eqn:Hcount; run_view.
  2:{ do 2 eexists. split; reflexivity. }
  destruct Hcases as [Hc|[Hi|[Htypes Hzero]]]; try discriminate.
  { exfalso. exact (Hi image eq_refl Hshown). }
  injection Hzero as ->.
  destruct (types_of result) as [|first rest]; [contradiction|].
  run_view. rewrite type_rows_zero. run_view.
  do 2 eexists. split; reflexivity.
Qed.

Lemma complete_or_not (st_image : list Byte.byte -> Exception + unit) (result : Detection) :
  (exists total image,
     count result = Some total /\ annotated_image result = Some image /\
     st_image image = inr tt /\
     (types_of result <> [] -> total <> 0)) \/
  (count result = None \/
   (forall image, annotated_image result = Some image -> st_image image <> inr tt) \/
   (types_of result <> [] /\ count result = Some 0)).
Proof.
  destruct (annotated_image result) as [image|]; [|right; right; left; discriminate].
  destruct (st_image image) as [e|[]] eqn:Hshown.
  { right. right. left. intros image' [= <-]. rewrite Hshown. discriminate. }
  destruct (count result) as [total|]; [|right; auto].
  destruct (Z.eq_dec total 0) as [->|Hnz].
  - destruct (types_of result) as [|first rest] eqn:Htypes.
    + left. exists 0, image. repeat split; try assumption. intros Habs. contradiction.
    + right. right. right. split; [discriminate | reflexivity].
  - left. exists total, image. repeat split; try assumption. intros _. exact Hnz.
Qed.

(** The two ways a press of the button ends. *)
Lemma analyze_cases (st_image : list Byte.byte -> Exception + unit)
  (predict : Exception + (list Byte.byte -> float -> string -> Exception + Detection))
  (uploaded_file : list Byte.byte) (now : Z) (s : State) :
  (exists text hint shown,
     analyze st_image predict uploaded_file now s
     = (inr tt, mkState (session_state s) (Info hint :: Error text :: shown))) \/
  (exists model result total image,
     predict = inr model /\
     model uploaded_file (confidence_threshold (session_state s)) "Public" = inr result /\
     error result = None /\
     count result = Some total /\
     annotated_image result = Some image /\
     st_image image = inr tt /\
     (types_of result <> [] -> total <> 0) /\
     analyze st_image predict uploaded_file now s
     = (inr tt,
        mkState (mkSession (confidence_threshold (session_state s)) (Some result) (Some now))
          (rendered result total image (confidence_threshold (session_state s)) ++ ui s)%list)).
Proof.
  destruct predict as [e|model].
  { left. destruct s as [session shown]. do 3 eexists. reflexivity. }
  destruct (model uploaded_file (confidence_threshold (session_state s)) "Public")
    as [e|result] eqn:Hcall.
  { left. destruct s as [session shown]. unfold analyze. run_view.
    cbn [session_state] in Hcall. rewrite Hcall. do 3 eexists. reflexivity. }
  destruct (error result) as [message|] eqn:Herror.
  { left. destruct s as [session shown]. unfold analyze. run_view.
    cbn [session_state] in Hcall. rewrite Hcall, Herror. do 3 eexists. reflexivity. }
  destruct (complete_or_not st_image result) as [(total & image & Hc & Hi & Hv & Hz)|Hbad].
  - right. exists model, result, total, image. repeat (split; [assumption || reflexivity|]).
    pose proof (show_results_complete st_image result now total image s Hc Hi Hv Hz) as Hrun.
    destruct s as [session shown]. unfold analyze. run_view.
    cbn [session_state] in Hcall. rewrite Hcall, Herror.
    cbn [session_state ui] in Hrun. rewrite Hrun. reflexivity.
  - left. destruct (show_results_incomplete st_image result now s Hbad)
      as (e & s' & Hrun & Hsame).
    destruct s as [session shown], s' as [session' shown']. unfold analyze. run_view.
    cbn [session_state] in Hcall, Hsame. rewrite Hcall, Herror, Hrun. subst session'.
    do 3 eexists. reflexivity.
Qed.

Lemma analyze_complete (st_image : list Byte.byte -> Exception + unit)
  (model : list Byte.byte -> float -> string -> Exception + Detection)
  (uploaded_file : list Byte.byte) (now : Z) (s : State) (result : Detection)
  (total : Z) (image : list Byte.byte) :
  model uploaded_file (confidence_threshold (session_state s)) "Public" = inr result ->
  error result = None ->
  count result = Some total ->
  annotated_image result = Some image ->
  st_image image = inr tt ->
  (types_of result <> [] -> total <> 0) ->
  analyze st_image (inr model) uploaded_file now s
  = (inr tt,
     mkState (mkSession (confidence_threshold (session_state s)) (Some result) (Some now))
       (rendered result total image (confidence_threshold (session_state s)) ++ ui s)%list).
Proof.
  intros Hcall Herror Hc Hi Hv Hz.
  pose proof (show_results_complete st_image result now total image s Hc Hi Hv Hz) as Hrun.
  destruct s as [session shown]. unfold analyze. run_view.
  cbn [session_state] in Hcall. rewrite Hcall, Herror.
  cbn [session_state ui] in Hrun. rewrite Hrun. reflexivity.
Qed.

Lemma complete_fields (st_image : list Byte.byte -> Exception + unit) (result : Detection) :
  complete st_image result ->
  exists total image,
    error result = None /\ count result = Some total /\
    annotated_image result = Some image /\ st_image image = inr tt /\
    (types_of result <> [] -> total <> 0).
Proof.
  intros (Herror & [total Hc] & (image & Hi & Hv) & Hz). exists total, image.
  repeat split; try assumption. intros Htypes ->. exact (Hz Htypes Hc).
Qed.

Lemma fields_complete (st_image : list Byte.byte -> Exception + unit) (result : Detection)
  (total : Z) (image : list Byte.byte) :
  error result = None -> count result = Some total ->
  annotated_image result = Some image -> st_image image = inr tt ->
  (types_of result <> [] -> total <> 0) ->
  complete st_image result.
Proof.
  intros Herror Hc Hi Hv Hz. unfold complete. rewrite Hc.
  split; [exact Herror|]. split; [eexists; reflexivity|]. split; [eauto|].
  intros Htypes [= ->]. exact (Hz Htypes eq_refl).
Qed.

(** X9. Pressing "Analyze Sample" never raises: whatever the import,
    the model and [st.image] do and whatever keys the model's result
    lacks, the run ends normally. It either leaves the session as it was,
    or stores the result the model returned for the upload, with the time
    of the run; a stored result has no 'error', has 'count' and an
    'annotated_image' that was displayed, and has a non-zero count if it
    lists particle types. *)
Theorem analyze_stores_only_complete_results
  (st_image : list Byte.byte -> Exception + unit)
  (predict : Exception + (list Byte.byte -> float -> string -> Exception + Detection))
  (uploaded_file : list Byte.byte) (now : Z) (s : State) :
  exists s',
    analyze st_image predict uploaded_file now s = (inr tt, s') /\
    (session_state s' = session_state s \/
     exists model result,
       predict = inr model /\
       model uploaded_file (confidence_threshold (session_state s)) "Public" = inr result /\
       session_state s'
       = mkSession (confidence_threshold (session_state s)) (Some result) (Some now) /\
       complete st_image result).
Proof.
  destruct (analyze_cases st_image predict uploaded_file now s)
    as [(text & hint & shown & ->)
       |(model & result & total & image & Hmodel & Hcall & He & Hc & Hi & Hv & Hz & ->)].
  - eexists. split; [reflexivity|]. left. reflexivity.
  - eexists. split; [reflexivity|]. right. exists model, result.
    split; [exact Hmodel|]. split; [exact Hcall|]. split; [reflexivity|].
    exact (fields_complete st_image result total image He Hc Hi Hv Hz).
Qed.

(** What "My History" relies on. *)
Definition history_ready (st_image : list Byte.byte -> Exception + unit)
  (session : Session) : Prop :=
  forall result, current_analysis session = Some result ->
    complete st_image result /\ is_Some (analysis_timestamp session).

Lemma analyze_keeps_history_ready (st_image : list Byte.byte -> Exception + unit)
  (predict : Exception + (list Byte.byte -> float -> string -> Exception + Detection))
  (uploaded_file : list Byte.byte) (now : Z) (s : State) :
  history_ready st_image (session_state s) ->
  history_ready st_image (session_state (snd (analyze st_image predict uploaded_file now s))).
Proof.
  intros Hready.
  destruct (analyze_cases st_image predict uploaded_file now s)
    as [(text & hint & shown & ->)
       |(model & result & total & image & _ & _ & He & Hc & Hi & Hv & Hz & ->)].
  - exact Hready.
  - intros stored [= <-]. split; [|eexists; reflexivity].
    exact (fields_complete st_image result total image He Hc Hi Hv Hz).
Qed.

Lemma presses_keep_history_ready (st_image : list Byte.byte -> Exception + unit)
  (series : list Press) (s : State) :
  history_ready st_image (session_state s) ->
  history_ready st_image (session_state (presses st_image series s)).
Proof.
  revert s. induction series as [|p series IH]; intros s Hready; [exact Hready|].
  cbn [presses fold_left]. apply IH. apply analyze_keeps_history_ready. exact Hready.
Qed.

(** X10. In a session that starts with nothing stored (src/app.py line
    163), after any series of presses with any models and uploads, a
    result found in the session has 'count' and a timestamp: "My History"
    shows that count, rates the risk from it and centres the chart on it,
    and none of its defaults (0, 80, the clock) is used. *)
Theorem history_reads_a_rendered_result (st_image : list Byte.byte -> Exception + unit)
  (series : list Press) (s : State) (raw : nat -> Z) (k : nat) (result : Detection) :
  current_analysis (session_state s) = None ->
  current_analysis (session_state (presses st_image series s)) = Some result ->
  exists total,
    count result = Some total /\
    is_Some (analysis_timestamp (session_state (presses st_image series s))) /\
    particles_detected result = total /\
    risk_level result = Citizen.risk total /\
    history raw k result = map (fun i => total + randint raw (-30) 30 i) (seq k 10).
Proof.
  intros Hnone Hstored.
  assert (history_ready st_image (session_state s)) as Hready.
  { intros stored Habs. rewrite Hnone in Habs. discriminate. }
  destruct (presses_keep_history_ready st_image series s Hready result Hstored)
    as [Hcomplete Hstamp].
  destruct (complete_fields st_image result Hcomplete) as (total & image & _ & Hc & _).
  exists total. unfold particles_detected, risk_level, history. rewrite Hc.
  repeat split; assumption || reflexivity.
Qed.

(** One press on the sample detection, then "My History". *)
Lemma history_reads_a_rendered_result_sample :
  exists total,
    count river = Some total /\
    is_Some (analysis_timestamp
               (session_state (presses shows_png
                                 [mkPress (inr (detector river)) photo 1730000000]
                                 first_visit))) /\
    particles_detected river = total /\
    risk_level river = Citizen.risk total /\
    history Z.of_nat 0 river = map (fun i => total + randint Z.of_nat (-30) 30 i) (seq 0 10).
Proof.
  apply (history_reads_a_rendered_result shows_png
           [mkPress (inr (detector river)) photo 1730000000] first_visit Z.of_nat 0 river).
  - reflexivity.
  - vm_compute. reflexivity.
Defined.

(** X11. With nothing stored before, the result the model returns is in
    the session after the press exactly when it is complete: it has no
    'error', has 'count', has an 'annotated_image' that [st.image]
    displays, and does not list particle types beside a count of 0. *)
Theorem analyze_stores_exactly_the_complete_results
  (st_image : list Byte.byte -> Exception + unit)
  (model : list Byte.byte -> float -> string -> Exception + Detection)
  (uploaded_file : list Byte.byte) (now : Z) (s : State) (result : Detection) :
  current_analysis (session_state s) = None ->
  model uploaded_file (confidence_threshold (session_state s)) "Public" = inr result ->
  current_analysis (session_state (snd (analyze st_image (inr model) uploaded_file now s)))
  = Some result
  <-> complete st_image result.
Proof.
  intros Hnone Hcall. split.
  - destruct (analyze_cases st_image (inr model) uploaded_file now s)
      as [(text & hint & shown & ->)
         |(model' & result' & total & image & [= <-] & Hcall' & He & Hc & Hi & Hv & Hz & ->)].
    + cbn [snd session_state]. rewrite Hnone. discriminate.
    + cbn [snd session_state current_analysis]. intros [= <-].
      exact (fields_complete st_image result' total image He Hc Hi Hv Hz).
  - intros Hcomplete.
    destruct (complete_fields st_image result Hcomplete)
      as (total & image & He & Hc & Hi & Hv & Hz).
    rewrite (analyze_complete st_image model uploaded_file now s result total image
               Hcall He Hc Hi Hv Hz).
    reflexivity.
Qed.

(** The sample detection is complete, and stored. *)
Lemma analyze_stores_exactly_the_complete_results_sample :
  current_analysis
    (session_state
       (snd (analyze shows_png (inr (detector river)) photo 1730000000 first_visit)))
  = Some river
  <-> complete shows_png river.
Proof.
  apply (analyze_stores_exactly_the_complete_results shows_png (detector river) photo
           1730000000 first_visit river).
  - reflexivity.
  - reflexivity.
Defined.

(** The same detection with an annotated image of no bytes: [st.image]
    raises, the page shows the heading and the error, and nothing is
    stored. *)
Example undisplayable_image_is_not_stored :
  analyze shows_png (inr (detector blank)) photo 1730000000 first_visit
  = (inr tt,
     mkState (session_state first_visit)
       [Info "Please check your model files and try again";
        Error "❌ Unexpected error: cannot identify image file";
        DetectionResults]) /\
  current_analysis (session_state first_visit) = None.
Proof. split; reflexivity. Qed.

(** X12. A result that lists particle types beside a count of 0, with an
    image that [st.image] displays, stops the rendering at the percentage
    column: the page shows "Unexpected error: division by zero" after the
    image and the metrics, and the session keeps what it held. *)
Theorem zero_count_with_types_divides_by_zero
  (st_image : list Byte.byte -> Exception + unit)
  (model : list Byte.byte -> float -> string -> Exception + Detection)
  (uploaded_file : list Byte.byte) (now : Z) (s : State) (result : Detection)
  (image : list Byte.byte) :
  model uploaded_file (confidence_threshold (session_state s)) "Public" = inr result ->
  error result = None ->
  annotated_image result = Some image ->
  st_image image = inr tt ->
  count result = Some 0 ->
  types_of result <> [] ->
  exists shown,
    analyze st_image (inr model) uploaded_file now s
    = (inr tt,
       mkState (session_state s)
         (Info "Please check your model files and try again"
          :: Error "❌ Unexpected error: division by zero"
          :: shown ++ ui s)%list) /\
    In (AnnotatedImage image) shown /\
    In (TotalParticles 0 (confidence_threshold (session_state s))) shown /\
    forall event, In event shown -> event <> ReportForm /\
      forall level, event <> RiskBox level.
Proof.
  intros Hcall Herror Hi Hv Hc Htypes.
  destruct s as [[threshold current stamp] shown]. cbn [session_state confidence_threshold] in *.
  unfold analyze, show_results. run_view. cbn [confidence_threshold].
  rewrite Hcall, Herror, Hi, Hv, Hc.
  destruct (types_of result) as [|first rest]; [contradiction|].
  run_view. rewrite type_rows_zero. cbn [str exc_msg].
  eexists [_; _; _; _; _]. split; [reflexivity|].
  split; [cbn; tauto|]. split; [cbn; tauto|].
  intros event Hin. cbn in Hin.
  destruct Hin as [<-|[<-|[<-|[<-|[<-|[]]]]]]; split; try discriminate; intros level; discriminate.
Qed.

(** One fiber listed beside a count of 0. *)
Lemma zero_count_with_types_divides_by_zero_sample :
  exists shown,
    analyze shows_png (inr (detector miscounted)) photo 1730000000 first_visit
    = (inr tt,
       mkState (session_state first_visit)
         (Info "Please check your model files and try again"
          :: Error "❌ Unexpected error: division by zero"
          :: shown ++ ui first_visit)%list) /\
    In (AnnotatedImage photo) shown /\
    In (TotalParticles 0 (confidence_threshold (session_state first_visit))) shown /\
    forall event, In event shown -> event <> ReportForm /\
      forall level, event <> RiskBox level.
Proof.
  apply (zero_count_with_types_divides_by_zero shows_png (detector miscounted) photo
           1730000000 first_visit miscounted photo).
  - reflexivity.
  - reflexivity.
  - reflexivity.
  - reflexivity.
  - reflexivity.
  - vm_compute. discriminate.
Defined.

Lemma in_rendered_form (result : Detection) (total : Z) (image : list Byte.byte)
  (threshold : float) :
  In ReportForm (rendered result total image threshold) <-> 50 < total.
Proof.
  unfold rendered. destruct (Z.ltb_spec 50 total) as [Hlt|Hge].
  - split; [intros _; exact Hlt | intros _; left; reflexivity].
  - split; [|lia]. cbn [app]. intros [Habs|[Habs|Hin]]; try discriminate.
    apply in_app_or in Hin. destruct Hin as [Hin|Hin].
    + destruct (types_of result); cbn in Hin; [contradiction|].
      destruct Hin as [Habs|[Habs|[]]]; discriminate.
    + cbn in Hin. destruct Hin as [Habs|[Habs|[Habs|[Habs|[]]]]]; discriminate.
Qed.

(** X13. For a complete result (its image displayed by [st.image]) the
    page shows the risk box of the count and a CSV report carrying the
    count and its risk level, and it offers the "Report to Authorities"
    form exactly when that risk level is not Low. *)
Theorem report_form_follows_the_risk
  (st_image : list Byte.byte -> Exception + unit)
  (model : list Byte.byte -> float -> string -> Exception + Detection)
  (uploaded_file : list Byte.byte) (now : Z) (s : State) (result : Detection)
  (total : Z) :
  model uploaded_file (confidence_threshold (session_state s)) "Public" = inr result ->
  complete st_image result ->
  count result = Some total ->
  exists shown,
    analyze st_image (inr model) uploaded_file now s
    = (inr tt,
       mkState (mkSession (confidence_threshold (session_state s)) (Some result) (Some now))
         (shown ++ ui s)%list) /\
    In (RiskBox (Citizen.risk_level_box total)) shown /\
    In (CsvReport total (get (avg_confidence result) 0%float) (Citizen.risk total)
          (types_of result)) shown /\
    (In ReportForm shown <-> Citizen.risk total <> "Low").
Proof.
  intros Hcall Hcomplete Hc.
  destruct (complete_fields st_image result Hcomplete)
    as (total' & image & He & Hc' & Hi & Hv & Hz).
  rewrite Hc in Hc'. injection Hc' as <-.
  exists (rendered result total image (confidence_threshold (session_state s))).
  split; [exact (analyze_complete st_image model uploaded_file now s result total image
                   Hcall He Hc Hi Hv Hz)|].
  split; [|split].
  - unfold rendered. apply in_or_app. right. right. left. reflexivity.
  - unfold rendered. apply in_or_app. right. left. reflexivity.
  - rewrite in_rendered_form. unfold Citizen.risk.
    destruct (Z.ltb_spec 100 total), (Z.ltb_spec 50 total); split; intros;
      try lia; try discriminate.
    contradiction.
Qed.

Lemma river_is_complete : complete shows_png river.
Proof.
  unfold complete. split; [reflexivity|]. split; [eexists; reflexivity|].
  split; [exists photo; split; reflexivity | vm_compute; discriminate].
Qed.

(** 80 particles: Moderate risk, and the form is offered. *)
Lemma report_form_follows_the_risk_sample :
  exists shown,
    analyze shows_png (inr (detector river)) photo 1730000000 first_visit
    = (inr tt,
       mkState (mkSession (confidence_threshold (session_state first_visit)) (Some river)
                  (Some 1730000000))
         (shown ++ ui first_visit)%list) /\
    In (RiskBox (Citizen.risk_level_box 80)) shown /\
    In (CsvReport 80 (get (avg_confidence river) 0%float) (Citizen.risk 80)
          (types_of river)) shown /\
    (In ReportForm shown <-> Citizen.risk 80 <> "Low").
Proof.
  apply (report_form_follows_the_risk shows_png (detector river) photo 1730000000
           first_visit river 80).
  - reflexivity.
  - exact river_is_complete.
  - reflexivity.
Defined.

Lemma route_citizen_threshold (role : string) :
  App.route role = Some App.CitizenView -> App.confidence role = 0.5%float.
Proof.
  unfold App.route, App.confidence.
  destruct (str_in "Public" role); [reflexivity|].
  destruct (str_in "Government" role); [discriminate|].
  destruct (str_in "Researcher" role); [discriminate|].
  destruct (str_in "Admin" role); discriminate.
Qed.

(** X14. Whatever role string routes to the citizen view, the sidebar
    has set the threshold to 0.5 before the view runs: the run depends on
    the detector only through its answers at threshold 0.5 and level
    "Public". *)
Theorem public_detector_runs_at_one_half (role : string)
  (st_image : list Byte.byte -> Exception + unit)
  (predict predict' : list Byte.byte -> float -> string -> Exception + Detection)
  (uploaded_file : list Byte.byte) (now : Z) (session : Session) (shown : list Ui) :
  App.route role = Some App.CitizenView ->
  (forall image, predict image 0.5%float "Public" = predict' image 0.5%float "Public") ->
  analyze st_image (inr predict) uploaded_file now (mkState (sidebar role session) shown)
  = analyze st_image (inr predict') uploaded_file now (mkState (sidebar role session) shown).
Proof.
  intros Hroute Hagree. unfold sidebar. rewrite (route_citizen_threshold role Hroute).
  unfold analyze. run_view. cbn [confidence_threshold]. rewrite Hagree. reflexivity.
Qed.

(** The Public role of the selector, with two detectors that differ only
    at other thresholds. *)
Lemma public_detector_runs_at_one_half_sample :
  analyze shows_png (inr (detector river)) photo 1730000000 first_visit
  = analyze shows_png
      (inr (fun image threshold level =>
              if PrimFloat.eqb threshold 0.5 then inr river else inr miscounted))
      photo 1730000000 first_visit.
Proof.
  apply (public_detector_runs_at_one_half "👥 Public User" shows_png (detector river)
           (fun image threshold level =>
              if PrimFloat.eqb threshold 0.5 then inr river else inr miscounted)
           photo 1730000000 (mkSession 0%float None None) []).
  - reflexivity.
  - intros image. reflexivity.
Defined.

Lemma randint_range (raw : nat -> Z) (low high : Z) (k : nat) :
  low < high -> low <= randint raw low high k < high.
Proof.
  intros Hlt. unfold randint.
  pose proof (Z.mod_pos_bound (raw k) (high - low)). lia.
Qed.

(** X15. The history chart has ten points, each at least 30 below and at
    most 29 above the count of the stored result (80 for a result without
    'count'); with the lowest draw every point is 30 below, so a count
    under 30 can be charted as a negative number of particles. *)
Theorem history_stays_near_the_count (raw : nat -> Z) (k : nat) (result : Detection) :
  let centre := get (count result) 80 in
  length (history raw k result) = 10%nat /\
  Forall (fun particles => centre - 30 <= particles <= centre + 29) (history raw k result) /\
  history (fun _ => 0) k result = repeat (centre - 30) 10.
Proof.
  cbv zeta. split; [|split].
  - unfold history. rewrite length_map, length_seq. reflexivity.
  - unfold history. apply List.Forall_forall. intros particles Hin.
    apply in_map_iff in Hin. destruct Hin as (i & <- & _).
    pose proof (randint_range raw (-30) 30 i). lia.
  - unfold history, randint. cbn [Z.modulo].
    generalize (get (count result) 80). intros centre.
    change (0 mod (30 - -30)) with 0.
    generalize k. intros k'. cbn [seq map repeat]. repeat f_equal; lia.
Qed.

(** X16. The "Dominant Type" metric names a type of the result whose
    count no other type exceeds, and of several types with that count the
    one the result lists first. *)
Theorem dominant_type_is_the_first_largest (first : string * Z)
  (rest : list (string * Z)) :
  let most_common := max_from first rest in
  exists before after,
    (first :: rest = before ++ most_common :: after)%list /\
    Forall (fun item => snd item < snd most_common) before /\
    Forall (fun item => snd item <= snd most_common) after.
Proof.
  cbv zeta. rename first into best, rest into items.
  revert best. induction items as [|item items IH]; intros best.
  - exists [], []. repeat split; constructor.
  - cbn [max_from]. destruct (Z.ltb_spec (snd best) (snd item)) as [Hlt|Hge].
    + destruct (IH item) as (before & after & Heq & Hbefore & Hafter).
      exists (best :: before), after. split; [cbn; f_equal; exact Heq|].
      split; [|exact Hafter]. constructor; [|exact Hbefore].
      destruct before as [|b before].
      * cbn in Heq. injection Heq as Hitem _. rewrite <- Hitem. exact Hlt.
      * cbn in Heq. injection Heq as Hitem _. subst b.
        inversion Hbefore; subst. lia.
    + destruct (IH best) as (before & after & Heq & Hbefore & Hafter).
      destruct before as [|b before].
      * cbn in Heq. injection Heq as Hbest Hitems.
        exists [], (item :: after).
        split; [cbn; congruence|]. split; [constructor|].
        constructor; [rewrite <- Hbest; exact Hge | exact Hafter].
      * cbn in Heq. injection Heq as Hb Hitems. subst b.
        exists (best :: item :: before), after.
        split; [cbn; do 2 f_equal; exact Hitems|]. split; [|exact Hafter].
        inversion Hbefore; subst. constructor; [assumption|].
        constructor; [lia | assumption].
Qed.

End CitizenViewProperties.

(** ** src/views/government.py: the comparison of locations *)

Section ComparisonProperties.
Import Py Government Comparison.

Ltac run_tab :=
  cbv beta iota delta [bind ret raise read first_item np_random_uniform np_random_randint
    np_random_randn draws ui session_state wqi_features fst snd].

Lemma comparison_data_run (rt : Runtime) (raw : nat -> Z)
  (selected_locations : list string) (s : State) :
  exists rows,
    comparison_data rt raw selected_locations s
    = (inr rows,
       mkState (draws s + 5 * length selected_locations) (ui s) (session_state s)
         (wqi_features s)) /\
    map Location rows = selected_locations /\
    Forall (fun r => 80 <= Microplastics r < 300) rows.
Proof.
  revert s. induction selected_locations as [|loc rest IH]; intros s.
  - exists []. destruct s as [n u ss wf]. cbn [comparison_data length]. run_tab.
    rewrite Nat.add_0_r. repeat split. constructor.
  - destruct s as [n u ss wf]. cbn [comparison_data]. run_tab.
    change (80 <? 300)%Z with true. cbv iota.
    destruct (IH (mkState (n + 1 + 1 + 1 + 1 + 1) u ss wf)) as (rows & Hrun & Hloc & Hcount).
    cbn [draws ui session_state wqi_features] in Hrun. rewrite Hrun.
    eexists. split; [|split].
    + replace (n + 5 * length (loc :: rest))%nat
        with (n + 1 + 1 + 1 + 1 + 1 + 5 * length rest)%nat by (cbn [length]; lia).
      reflexivity.
    + cbn [map Location]. rewrite Hloc. reflexivity.
    + constructor; [|exact Hcount]. cbn [Microplastics].
      pose proof (Z.mod_pos_bound (raw (n + 1)%nat) (300 - 80) eq_refl). lia.
Qed.

(** X17. Tab 3 raises exactly when no location is selected: with the
    selection emptied, [fig_comp] is read unbound at line 603, before
    anything is drawn; with at least one location the tab runs to its
    end. *)
Theorem tab3_needs_a_selection (rt : Runtime) (raw : nat -> Z)
  (selected_locations : list string) (s : State) :
  (selected_locations = [] ->
   tab3 rt raw selected_locations s
   = (inl (mkException "UnboundLocalError"
             "cannot access local variable 'fig_comp' where it is not associated with a value"),
      s)) /\
  (selected_locations <> [] ->
   exists analytics s', tab3 rt raw selected_locations s = (inr analytics, s')).
Proof.
  destruct selected_locations as [|loc rest].
  - split; [reflexivity | contradiction].
  - split; [discriminate|]. intros _.
    destruct (comparison_data_run rt raw (loc :: rest) s) as (rows & Hrun & _).
    unfold tab3. run_tab. rewrite Hrun. run_tab. eauto.
Qed.

(** X18. With locations selected, the comparison has one row per
    location, in the order selected, every chart of the grid has one bar
    per location, each particle count lies in 80..299, the trend chart is
    titled with the first location and has 90 points, and the generator
    has handed out five draws per location and 180 for the trends. *)
Theorem tab3_compares_the_selection (rt : Runtime) (raw : nat -> Z)
  (loc : string) (rest : list string) (s : State) :
  exists analytics s',
    tab3 rt raw (loc :: rest) s = (inr analytics, s') /\
    map Location (described analytics) = loc :: rest /\
    Forall (fun r => 80 <= Microplastics r < 300) (described analytics) /\
    map name (fig_comp analytics) = ["WQI"; "Particles"; "DO"; "BOD"] /\
    Forall (fun trace => x trace = loc :: rest /\
                         length (y trace) = length (loc :: rest)) (fig_comp analytics) /\
    trend_title analytics = "WQI Trend - " ++ loc /\
    length (trend_WQI analytics) = 90%nat /\
    draws s' = (draws s + 5 * length (loc :: rest) + 180)%nat /\
    ui s' = ui s.
Proof.
  destruct (comparison_data_run rt raw (loc :: rest) s) as (rows & Hrun & Hloc & Hcount).
  unfold tab3. run_tab. rewrite Hrun. run_tab.
  do 2 eexists. split; [reflexivity|].
  cbn [described fig_comp trend_title trend_WQI draws ui].
  split; [exact Hloc|]. split; [exact Hcount|]. split; [reflexivity|].
  split.
  - unfold bar. cbn [app]. repeat constructor; cbn [x y]; rewrite ?length_map, ?Hloc;
      try reflexivity; rewrite <- Hloc, length_map; reflexivity.
  - split; [reflexivity|]. split.
    + rewrite length_map.
      assert (forall xs, length (np_cumsum xs) = length xs) as Hcum.
      { intros [|v xs]; [reflexivity|]. cbn [np_cumsum length]. f_equal.
        generalize v. induction xs as [|w xs IHxs]; intros acc; [reflexivity|].
        cbn [accumulate length]. f_equal. apply IHxs. }
      rewrite Hcum, length_map, length_seq. reflexivity.
    + split; [lia | reflexivity].
Qed.

End ComparisonProperties.

(** ** src/views/government.py: what a run leaves in the session *)

Section SessionStore.
Import Py Government SessionKeys Scenarios.
Ltac run_stage :=
  cbv beta iota delta [try_except bind lift index st set_session ret raise assign_wqi_features
    read_wqi_features np_random_rand np_random_randn enter or_fallback
    draws ui session_state wqi_features snd].

(** What a stage leaves under its key: the model's result when the model
    answered, and otherwise what was there. *)
Lemma step1_session (rt : Runtime) (image : list Byte.byte) (s : State) :
  session_state (snd (step1 rt image s))
  = match detect rt image with
    | inr v => <["yolo_result" := SYolo v]> (session_state s)
    | inl _ => session_state s
    end.
Proof.
  destruct s as [n u ss wf]. unfold step1, detect. run_stage.
  destruct (predict_image_with_viz (models rt)) as [e|predict]; [reflexivity|].
  destruct (predict image 0.35%float "Government") as [e|v]; reflexivity.
Qed.

Lemma step2_session (rt : Runtime) (s : State) :
  session_state (snd (step2 rt s))
  = match classify rt (map (rand_draw rt) (seq (draws s) 1024)) with
    | inr v => <["raman_result" := SRaman v]> (session_state s)
    | inl _ => session_state s
    end.
Proof.
  destruct s as [n u ss wf]. unfold step2, classify. run_stage.
  destruct (predict_polymer (models rt)) as [e|predict]; [reflexivity|].
  destruct (predict _) as [e|v]; reflexivity.
Qed.

Lemma step3_session (rt : Runtime) (sub : Submission) (s : State) :
  session_state (snd (step3 rt sub s))
  = match score rt sub with
    | inr v => <["wqi_result" := SWqi v]> (session_state s)
    | inl _ => session_state s
    end.
Proof.
  destruct s as [n u ss wf]. unfold step3, score. run_stage.
  destruct (predict_wqi (models rt)) as [e|predict]; [reflexivity|].
  destruct (predict _) as [e|v]; reflexivity.
Qed.

Lemma step4_session (rt : Runtime) (wqi : WqiResult) (s : State) :
  session_state (snd (step4 rt wqi s))
  = match forecast rt wqi with
    | inr v => <["forecast_result" := SForecast v]> (session_state s)
    | inl _ => session_state s
    end.
Proof.
  destruct s as [n u ss wf]. unfold step4, forecast, pd_DataFrame.
  destruct (wqi_score wqi) as [score0|]; run_stage.
  - destruct (forecast_wqi (models rt)) as [e|predict].
    + destruct (_ =? _)%nat; reflexivity.
    + destruct (predict _) as [e|v]; [|reflexivity].
      destruct (_ =? _)%nat; reflexivity.
  - destruct (forecast_wqi (models rt)) as [e|predict]; reflexivity.
Qed.

Lemma step5_session (rt : Runtime) (sub : Submission) (s : State) :
  session_state (snd (step5 rt sub s))
  = match predictPhysics rt (wqi_features s) with
    | inr v => <["pinn_result" := SPinn v]> (session_state s)
    | inl _ => session_state s
    end.
Proof.
  destruct s as [n u ss wf]. unfold step5, predictPhysics, mask_index. run_stage.
  destruct (predict_dissolved_oxygen (models rt)) as [e|predict].
  - destruct (_ =? _)%nat; reflexivity.
  - destruct wf as [d|].
    + destruct (predict d 72) as [e|v]; [|reflexivity].
      destruct (_ =? _)%nat; reflexivity.
    + destruct (_ =? _)%nat; reflexivity.
Qed.

Lemma step6_session (rt : Runtime) (yolo : YoloResult) (wqi : WqiResult) (s : State) :
  session_state (snd (step6 rt yolo wqi s))
  = match simulate rt yolo wqi with
    | inr v => <["twin_result" := STwin v]> (session_state s)
    | inl _ => session_state s
    end.
Proof.
  destruct s as [n u ss wf]. unfold step6, simulate, last_item.
  destruct (wqi_score wqi) as [score0|]; run_stage.
  - destruct (run_digital_twin_simulation (models rt)) as [e|run].
    + destruct (last _); reflexivity.
    + destruct (run _ 30) as [e|v]; [|reflexivity].
      destruct (last _); reflexivity.
  - destruct (run_digital_twin_simulation (models rt)) as [e|run]; reflexivity.
Qed.

Lemma lookup_stored_eq {R : Type} (key : string) (wrap : R -> SessionValue)
  (outcome : Exception + R) (ss : gmap string SessionValue) :
  match outcome with
  | inr v => <[key := wrap v]> ss
  | inl _ => ss
  end !! key
  = match outcome with
    | inr v => Some (wrap v)
    | inl _ => ss !! key
    end.
Proof. destruct outcome; [reflexivity | apply lookup_insert_eq]. Qed.

Lemma lookup_stored_ne {R : Type} (key key' : string) (wrap : R -> SessionValue)
  (outcome : Exception + R) (ss : gmap string SessionValue) :
  key <> key' ->
  match outcome with
  | inr v => <[key := wrap v]> ss
  | inl _ => ss
  end !! key' = ss !! key'.
Proof. intros Hne. destruct outcome; [reflexivity | apply lookup_insert_ne; exact Hne]. Qed.

(** X19. A run that reports (stage 3 has left a score) stores under a
    stage's key the result its model returned; when the stage fell back,
    the fallback dict goes into the report only, and the key keeps what an
    earlier run left there. *)
Theorem fallbacks_are_not_stored (rt : Runtime) (sub : Submission)
  (image : list Byte.byte) (s : State) (score0 : float) :
  uploaded sub = Some image ->
  wqi_score (stage3 rt sub) = Some score0 ->
  exists report s',
    show_government_dashboard rt sub s = (inr (Some report), s') /\
    stored_or_kept "yolo_result" SYolo (detect rt image) s s' /\
    stored_or_kept "raman_result" SRaman
      (classify rt (map (rand_draw rt) (seq (draws s) 1024))) s s' /\
    stored_or_kept "wqi_result" SWqi (score rt sub) s s' /\
    stored_or_kept "forecast_result" SForecast (forecast rt (wqi_result report)) s s' /\
    stored_or_kept "pinn_result" SPinn
      (predictPhysics rt (features_after_score rt sub)) s s' /\
    stored_or_kept "twin_result" STwin
      (simulate rt (yolo_result report) (wqi_result report)) s s'.
Proof.
  intros Himage Hscore. unfold stage3 in Hscore.
  pose (s0 := snd (st (Progress 0) (snd (enter s)))).
  destruct (step1_run rt image s0) as (s1 & E1 & D1 & F1 & _).
  destruct (step2_run rt s1) as (s2 & E2 & D2 & F2 & _).
  destruct (step3_run rt sub s2) as (s3 & E3 & D3 & F3 & _).
  { rewrite F2, F1. reflexivity. }
  set (wqi := or_fallback (score rt sub) wqi_fallback) in *.
  set (yolo := or_fallback (detect rt image) yolo_fallback) in *.
  destruct (step4_run rt wqi score0 s3 Hscore) as (s4 & E4 & D4 & F4 & _).
  destruct (step5_run rt sub s4) as (s5 & E5 & D5 & _).
  destruct (step6_run rt yolo wqi score0 s5 Hscore) as (s6 & E6 & _).
  pose proof (step1_session rt image s0) as S1. rewrite E1 in S1.
  pose proof (step2_session rt s1) as S2. rewrite E2 in S2.
  pose proof (step3_session rt sub s2) as S3. rewrite E3 in S3.
  pose proof (step4_session rt wqi s3) as S4. rewrite E4 in S4.
  pose proof (step5_session rt sub s4) as S5. rewrite E5 in S5.
  pose proof (step6_session rt yolo wqi s5) as S6. rewrite E6 in S6.
  cbn [snd] in S1, S2, S3, S4, S5, S6.
  rewrite D1 in S2. rewrite F4, F3 in S5.
  change (draws s0) with (draws s) in S2.
  change (session_state s0) with (session_state s) in S1.
  exists (mkReport yolo
            (or_fallback (classify rt (map (rand_draw rt) (seq (draws s1) 1024)))
               raman_fallback)
            wqi
            (or_fallback (forecast rt wqi) (forecast_fallback rt score0 (draws s3)))
            (or_fallback (predictPhysics rt (wqi_features s4)) (pinn_fallback rt sub))
            (or_fallback (simulate rt yolo wqi) (twin_fallback rt score0 (draws s5)))),
    (snd (st complete s6)).
  split.
  { unfold show_government_dashboard, bind. rewrite Himage.
    change (enter s) with (inr (A:=Exception) tt, snd (enter s)). cbv beta iota.
    unfold run_pipeline, bind.
    change (st (Progress 0) (snd (enter s))) with (inr (A:=Exception) tt, s0).
    cbv beta iota. rewrite E1. cbv beta iota. rewrite E2. cbv beta iota.
    rewrite E3. cbv beta iota. fold wqi. rewrite E4. cbv beta iota.
    rewrite E5. cbv beta iota. fold yolo. rewrite E6. cbv beta iota.
    reflexivity. }
  cbn [yolo_result raman_result wqi_result forecast_result pinn_result twin_result].
  unfold stored_or_kept.
  change (session_state (snd (st complete s6))) with (session_state s6).
  repeat match goal with |- _ /\ _ => split end;
    rewrite S6; first [rewrite lookup_stored_eq | rewrite lookup_stored_ne by discriminate];
    rewrite S5; first [rewrite lookup_stored_eq | rewrite lookup_stored_ne by discriminate];
    rewrite S4; first [rewrite lookup_stored_eq | rewrite lookup_stored_ne by discriminate];
    rewrite S3; first [rewrite lookup_stored_eq | rewrite lookup_stored_ne by discriminate];
    rewrite S2; first [rewrite lookup_stored_eq | rewrite lookup_stored_ne by discriminate];
    rewrite S1; first [rewrite lookup_stored_eq | rewrite lookup_stored_ne by discriminate];
    reflexivity.
Qed.

(** A first run with no model package installed. *)
Lemma fallbacks_are_not_stored_sample :
  exists report s',
    show_government_dashboard (runtime no_models) sample fresh = (inr (Some report), s') /\
    Forall (fun stage => session_state s' !! fst (stored report stage) = None) stages.
Proof.
  destruct (fallbacks_are_not_stored (runtime no_models) sample image fresh 52.3%float
              eq_refl eq_refl)
    as (report & s' & Hrun & H1 & H2 & H3 & H4 & H5 & H6).
  exists report, s'. split; [exact Hrun|].
  repeat constructor; cbn [stored fst]; [exact H1|exact H2|exact H3|exact H4|exact H5|exact H6].
Defined.

(** X20. When the detector, the classifier and the index model all fail,
    the summary cards of the report read the same for every upload and
    every measurement: 0 particles, polymer PE at 0.85, a WQI of 52.3 in
    amber, classed Moderate, and no high-contamination box. *)
Theorem degraded_cards_are_fixed (rt : Runtime) (sub : Submission)
  (image : list Byte.byte) (s : State)
  (e1 e2 e3 : Exception) :
  uploaded sub = Some image ->
  detect rt image = inl e1 ->
  classify rt (map (rand_draw rt) (seq (draws s) 1024)) = inl e2 ->
  score rt sub = inl e3 ->
  exists report s',
    show_government_dashboard rt sub s = (inr (Some report), s') /\
    get (count (yolo_result report)) 0 = 0 /\
    get (polymer (raman_result report)) "N/A" = "PE" /\
    get (confidence (raman_result report)) 0%float = 0.85%float /\
    wqi_score (wqi_result report) = Some 52.3%float /\
    wqi_color (get (wqi_score (wqi_result report)) 0%float) = "#f39c12" /\
    get (classification (wqi_result report)) "N/A" = "Moderate" /\
    high_contamination (yolo_result report) = false.
Proof.
  intros Himage H1 H2 H3.
  destruct (dashboard_run rt sub image s 52.3%float Himage (stage3_of_failure rt sub e3 H3))
    as (report & s' & Hrun & R1 & R2 & R3 & _).
  rewrite H1 in R1. rewrite H2 in R2. unfold stage3 in R3. rewrite H3 in R3.
  exists report, s'. split; [exact Hrun|].
  rewrite R1, R2, R3. repeat split.
Qed.

(** No model package installed, the widgets at their defaults. *)
Lemma degraded_cards_are_fixed_sample :
  exists report s',
    show_government_dashboard (runtime no_models) sample fresh = (inr (Some report), s') /\
    get (count (yolo_result report)) 0 = 0 /\
    get (polymer (raman_result report)) "N/A" = "PE" /\
    get (confidence (raman_result report)) 0%float = 0.85%float /\
    wqi_score (wqi_result report) = Some 52.3%float /\
    wqi_color (get (wqi_score (wqi_result report)) 0%float) = "#f39c12" /\
    get (classification (wqi_result report)) "N/A" = "Moderate" /\
    high_contamination (yolo_result report) = false.
Proof.
  apply (degraded_cards_are_fixed (runtime no_models) sample image fresh
           (missing "models") (missing "models") (missing "models"));
    reflexivity.
Defined.

End SessionStore.

(** ** src/views/researcher.py: the Raman spectroscopy tab *)

Section ResearcherProperties.
Import Py Script Researcher.

Ltac run_tab1 :=
  cbv beta iota delta [try_except bind lift ret raise when index column st save
                       np_random_normal raman_result ui draws].

Lemma length_np_linspace (start stop : float) (num : nat) :
  length (Government.np_linspace start stop num) = num.
Proof.
  unfold Government.np_linspace. cbv zeta.
  assert (forall y : list float, length y = num ->
            length (if (1 <? num)%nat then <[(num - 1)%nat := stop]> y else y) = num)
    as Hlast.
  { intros y Hy. destruct (1 <? num)%nat; [rewrite length_insert|]; exact Hy. }
  apply Hlast. rewrite length_map.
  destruct (0 <? num - 1)%nat; [destruct (PrimFloat.eqb _ _)|];
    rewrite !length_map, length_seq; reflexivity.
Qed.

Lemma prepare_length (env : Env) (spectrum prepared : Array) :
  prepare env spectrum = inr prepared -> len prepared = 1024%nat.
Proof.
  unfold prepare. destruct (Nat.eqb_spec (len spectrum) 1024) as [Hlen|Hlen]; cbn [negb].
  - intros [= <-]. exact Hlen.
  - unfold np_interp. destruct spectrum as [values|cells]; [|discriminate].
    destruct (map float_of_int _); [discriminate|].
    destruct (_ =? _)%nat; [|discriminate].
    intros [= <-]. cbn [len]. rewrite length_map. apply length_np_linspace.
Qed.


Lemma extends_nil {A} (l : list A) : exists new, l = (new ++ l)%list.
Proof. exists []. reflexivity. Qed.

Lemma extends_cons {A} (a : A) (l' l : list A) :
  (exists new, l' = (new ++ l)%list) -> exists new, a :: l' = (new ++ l)%list.
Proof. intros [new ->]. exists (a :: new). reflexivity. Qed.

Ltac extends_ui := repeat first [apply extends_nil | apply extends_cons].

(** A result is rendered to the end, and stored, when it has 'polymer'
    and 'confidence', its probabilities are not an empty dict, and the
    frame has the columns the peak chart reads. *)
Lemma show_result_session (spectrum_data : Frame) (result : Prediction) (download : bool)
  (s : State) :
  exists outcome s',
    show_result spectrum_data result download s = (outcome, s') /\
    draws s' = draws s /\
    (exists new, ui s' = (new ++ ui s)%list) /\
    match outcome with
    | inr _ =>
        raman_result s' = Some result /\
        is_Some (polymer result) /\ is_Some (confidence result) /\
        all_probabilities result <> Some []
    | inl _ => raman_result s' = raman_result s
    end.
Proof.
  destruct s as [stored shown n], result as [p c q probabilities].
  unfold show_result. cbn [polymer confidence quality_score all_probabilities]. run_tab1.
  destruct p as [p|]; run_tab1.
  2:{ do 2 eexists. split; [reflexivity|]. split; [reflexivity|].
      split; [cbn [ui]; extends_ui | reflexivity]. }
  destruct c as [c|]; run_tab1.
  2:{ do 2 eexists. split; [reflexivity|]. split; [reflexivity|].
      split; [cbn [ui]; extends_ui | reflexivity]. }
  destruct probabilities as [[|item items]|]; unfold prob_frame; run_tab1.
  1:{ do 2 eexists. split; [reflexivity|]. split; [reflexivity|].
      split; [cbn [ui]; extends_ui | reflexivity]. }
  all: destruct (polymer_peaks !! p) as [peaks|],
         (columns spectrum_data !! "wavenumber") as [wavenumber|],
         (columns spectrum_data !! "intensity") as [intensity|],
         (material_info !! p) as [info|], download; run_tab1;
       try destruct (mark_peaks wavenumber peaks) as [e|[]]; run_tab1;
       (do 2 eexists; split; [reflexivity|]; split; [reflexivity|]; split;
        [ cbn [ui]; extends_ui
        | first [ reflexivity
                | split; [reflexivity
                         | split; [eexists; reflexivity
                                  | split; [eexists; reflexivity | discriminate]]] ] ]).
Qed.

(** X22. Pressing "Analyze Spectrum" never raises, whatever the import,
    the model and the keys of its result do. The session either keeps
    what it held, or holds the result the model returned for the prepared
    intensity column, and a stored result has 'polymer' and 'confidence',
    and probabilities that are not an empty dict. *)
Theorem analysis_stores_only_rendered_results (env : Env) (spectrum_data : Frame)
  (download : bool) (s : State) :
  exists s',
    analyze env spectrum_data download s = (inr tt, s') /\
    draws s' = draws s /\
    (raman_result s' = raman_result s \/
     exists predict spectrum prepared result,
       predict_polymer env = inr predict /\
       columns spectrum_data !! "intensity" = Some spectrum /\
       prepare env spectrum = inr prepared /\
       predict prepared = inr result /\
       raman_result s' = Some result /\
       is_Some (polymer result) /\ is_Some (confidence result) /\
       all_probabilities result <> Some []).
Proof.
  unfold analyze. unfold try_except, bind at 1.
  destruct (predict_polymer env) as [e|predict]; unfold lift at 1.
  { destruct s as [stored shown n]. eexists. split; [reflexivity|]. split; [reflexivity|].
    left. reflexivity. }
  unfold bind at 1, column, index.
  destruct (columns spectrum_data !! "intensity") as [spectrum|]; unfold ret, raise.
  2:{ destruct s as [stored shown n]. eexists. split; [reflexivity|].
      split; [reflexivity|]. left. reflexivity. }
  unfold bind at 1, lift at 1.
  destruct (prepare env spectrum) as [e|prepared] eqn:Hprepared.
  { destruct s as [stored shown n]. eexists. split; [reflexivity|]. split; [reflexivity|].
    left. reflexivity. }
  unfold bind at 1, lift at 1.
  destruct (predict prepared) as [e|result] eqn:Hresult.
  { destruct s as [stored shown n]. eexists. split; [reflexivity|]. split; [reflexivity|].
    left. reflexivity. }
  destruct (show_result_session spectrum_data result download s)
    as ([e|[]] & s' & -> & Hdraws & _ & Hsession).
  - destruct s' as [stored' shown' n']. eexists. split; [reflexivity|].
    cbn [draws raman_result] in *. split; [exact Hdraws|]. left. exact Hsession.
  - eexists. split; [reflexivity|]. split; [exact Hdraws|]. right.
    exists predict, spectrum, prepared, result.
    split; [reflexivity|]. split; [reflexivity|]. split; [exact Hprepared|].
    split; [exact Hresult | exact Hsession].
Qed.

(** What stops the rendering of a result before it is stored: a CSV
    that holds the header line and no rows stops at the cast of
    [np.interp]; probabilities that are an empty dict stop at the sort. *)
Example header_only_csv_is_not_analysed :
  analyze (lab header_only) header_only false start
  = (inr tt,
     mkState None
       [Info "Make sure your Raman model is properly loaded at `models/raman/raman_model.pkl`";
        Error "❌ Analysis failed: Cannot cast array data from dtype('O') to dtype('float64') according to the rule 'safe'"]
       0).
Proof. reflexivity. Qed.

Example empty_probabilities_are_not_stored :
  analyze (with_model (lab three_points)
             (fun _ => inr (mkPrediction (Some "PE") (Some 0.93%float) None (Some []))))
    three_points false start
  = (inr tt,
     mkState None
       [Info "Make sure your Raman model is properly loaded at `models/raman/raman_model.pkl`";
        Error "❌ Analysis failed: 'Probability'";
        SpectrumQuality 0.85; ConfidenceScore "High" 0.93; IdentifiedMaterial "PE";
        AnalysisResults]
       0).
Proof. vm_compute. reflexivity. Qed.

(** X23. The run depends on the model only through its answers on
    spectra of 1024 values: two model functions that agree on those give
    the same run on every frame. *)
Theorem model_sees_1024_values (env : Env)
  (predict predict' : Array -> Exception + Prediction)
  (spectrum_data : Frame) (download : bool) (s : State) :
  (forall spectrum, len spectrum = 1024%nat -> predict spectrum = predict' spectrum) ->
  analyze (with_model env predict) spectrum_data download s
  = analyze (with_model env predict') spectrum_data download s.
Proof.
  intros Hagree. unfold analyze, with_model, try_except, bind, lift, column, index.
  cbn [predict_polymer].
  destruct (columns spectrum_data !! "intensity") as [spectrum|]; [|reflexivity].
  unfold ret.
  change (prepare (mkEnv (read_csv env) (inr predict) (np_exp env) (np_interp_at env)
                     (randn_draw env)) spectrum) with (prepare env spectrum).
  change (prepare (mkEnv (read_csv env) (inr predict') (np_exp env) (np_interp_at env)
                     (randn_draw env)) spectrum) with (prepare env spectrum).
  destruct (prepare env spectrum) as [e|prepared] eqn:Hprepared; [reflexivity|].
  rewrite (Hagree prepared (prepare_length env spectrum prepared Hprepared)). reflexivity.
Qed.

(** A model that refuses every other length, on a CSV of three points. *)
Lemma model_sees_1024_values_sample :
  analyze (with_model (lab three_points) (fun _ => inr polyethylene)) three_points true start
  = analyze (with_model (lab three_points) strict_model) three_points true start.
Proof.
  apply (model_sees_1024_values (lab three_points) (fun _ => inr polyethylene) strict_model
           three_points true start).
  intros spectrum Hlen. unfold strict_model. rewrite Hlen. reflexivity.
Defined.

Lemma analyze_returns (env : Env) (spectrum_data : Frame) (download : bool) (s : State) :
  exists s',
    analyze env spectrum_data download s = (inr tt, s') /\
    exists new, ui s' = (new ++ ui s)%list.
Proof.
  unfold analyze. unfold try_except, bind at 1.
  destruct (predict_polymer env) as [e|predict]; unfold lift at 1.
  { destruct s as [stored shown n]. eexists. split; [reflexivity|].
    cbn [ui]. extends_ui. }
  unfold bind at 1, column, index.
  destruct (columns spectrum_data !! "intensity") as [spectrum|]; unfold ret, raise.
  2:{ destruct s as [stored shown n]. eexists. split; [reflexivity|].
      cbn [ui]. extends_ui. }
  unfold bind at 1, lift at 1.
  destruct (prepare env spectrum) as [e|prepared].
  { destruct s as [stored shown n]. eexists. split; [reflexivity|].
    cbn [ui]. extends_ui. }
  unfold bind at 1, lift at 1.
  destruct (predict prepared) as [e|result].
  { destruct s as [stored shown n]. eexists. split; [reflexivity|].
    cbn [ui]. extends_ui. }
  destruct (show_result_session spectrum_data result download s)
    as ([e|[]] & s' & -> & _ & [new Hnew] & _).
  - destruct s' as [stored' shown' n']. eexists. split; [reflexivity|].
    cbn [ui] in *. rewrite Hnew. do 2 apply extends_cons. exists new. reflexivity.
  - eexists. split; [reflexivity|]. exists new. exact Hnew.
Qed.

(** X24. An uploaded CSV that pandas reads is announced as loaded, and
    the tab then raises KeyError exactly when the frame lacks the column
    'wavenumber' or, having it, the column 'intensity'; with both columns
    the tab ends normally, whether or not the analysis is asked for. *)
Theorem tab1_needs_both_columns (env : Env) (w : Widgets) (s : State)
  (file : list Byte.byte) (spectrum_data : Frame) :
  use_sample w = false ->
  uploaded_csv w = Some file ->
  read_csv env file = inr spectrum_data ->
  exists s',
    tab1 env w s
    = (match columns spectrum_data !! "wavenumber", columns spectrum_data !! "intensity" with
       | None, _ => inl (mkException "KeyError" "'wavenumber'")
       | Some _, None => inl (mkException "KeyError" "'intensity'")
       | Some _, Some _ => inr tt
       end, s') /\
    In (Loaded (rows spectrum_data)) (ui s').
Proof.
  intros Hsample Hfile Hread. destruct s as [stored shown n].
  unfold tab1, load. rewrite Hsample, Hfile. run_tab1. rewrite Hread. run_tab1.
  destruct (columns spectrum_data !! "wavenumber") as [wavenumber|]; run_tab1.
  2:{ eexists. split; [reflexivity|]. left. reflexivity. }
  destruct (columns spectrum_data !! "intensity") as [intensity|]; run_tab1.
  2:{ eexists. split; [reflexivity|]. left. reflexivity. }
  destruct (analyze_spectrum w).
  - match goal with |- context [analyze env spectrum_data ?d ?s0] =>
      destruct (analyze_returns env spectrum_data d s0) as (s' & -> & new & Hnew)
    end.
    exists s'. split; [reflexivity|].
    change (In (Loaded (rows spectrum_data)) (ui s')).
    rewrite Hnew. apply in_or_app. right.
    cbn [ui]. right. left. reflexivity.
  - eexists. split; [reflexivity|]. right. left. reflexivity.
Qed.

(** A CSV whose columns are named x and y. *)
Lemma tab1_needs_both_columns_sample :
  exists s',
    tab1 (lab unlabelled) (mkWidgets (Some unlabelled_csv) false true false) start
    = (inl (mkException "KeyError" "'wavenumber'"), s') /\
    In (Loaded 3) (ui s').
Proof.
  destruct (tab1_needs_both_columns (lab unlabelled)
              (mkWidgets (Some unlabelled_csv) false true false)
              start unlabelled_csv unlabelled eq_refl eq_refl eq_refl)
    as (s' & Hrun & Hloaded).
  exists s'. split; [exact Hrun | exact Hloaded].
Defined.

Lemma length_add (xs ys : list float) :
  length xs = length ys -> length (add xs ys) = length xs.
Proof.
  revert ys. induction xs as [|x xs IH]; intros [|y ys] Hlen; simpl in *;
    try discriminate; [reflexivity|]. f_equal. apply IH. congruence.
Qed.

(** X25. With "Use sample spectrum" ticked the tab never raises and
    never reads the upload: it plots 1024 wavenumbers against 1024
    intensities, takes 1024 draws, and the model is handed those
    intensities as they are. *)
Theorem sample_spectrum_is_ready (env : Env) (w : Widgets) (s : State) :
  use_sample w = true ->
  exists wavenumber intensity s',
    tab1 env w s = (inr tt, s') /\
    In (RawSpectrum (Numeric wavenumber) (Numeric intensity)) (ui s') /\
    length wavenumber = 1024%nat /\
    length intensity = 1024%nat /\
    prepare env (Numeric intensity) = inr (Numeric intensity) /\
    forall read_csv',
      tab1 (mkEnv read_csv' (predict_polymer env) (np_exp env) (np_interp_at env)
              (randn_draw env)) w s
      = tab1 env w s.
Proof.
  intros Hsample. destruct s as [stored shown n].
  set (wavenumber := Government.np_linspace 400 3500 1024).
  set (intensity :=
         add (map (sample_peaks env) wavenumber)
           (map (fun k => (10 + 2 * randn_draw env k)%float) (seq n (length wavenumber)))).
  assert (length wavenumber = 1024%nat) as Hw by apply length_np_linspace.
  assert (length intensity = 1024%nat) as Hi.
  { unfold intensity. rewrite length_add; rewrite !length_map; [exact Hw|].
    rewrite length_seq. reflexivity. }
  exists wavenumber, intensity.
  assert (exists s', tab1 env w (mkState stored shown n) = (inr tt, s') /\
                     In (RawSpectrum (Numeric wavenumber) (Numeric intensity)) (ui s'))
    as (s' & Hrun & Hshown).
  { unfold tab1, load. rewrite Hsample. run_tab1. fold wavenumber. fold intensity.
    cbn [columns]. rewrite lookup_insert_eq. run_tab1.
    rewrite lookup_insert_ne by discriminate. rewrite lookup_insert_eq. run_tab1.
    destruct (analyze_spectrum w).
    - match goal with |- context [analyze env ?df ?d ?s0] =>
        destruct (analyze_returns env df d s0) as (s' & -> & new & Hnew)
      end.
      exists s'. split; [reflexivity|].
      change (In (RawSpectrum (Numeric wavenumber) (Numeric intensity)) (ui s')).
      rewrite Hnew. apply in_or_app. right. left. reflexivity.
    - eexists. split; [reflexivity|]. left. reflexivity. }
  exists s'. split; [exact Hrun|]. split; [exact Hshown|].
  split; [exact Hw|]. split; [exact Hi|]. split.
  - unfold prepare. cbn [len]. rewrite Hi. reflexivity.
  - intros read_csv'. unfold tab1, load. rewrite Hsample. reflexivity.
Qed.

(** The sample spectrum, analysed. *)
Lemma sample_spectrum_is_ready_sample :
  exists wavenumber intensity s',
    tab1 (lab unlabelled) (mkWidgets None true true false) start = (inr tt, s') /\
    In (RawSpectrum (Numeric wavenumber) (Numeric intensity)) (ui s') /\
    length wavenumber = 1024%nat /\
    length intensity = 1024%nat /\
    prepare (lab unlabelled) (Numeric intensity) = inr (Numeric intensity) /\
    forall read_csv',
      tab1 (mkEnv read_csv' (predict_polymer (lab unlabelled)) (np_exp (lab unlabelled))
              (np_interp_at (lab unlabelled)) (randn_draw (lab unlabelled)))
        (mkWidgets None true true false) start
      = tab1 (lab unlabelled) (mkWidgets None true true false) start.
Proof.
  apply (sample_spectrum_is_ready (lab unlabelled) (mkWidgets None true true false) start).
  reflexivity.
Defined.

Ltac lookup_key key :=
  match goal with
  | |- context [<[?k := _]> _ !! key] =>
      destruct (decide (k = key)) as [<-|?];
      [rewrite lookup_insert_eq | rewrite lookup_insert_ne by assumption]
  end.

(** X26. A peak table exists for the six polymers the page lists as
    detectable, each with three peaks; a material card exists for PE, PP,
    PS and PET only, so a result of PVC or PMMA is shown with its peaks
    and without material properties. *)
Theorem material_cards_cover_four_of_six (detected_polymer : string) :
  (is_Some (polymer_peaks !! detected_polymer)
   <-> In detected_polymer ["PE"; "PP"; "PS"; "PET"; "PVC"; "PMMA"]) /\
  (is_Some (material_info !! detected_polymer)
   <-> In detected_polymer ["PE"; "PP"; "PS"; "PET"]) /\
  (forall peaks, polymer_peaks !! detected_polymer = Some peaks -> length peaks = 3%nat).
Proof.
  unfold polymer_peaks, material_info. cbn [list_to_map foldr uncurry fst snd In].
  split; [|split].
  - repeat lookup_key detected_polymer.
    all: split; [ intros [x Habs]; first [ tauto | rewrite lookup_empty in Habs; discriminate ]
                | intros Hin; first [ eexists; reflexivity | exfalso; intuition congruence ] ].
  - repeat lookup_key detected_polymer.
    all: split; [ intros [x Habs]; first [ tauto | rewrite lookup_empty in Habs; discriminate ]
                | intros Hin; first [ eexists; reflexivity | exfalso; intuition congruence ] ].
  - intros peaks. repeat lookup_key detected_polymer.
    all: first [ intros [= <-]; reflexivity | rewrite lookup_empty; discriminate ].
Qed.

End ResearcherProperties.
